(** * vitest-mcp-server: a shallow embedding of the tool functions and their
      HTTP handlers, with the properties the specification states about them.

    Conventions of the embedding.
    - JavaScript numbers are IEEE 754 doubles.  Hit counts are integers
      ([Z]) and are added as such, which is what the code computes as long
      as the sums stay within the integers that a double holds exactly
      (up to 2^53); the theorems on such sums say so.  Test durations are
      doubles ([Double.Num]), and every operation on them rounds to the
      nearest double.
    - A JavaScript object used as a map is an association list in
      [Object.keys] order; its keys are pairwise distinct.
    - The file system is a finite map from path strings to nodes; the
      operations of [fs-extra] are functions on it that may throw.
    - Node's [path] module, subprocesses, [JSON.parse], dynamic [import] and
      the language-model backends are interfaces ([PathModule],
      [Subprocess], [CoverageJson], [ReportJson], [Importer], [Backend]);
      [Posix] is a POSIX instance of the first one and [Sample] holds
      concrete instances of the others, for evaluation. *)

From Stdlib Require Import ZArith QArith Qminmax Qround Qpower Lqa List String Ascii DecimalString Permutation Sorted Lia.
From stdpp Require Import gmap strings list fin_maps.

Set Warnings "-register-all".

Local Open Scope string_scope.
Local Open Scope Z_scope.

(** ** JavaScript values as far as the program needs them *)

Inductive Json :=
  | JNull
  | JBool (b : bool)
  | JNum (n : Z)
  | JStr (s : string)
  | JArr (items : list Json)
  | JObj (fields : list (string * Json)).

(** [!!v]: everything is truthy except [null], [false], [0] and [''].
    (A property that is missing is [None] at its lookup, see [prop].) *)
Definition truthy (v : Json) : bool :=
  match v with
  | JNull => false
  | JBool b => b
  | JNum n => negb (n =? 0)
  | JStr s => negb (String.eqb s "")
  | JArr _ | JObj _ => true
  end.

Fixpoint assoc {A : Type} (k : string) (l : list (string * A)) : option A :=
  match l with
  | [] => None
  | (k', v) :: l' => if String.eqb k k' then Some v else assoc k l'
  end.

(** [o.k] on a plain object. *)
Definition prop (k : string) (o : list (string * Json)) : option Json := assoc k o.

Definition optTruthy (v : option Json) : bool :=
  match v with Some j => truthy j | None => false end.

(** What a [throw] or a rejected promise carries: an [Error] object (its
    [message] is not enumerable, [props] are the enumerable own properties,
    such as [code] and [path] of a system error) or a plain object. *)
Inductive Thrown :=
  | ThrownError (message : string) (props : list (string * Json))
  | ThrownObj (fields : list (string * Json)).

(** [JSON.stringify] view of a thrown value, as [res.json] sends it. *)
Definition thrownJson (e : Thrown) : Json :=
  match e with
  | ThrownError _ props => JObj props
  | ThrownObj fields => JObj fields
  end.

(** [(e as any).error || e] *)
Definition errorOrSelf (e : Thrown) : Json :=
  match e with
  | ThrownError _ props =>
      match prop "error" props with
      | Some v => if truthy v then v else thrownJson e
      | None => thrownJson e
      end
  | ThrownObj fields =>
      match prop "error" fields with
      | Some v => if truthy v then v else thrownJson e
      | None => thrownJson e
      end
  end.

(** [(e as any).message || dflt] *)
Definition messageOr (dflt : string) (e : Thrown) : Json :=
  match e with
  | ThrownError m _ => if String.eqb m "" then JStr dflt else JStr m
  | ThrownObj fields =>
      match prop "message" fields with
      | Some v => if truthy v then v else JStr dflt
      | None => JStr dflt
      end
  end.

(** The result of a computation that may throw. *)
Inductive Outcome (A : Type) :=
  | Ok (a : A)
  | Throw (e : Thrown).
Arguments Ok {A} a.
Arguments Throw {A} e.

(** [String.prototype.startsWith] and [endsWith]. *)
Definition startsWith (s p : string) : bool := String.prefix p s.

Definition endsWith (s p : string) : bool :=
  let n := String.length s in
  let m := String.length p in
  (m <=? n)%nat && String.eqb (String.substring (n - m) m s) p.

(** ** The file system *)

Inductive Node :=
  | File (content : string)
  | Dir.

Abbreviation FS := (gmap string Node).

(** Node's [path] module. *)
Class PathModule := {
    isAbsolute : string -> bool;
    join : list string -> string;
    extname : string -> string;
    basename : string -> string -> string;
    dirname : string -> string;
    relative : string -> string -> string
  }.

Module Fs.
Section WithPath.
Context `{PathModule}.

Definition enoent (p : string) : Thrown :=
  ThrownError ("ENOENT: no such file or directory, open '" ++ p ++ "'")
    [("errno", JNum (-2)); ("code", JStr "ENOENT"); ("path", JStr p)].
Definition eisdir (p : string) : Thrown :=
  ThrownError ("EISDIR: illegal operation on a directory, open '" ++ p ++ "'")
    [("errno", JNum (-21)); ("code", JStr "EISDIR"); ("path", JStr p)].
Definition enotdir (p : string) : Thrown :=
  ThrownError ("ENOTDIR: not a directory, mkdir '" ++ p ++ "'")
    [("errno", JNum (-20)); ("code", JStr "ENOTDIR"); ("path", JStr p)].

(** [fs.pathExists(p)] *)
Definition pathExists (p : string) (fs : FS) : bool :=
  match fs !! p with Some _ => true | None => false end.

(** [fs.readFile(p, 'utf-8')] *)
Definition readFile (p : string) (fs : FS) : Outcome string :=
  match fs !! p with
  | Some (File c) => Ok c
  | Some Dir => Throw (eisdir p)
  | None => Throw (enoent p)
  end.

(** [fs.writeFile(p, c)]: creates or replaces the file; it does not create
    the parent directory. *)
Definition writeFile (p c : string) (fs : FS) : Outcome FS :=
  match fs !! p with
  | Some Dir => Throw (eisdir p)
  | Some (File _) => Ok (<[p := File c]> fs)
  | None =>
      match fs !! dirname p with
      | Some Dir => Ok (<[p := File c]> fs)
      | Some (File _) => Throw (enotdir p)
      | None => Throw (enoent p)
      end
  end.

(** [fs.ensureDir(p)] (mkdir -p): creates [p] and its missing ancestors;
    an existing directory is left alone and an existing file is an error.
    [n] bounds the number of ancestors that are walked. *)
Fixpoint mkdirs (n : nat) (p : string) (fs : FS) : Outcome FS :=
  match fs !! p with
  | Some Dir => Ok fs
  | Some (File _) => Throw (enotdir p)
  | None =>
      match n with
      | O => Throw (enoent p)
      | S n' =>
          match mkdirs n' (dirname p) fs with
          | Ok fs' => Ok (<[p := Dir]> fs')
          | Throw e => Throw e
          end
      end
  end.

Definition ensureDir (p : string) (fs : FS) : Outcome FS :=
  mkdirs (S (String.length p)) p fs.

(** A file system extends another one when every node of the first is
    still there, unchanged. *)
Definition preserves (fs fs' : FS) : Prop :=
  forall p n, fs !! p = Some n -> fs' !! p = Some n.

End WithPath.
End Fs.

(** ** Subprocesses *)

(** What the callback of [exec] receives: [error] (its message, when the
    command failed), [stdout] and [stderr]. *)
Record ExecResult := {
    exitError : option string;
    stdout : string;
    stderr : string
  }.

(** [child_process] and [process.cwd()]: a command run in a directory reads
    and changes the file system. *)
Class Subprocess := {
    cwd : string;
    run : string -> string -> FS -> ExecResult * FS
  }.

(** [execSync(cmd)]: throws an [Error] when the command fails. *)
Definition execSync `{Subprocess} (cmd : string) (fs : FS) : Outcome string * FS :=
  let '(r, fs') := run cmd cwd fs in
  match exitError r with
  | Some msg => (Throw (ThrownError msg [("status", JNum 1)]), fs')
  | None => (Ok (stdout r), fs')
  end.

(** ** src/tools/analyzeCoverage.ts *)

Module Coverage.

(** One file of [coverage-final.json]: statement hit counts [s], branch
    hit-count arrays [b], function hit counts [f]; each may be missing. *)
Record FileCoverage := {
    s : option (list (string * Z));
    b : option (list (string * list Z));
    f : option (list (string * Z))
  }.

Definition CoverageMap := list (string * FileCoverage).

(** [{ file, type, id }] *)
Record Uncovered := {
    file : string;
    type : string;
    id : string
  }.

Record Analysis := {
    uncovered : list Uncovered;
    coveragePath : string
  }.

(** [x || {}] *)
Definition orEmpty {A : Type} (o : option (list A)) : list A :=
  match o with Some l => l | None => [] end.

(** A loop over [Object.entries(o)] that pushes [{ file, type, id }] for
    each key whose value passes [test]. *)
Definition collectWhere {A : Type} (fl ty : string) (test : A -> bool)
    (entries : list (string * A)) : list Uncovered :=
  entries ≫= fun '(i, c) =>
    if test c then [{| file := fl; type := ty; id := i |}] else [].

(** The three loops over one file's data, in source order: statements
    with [count === 0], branches with [counts.some(c => c === 0)], functions
    with [count === 0]. *)
Definition uncoveredOfFile (file : string) (data : FileCoverage) : list Uncovered :=
  collectWhere file "statement" (fun count => count =? 0) (orEmpty (s data))
  ++ collectWhere file "branch" (existsb (fun c => c =? 0)) (orEmpty (b data))
  ++ collectWhere file "function" (fun count => count =? 0) (orEmpty (f data)).

(** [for (const file of Object.keys(coverage)) ...] *)
Definition collectUncovered (coverage : CoverageMap) : list Uncovered :=
  coverage ≫= fun '(file, data) => uncoveredOfFile file data.

(** [JSON.parse] followed by the traversal throws unless the text is a
    coverage map. *)
Class CoverageJson := { parseCoverage : string -> option CoverageMap }.

Definition vitestCmd : string := "npx vitest run --coverage --reporter=json".

Section WithPlatform.
Context `{PathModule} `{Subprocess} `{CoverageJson}.

Definition analyzeCoverage (projectRoot : string) (fs : FS) : Outcome Analysis * FS :=
  let '(r, fs1) := run vitestCmd projectRoot fs in
  match exitError r with
  | Some message =>
      (Throw (ThrownObj [("error", JStr message); ("stderr", JStr (stderr r))]), fs1)
  | None =>
      let coveragePath := join [projectRoot; "coverage"; "coverage-final.json"] in
      match Fs.readFile coveragePath fs1 with
      | Throw readErr =>
          (Throw (ThrownObj [("error", JStr "Failed to read coverage file");
                             ("details", thrownJson readErr)]), fs1)
      | Ok raw =>
          match parseCoverage raw with
          | None =>
              (Throw (ThrownObj [("error", JStr "Failed to read coverage file");
                                 ("details", JObj [])]), fs1)
          | Some coverage =>
              (Ok {| uncovered := collectUncovered coverage;
                     coveragePath := coveragePath |}, fs1)
          end
      end
  end.

(** The coverage artifact the test runner left in the project. *)
Definition artifact (projectRoot : string) (fs : FS) : option CoverageMap :=
  match Fs.readFile (join [projectRoot; "coverage"; "coverage-final.json"]) fs with
  | Ok raw => parseCoverage raw
  | Throw _ => None
  end.
End WithPlatform.

(** The keys of a JavaScript object are pairwise distinct. *)
Definition distinctKeys {A : Type} (o : list (string * A)) : Prop := NoDup (o.*1).

Definition wellFormed (coverage : CoverageMap) : Prop :=
  distinctKeys coverage /\
  forall file data, (file, data) ∈ coverage ->
    distinctKeys (orEmpty (s data)) /\
    distinctKeys (orEmpty (b data)) /\
    distinctKeys (orEmpty (f data)).

(** An uncovered item of the artifact: a statement or function whose hit
    count is zero, a branch with a zero in its hit-count array. *)
Definition isUncovered (coverage : CoverageMap) (u : Uncovered) : Prop :=
  exists data, (file u, data) ∈ coverage /\
    ((type u = "statement" /\ (id u, 0) ∈ orEmpty (s data)) \/
     (type u = "branch" /\ exists counts, (id u, counts) ∈ orEmpty (b data) /\ 0 ∈ counts) \/
     (type u = "function" /\ (id u, 0) ∈ orEmpty (f data))).

End Coverage.

(** ** Node's [path.posix], restated from its documented behaviour.
    It serves to evaluate the tools on concrete inputs; the properties below
    are proved for every [PathModule]. *)
Module Posix.

Definition isSlash (c : ascii) : bool := Ascii.eqb c "/".
Definition isDot (c : ascii) : bool := Ascii.eqb c ".".

Definition chars (s : string) : list ascii := list_ascii_of_string s.
Definition str (l : list ascii) : string := string_of_list_ascii l.

(** Components between slashes. *)
Fixpoint split (cs : list ascii) : list (list ascii) :=
  match cs with
  | [] => [[]]
  | c :: cs' =>
      if isSlash c then [] :: split cs'
      else match split cs' with
           | [] => [[c]]
           | h :: t => (c :: h) :: t
           end
  end.

Definition components (p : string) : list string := map str (split (chars p)).

(** Resolution of [.] and [..]; [acc] holds the components kept so far,
    last one first. *)
Fixpoint normAcc (abs : bool) (acc parts : list string) : list string :=
  match parts with
  | [] => rev acc
  | p :: rest =>
      if String.eqb p "" || String.eqb p "." then normAcc abs acc rest
      else if String.eqb p ".." then
        match acc with
        | a :: acc' =>
            if String.eqb a ".." then normAcc abs (".." :: acc) rest
            else normAcc abs acc' rest
        | [] => if abs then normAcc abs [] rest else normAcc abs [".."] rest
        end
      else normAcc abs (p :: acc) rest
  end.

Definition normalize (p : string) : string :=
  if String.eqb p "" then "." else
  let abs := startsWith p "/" in
  let body := String.concat "/" (normAcc abs [] (components p)) in
  let trailing := endsWith p "/" in
  if String.eqb body "" then
    (if abs then "/" else if trailing then "./" else ".")
  else
    (if abs then "/" else "") ++ body ++ (if trailing then "/" else "").

Definition join (parts : list string) : string :=
  match List.filter (fun p => negb (String.eqb p "")) parts with
  | [] => "."
  | ps => normalize (String.concat "/" ps)
  end.

Definition isAbsolute (p : string) : bool := startsWith p "/".

Fixpoint takeWhile {A : Type} (f : A -> bool) (l : list A) : list A :=
  match l with
  | x :: l' => if f x then x :: takeWhile f l' else []
  | [] => []
  end.

Fixpoint dropWhile {A : Type} (f : A -> bool) (l : list A) : list A :=
  match l with
  | x :: l' => if f x then dropWhile f l' else l
  | [] => []
  end.

(** The last component, trailing slashes ignored. *)
Definition lastPart (p : string) : list ascii :=
  rev (takeWhile (fun c => negb (isSlash c)) (dropWhile isSlash (rev (chars p)))).

(** [rcs] is the path read backwards, [i] the index of its first character
    in the path; the scan stops before index 0. *)
Fixpoint dirEnd (rcs : list ascii) (i : nat) (matchedSlash : bool) : option nat :=
  match rcs, i with
  | c :: rest, S i' =>
      if isSlash c then (if matchedSlash then dirEnd rest i' true else Some i)
      else dirEnd rest i' false
  | _, _ => None
  end.

Definition dirname (p : string) : string :=
  if String.eqb p "" then "." else
  let hasRoot := startsWith p "/" in
  match dirEnd (rev (chars p)) (String.length p - 1) true with
  | None => if hasRoot then "/" else "."
  | Some e => if hasRoot && (e =? 1)%nat then "//" else String.substring 0 e p
  end.

(** From the last dot of the last component on; nothing when there is no
    dot, when the only dot comes first, or when the component is [..]. *)
Definition extOf (base : list ascii) : list ascii :=
  let rbase := rev base in
  let afterDot := takeWhile (fun c => negb (isDot c)) rbase in
  match dropWhile (fun c => negb (isDot c)) rbase with
  | [] => []
  | [_] => []
  | _ :: _ :: _ =>
      if String.eqb (str base) ".." then [] else "."%char :: rev afterDot
  end.

Definition extname (p : string) : string := str (extOf (lastPart p)).

Definition basename (p ext : string) : string :=
  let base := str (lastPart p) in
  if String.eqb ext p then ""
  else if negb (String.eqb ext "") && endsWith base ext
          && (String.length ext <? String.length base)%nat
  then String.substring 0 (String.length base - String.length ext) base
  else base.

Section Relative.
Variable cwd : string.

(** [path.resolve(p)]: absolute, normalized, without trailing slash. *)
Definition resolveParts (p : string) : list string :=
  normAcc true [] (components (if isAbsolute p then p else cwd ++ "/" ++ p)).

Fixpoint dropCommon (a b : list string) : list string * list string :=
  match a, b with
  | x :: a', y :: b' => if String.eqb x y then dropCommon a' b' else (a, b)
  | _, _ => (a, b)
  end.

Definition relative (from to : string) : string :=
  let '(up, down) := dropCommon (resolveParts from) (resolveParts to) in
  String.concat "/" (map (fun _ => "..") up ++ down).

Definition pathModule : PathModule :=
  Build_PathModule isAbsolute join extname basename dirname relative.
End Relative.
End Posix.

(** ** src/tools/coverageDiff.ts *)

Module Diff.

(** The values that [reduce((a, b) => a + b, 0)] meets: numbers, the
    strings that [+] builds, arrays of numbers, and [NaN]. *)
Inductive JsVal :=
  | VNum (n : Z)
  | VStr (s : string)
  | VArr (items : list Z)
  | VNaN.

Definition numToString (n : Z) : string := NilZero.string_of_int (Z.to_int n).

(** [ToString]; an array prints its elements separated by commas. *)
Definition toString (v : JsVal) : string :=
  match v with
  | VNum n => numToString n
  | VStr s => s
  | VArr items => String.concat "," (map numToString items)
  | VNaN => "NaN"
  end.

(** [ToNumber] of a string, on the strings that occur here (decimal
    digits, a sign, commas): the empty string is 0, a decimal literal is
    its value, anything else is [NaN]. *)
Definition stringToNumber (s : string) : JsVal :=
  if String.eqb s "" then VNum 0
  else match NilZero.int_of_string s with
       | Some i => VNum (Z.of_int i)
       | None => VNaN
       end.

Definition toNumber (v : JsVal) : JsVal :=
  match v with
  | VNum n => VNum n
  | VStr s => stringToNumber s
  | VArr items => stringToNumber (toString v)
  | VNaN => VNaN
  end.

(** [a + b]: addition of two numbers, concatenation as soon as one side
    is a string or an array. *)
Definition plus (a b : JsVal) : JsVal :=
  match a, b with
  | VNum x, VNum y => VNum (x + y)
  | VNaN, VNum _ | VNum _, VNaN | VNaN, VNaN => VNaN
  | _, _ => VStr (toString a ++ toString b)
  end.

(** [a - b]: always numeric. *)
Definition minus (a b : JsVal) : JsVal :=
  match toNumber a, toNumber b with
  | VNum x, VNum y => VNum (x - y)
  | _, _ => VNaN
  end.

(** [v > 0] and [v < 0]. *)
Definition positive (v : JsVal) : bool :=
  match toNumber v with VNum x => 0 <? x | _ => false end.
Definition negative (v : JsVal) : bool :=
  match toNumber v with VNum x => x <? 0 | _ => false end.

(** [Object.values(o).reduce((a, b) => a + (b as number), 0)] *)
Definition reducePlus (values : list JsVal) : JsVal := fold_left plus values (VNum 0).

Record FileDiff := {
    baseStatements : JsVal;
    currentStatements : JsVal;
    statementChange : JsVal;
    baseBranches : JsVal;
    currentBranches : JsVal;
    branchChange : JsVal
  }.

(** [new Set(l)]: the elements of [l], each at its first occurrence. *)
Fixpoint setOf (l : list string) : list string :=
  match l with
  | [] => []
  | x :: l' => x :: List.filter (fun y => negb (String.eqb y x)) (setOf l')
  end.

(** [Object.values(m[f]?.s ?? {})] and [Object.values(m[f]?.b ?? {})] *)
Definition statementValues (m : Coverage.CoverageMap) (f : string) : list JsVal :=
  match assoc f m with
  | Some data => map (fun e => VNum e.2) (Coverage.orEmpty (Coverage.s data))
  | None => []
  end.

Definition branchValues (m : Coverage.CoverageMap) (f : string) : list JsVal :=
  match assoc f m with
  | Some data => map (fun e => VArr e.2) (Coverage.orEmpty (Coverage.b data))
  | None => []
  end.

Definition diffOfFile (base current : Coverage.CoverageMap) (f : string) : FileDiff :=
  let baseCovered := reducePlus (statementValues base f) in
  let curCovered := reducePlus (statementValues current f) in
  {| baseStatements := baseCovered;
     currentStatements := curCovered;
     statementChange := minus curCovered baseCovered;
     baseBranches := reducePlus (branchValues base f);
     currentBranches := reducePlus (branchValues current f);
     branchChange := minus (reducePlus (branchValues current f))
                           (reducePlus (branchValues base f)) |}.

Definition computeDiff (base current : Coverage.CoverageMap) : list (string * FileDiff) :=
  map (fun f => (f, diffOfFile base current f)) (setOf (base.*1 ++ current.*1)).

Record Summary := {
    totalFiles : nat;
    improvedFiles : nat;
    degradedFiles : nat;
    unchangedFiles : Z;
    totalStatementChange : JsVal
  }.

(** The loop of generateDiffSummary over [Object.values(diff)]. *)
Fixpoint summaryLoop (values : list FileDiff) (improved degraded : nat) (total : JsVal)
  : nat * nat * JsVal :=
  match values with
  | [] => (improved, degraded, total)
  | fileData :: rest =>
      let improved' :=
        if positive (statementChange fileData) then S improved else improved in
      let degraded' :=
        if negative (statementChange fileData) then S degraded else degraded in
      summaryLoop rest improved' degraded' (plus total (statementChange fileData))
  end.

Definition generateDiffSummary (diff : list (string * FileDiff)) : Summary :=
  let totalFiles := length (diff.*1) in
  let '(improvedFiles, degradedFiles, totalStatementChange) :=
    summaryLoop (diff.*2) 0%nat 0%nat (VNum 0) in
  {| totalFiles := totalFiles;
     improvedFiles := improvedFiles;
     degradedFiles := degradedFiles;
     unchangedFiles := Z.of_nat totalFiles - Z.of_nat improvedFiles - Z.of_nat degradedFiles;
     totalStatementChange := totalStatementChange |}.

(** Sums, as the specification states them. *)
Definition sumZ (l : list Z) : Z := fold_right Z.add 0 l.


Definition branchCounts (m : Coverage.CoverageMap) (f : string) : list Z :=
  match assoc f m with
  | Some data => concat ((Coverage.orEmpty (Coverage.b data)).*2)
  | None => []
  end.


End Diff.

(** ** JavaScript numbers (IEEE 754 doubles) *)

Module Double.

(** A JavaScript number: a finite double, given by its rational value, an
    infinity or NaN.  The sign of zero is not kept; no operation below
    depends on it. *)
Inductive Num :=
  | Fin (q : Q)
  | PInf
  | NInf
  | NaN.

Definition pow2 (p : Z) : Q := (2 ^ p)%Q.

(** The binade of a positive rational: the [e] with [2^e <= q < 2^(e+1)]. *)
Definition binade (q : Q) : Z :=
  let k := Z.log2 (Qnum q) - Z.log2 (Z.pos (Qden q)) in
  if Qle_bool (pow2 k) q then k else k - 1.

(** The integer nearest to [x], the even one of two that are equally near. *)
Definition nearestEven (x : Q) : Z :=
  let f := Qfloor x in
  match (x - inject_Z f ?= 1 # 2)%Q with
  | Lt => f
  | Gt => f + 1
  | Eq => if Z.even f then f else f + 1
  end.

(** The spacing of the doubles around a positive rational: 53 significant
    bits, and no exponent below that of the subnormal numbers. *)
Definition ulpExponent (q : Q) : Z := Z.max (binade q - 52) (-1074).

(** A positive rational rounded to the nearest multiple of that spacing. *)
Definition roundPos (q : Q) : Q :=
  (inject_Z (nearestEven (q / pow2 (ulpExponent q))) * pow2 (ulpExponent q))%Q.

(** Rounding to nearest, ties to even, with overflow to an infinity. *)
Definition rnd (q : Q) : Num :=
  match (q ?= 0)%Q with
  | Eq => Fin 0
  | Gt => if Qle_bool (pow2 1024) (roundPos q) then PInf else Fin (roundPos q)
  | Lt => if Qle_bool (pow2 1024) (roundPos (- q)) then NInf else Fin (- roundPos (- q))
  end.

Definition Qltb (x y : Q) : bool := negb (Qle_bool y x).

(** [x < y] and [x <= y] *)
Definition ltb (x y : Num) : bool :=
  match x, y with
  | NaN, _ | _, NaN => false
  | Fin a, Fin b => Qltb a b
  | _, NInf => false
  | NInf, _ => true
  | PInf, _ => false
  | Fin _, PInf => true
  end.

Definition leb (x y : Num) : bool :=
  match x, y with
  | NaN, _ | _, NaN => false
  | Fin a, Fin b => Qle_bool a b
  | NInf, _ => true
  | _, PInf => true
  | _, NInf => false
  | PInf, _ => false
  end.

(** [x + y] *)
Definition add (x y : Num) : Num :=
  match x, y with
  | NaN, _ | _, NaN => NaN
  | PInf, NInf | NInf, PInf => NaN
  | PInf, _ | _, PInf => PInf
  | NInf, _ | _, NInf => NInf
  | Fin a, Fin b => rnd (a + b)
  end.

(** The product of an infinity and a finite number. *)
Definition scaleInf (inf : Num) (a : Q) : Num :=
  match (a ?= 0)%Q, inf with
  | Eq, _ => NaN
  | Gt, _ => inf
  | Lt, PInf => NInf
  | Lt, _ => PInf
  end.

(** [x * y] *)
Definition mul (x y : Num) : Num :=
  match x, y with
  | NaN, _ | _, NaN => NaN
  | Fin a, Fin b => rnd (a * b)
  | Fin a, inf | inf, Fin a => scaleInf inf a
  | PInf, PInf | NInf, NInf => PInf
  | PInf, NInf | NInf, PInf => NInf
  end.

(** [x / d] for a positive integer [d] *)
Definition divBy (x : Num) (d : positive) : Num :=
  match x with
  | Fin a => rnd (a / inject_Z (Z.pos d))
  | _ => x
  end.

(** [Math.max(x, y)] *)
Definition max (x y : Num) : Num :=
  match x, y with
  | NaN, _ | _, NaN => NaN
  | _, _ => if ltb x y then y else x
  end.

(** [x === y] *)
Definition eqb (x y : Num) : bool :=
  match x, y with
  | Fin a, Fin b => Qeq_bool a b
  | PInf, PInf | NInf, NInf => true
  | _, _ => false
  end.

(** A number without a fraction, as [Math.round] returns it. *)
Inductive Integral :=
  | IFin (z : Z)
  | IPInf
  | INInf
  | INaN.

(** [Math.round(x)]: the integer nearest to [x], the larger one of two that
    are equally near. *)
Definition round (x : Num) : Integral :=
  match x with
  | Fin q => IFin (Qfloor (q + (1 # 2)))
  | PInf => IPInf
  | NInf => INInf
  | NaN => INaN
  end.

(** *** Number::toString of a number without a fraction *)

Definition decimal (n : Z) : string := NilZero.string_of_int (Z.to_int n).

(** Whether the decimal [c] reads as the double [v]. *)
Definition readsAs (c v : Z) : bool := eqb (rnd (inject_Z c)) (Fin (inject_Z v)).

(** The decimal of [k] significant digits, [s * 10^(n-k)], that reads as
    [v], if there is one: the nearer one of two, the one with [s] even if
    they are equally near. *)
Definition candidate (v n k : Z) : option Z :=
  let scale := 10 ^ (n - k) in
  let s := v / scale in
  let lo := s * scale in
  let hi := lo + scale in
  match readsAs lo v, readsAs hi v with
  | true, true =>
      Some (if v - lo <? hi - v then lo
            else if hi - v <? v - lo then hi
            else if Z.even s then lo else hi)
  | true, false => Some lo
  | false, true => Some hi
  | false, false => None
  end.

Fixpoint shortestFrom (v n k : Z) (fuel : nat) : Z :=
  match fuel with
  | O => v
  | S fuel' =>
      match candidate v n k with
      | Some c => c
      | None => shortestFrom v n (k + 1) fuel'
      end
  end.

(** The decimal with the fewest significant digits that reads as the
    positive integer [v]; seventeen digits tell any two doubles apart. *)
Definition shortest (v : Z) : Z :=
  let n := String.length (decimal v) in
  shortestFrom v (Z.of_nat n) 1 (Nat.min n 17).

(** The digits of a decimal without the zeros at its end. *)
Fixpoint significant (digits : string) : string :=
  match digits with
  | EmptyString => EmptyString
  | String c rest =>
      match significant rest with
      | EmptyString => if Ascii.eqb c "0" then EmptyString else String c EmptyString
      | kept => String c kept
      end
  end.

(** The form with an exponent, for a decimal of more than 21 digits. *)
Definition exponential (digits : string) : string :=
  let e := decimal (Z.of_nat (String.length digits) - 1) in
  match significant digits with
  | String c EmptyString => String c ("e+" ++ e)
  | String c rest => String c ("." ++ rest ++ "e+" ++ e)
  | EmptyString => digits
  end.

Definition positiveToString (v : Z) : string :=
  let digits := decimal (shortest v) in
  if (String.length digits <=? 21)%nat then digits else exponential digits.

Definition toString (x : Integral) : string :=
  match x with
  | IFin z =>
      if z =? 0 then "0"
      else if z <? 0 then "-" ++ positiveToString (- z)
      else positiveToString z
  | IPInf => "Infinity"
  | INInf => "-Infinity"
  | INaN => "NaN"
  end.

(** [x || 0] *)
Definition orZero (x : Num) : Num :=
  match x with
  | NaN => Fin 0
  | Fin q => if Qeq_bool q 0 then Fin 0 else x
  | _ => x
  end.

(** The number that a decimal literal stands for. *)
Definition lit (q : Q) : Num := rnd q.

(** A sum as [reduce((a, b) => a + b, 0)] computes it: from 0 on, from the
    first number on, each addition rounded. *)
Definition sumOf (l : list Z) : Num :=
  fold_left (fun sum n => add sum (Fin (inject_Z n))) l (Fin 0).

(** The number [x] is the integer [z]. *)
Definition isInteger (x : Num) (z : Z) : Prop := eqb x (Fin (inject_Z z)) = true.

(** The largest relative error of rounding in the normal range: half the
    distance from 1 to the next double. *)
Definition eps : Q := pow2 (-53).

(** The value of a finite number. *)
Definition value (x : Num) : Q := match x with Fin q => q | _ => 0%Q end.

(** Zero or more, an infinity included; not NaN. *)
Definition nonneg (x : Num) : Prop :=
  match x with
  | Fin q => (0 <= q)%Q
  | PInf => True
  | _ => False
  end.

End Double.

(** ** The test profiler (profileTests) *)

Module Profile.

(** The JSON report of the test runner, as far as it is read. *)
Record Assertion := {
    a_title : string;
    a_fullName : string;
    a_duration : option Double.Num;
    a_status : string
  }.

Record SuiteResult := {
    s_name : string;
    s_file : string;
    assertionResults : option (list Assertion)
  }.

Record Report := { testResults : option (list SuiteResult) }.

Record Test := {
    title : string;
    fullName : string;
    duration : Double.Num;
    status : string;
    suite : string;
    file : string
  }.

(** [test.duration || 0] for a duration that may be missing. *)
Definition orZero (d : option Double.Num) : Double.Num :=
  match d with
  | Some x => Double.orZero x
  | None => Double.Fin 0
  end.

(** [x?.map(f) || []] *)
Definition mapOrEmpty {A B : Type} (g : A -> B) (o : option (list A)) : list B :=
  match o with Some l => map g l | None => [] end.

Definition allTests (data : Report) : list Test :=
  match testResults data with
  | Some suites =>
      suites ≫= fun su =>
        mapOrEmpty (fun test =>
          {| title := a_title test;
             fullName := a_fullName test;
             duration := orZero (a_duration test);
             status := a_status test;
             suite := s_name su;
             file := s_file su |}) (assertionResults su)
  | None => []
  end.

(** [sort((a, b) => (b.duration || 0) - (a.duration || 0))]: a stable
    sort, slowest first.  The difference of two doubles is positive, zero
    or negative as the two compare, and NaN, which [sort] takes for zero,
    when both are the same infinity; so the comparator puts [x] behind [y]
    exactly when [x] is less than [y].  [insertDesc] puts [x] before the
    first test that is not slower than it. *)
Fixpoint insertDesc (x : Test) (l : list Test) : list Test :=
  match l with
  | [] => [x]
  | y :: l' =>
      if Double.ltb (Double.orZero (duration x)) (Double.orZero (duration y))
      then y :: insertDesc x l' else x :: l
  end.

Definition sortDesc (l : list Test) : list Test := fold_right insertDesc [] l.

Definition sortedTests (data : Report) : list Test :=
  sortDesc (List.filter (fun test => Double.ltb (Double.Fin 0) (duration test))
                        (allTests data)).

(** [sortedTests.reduce((sum, test) => sum + (test.duration || 0), 0)] *)
Definition sumDurations (l : list Test) : Double.Num :=
  fold_left (fun sum test => Double.add sum (Double.orZero (duration test))) l
            (Double.Fin 0).

Definition avgDuration (sorted : list Test) : Double.Num :=
  if (0 <? length sorted)%nat
  then Double.divBy (sumDurations sorted) (Pos.of_nat (length sorted))
  else Double.Fin 0.

(** [Math.max(1000, avgDuration * 2)] *)
Definition slowThreshold (sorted : list Test) : Double.Num :=
  Double.max (Double.Fin 1000) (Double.mul (avgDuration sorted) (Double.Fin 2)).

Record Summary := {
    totalTests : nat;
    avgDurationRounded : Double.Integral;
    slowTestCount : nat;
    summaryThreshold : Double.Num
  }.

(** The returned object; its [suites] and [recommendations] fields are
    derived from [sortedTests] and the threshold and are left out. *)
Record Profile := {
    success : bool;
    summary : Summary;
    slowestTests : list Test;
    slowTests : list Test
  }.

Definition profileOf (data : Report) : Profile :=
  let sorted := sortedTests data in
  let threshold := slowThreshold sorted in
  let slow :=
    List.filter (fun test => Double.ltb threshold (Double.orZero (duration test))) sorted in
  {| success := true;
     summary := {| totalTests := length sorted;
                   avgDurationRounded := Double.round (avgDuration sorted);
                   slowTestCount := length slow;
                   summaryThreshold := threshold |};
     slowestTests := take 10 sorted;
     slowTests := slow |}.

Class ReportJson := { parseReport : string -> option Report }.

Section WithPlatform.
Context `{PathModule} `{Subprocess} `{ReportJson}.

(** Where the test runner is told to write its report. *)
Definition outFile : string := join [cwd; "coverage"; "test-profile.json"].

Definition syntaxError : Thrown := ThrownError "Unexpected token in JSON" [].

(** [fs.readJSON(p)] of a report. *)
Definition readReport (p : string) (fs : FS) : Outcome Report :=
  match Fs.readFile p fs with
  | Ok raw =>
      match parseReport raw with
      | Some data => Ok data
      | None => Throw syntaxError
      end
  | Throw e => Throw e
  end.

Definition profileTests (fs : FS) : Outcome Profile * FS :=
  match execSync ("npx vitest run --reporter=json --outputFile=" ++ outFile) fs with
  | (Throw e, fs1) => (Throw e, fs1)
  | (Ok _, fs1) =>
      match readReport outFile fs1 with
      | Throw e => (Throw e, fs1)
      | Ok data => (Ok (profileOf data), fs1)
      end
  end.
End WithPlatform.

(** The tests with timing data; the sum of the durations of a list of
    tests, taken from its first test on, and their average: both in
    doubles, each sum and the quotient rounded. *)
Definition positiveTests (data : Report) : list Test :=
  List.filter (fun test => Double.ltb (Double.Fin 0) (duration test)) (allTests data).

Definition total (l : list Test) : Double.Num :=
  fold_left Double.add (map duration l) (Double.Fin 0).

Definition mean (l : list Test) : Double.Num :=
  match l with
  | [] => Double.Fin 0
  | _ => Double.divBy (total l) (Pos.of_nat (length l))
  end.

(** [a] is at least as slow as [b]. *)
Definition slowerEq (a b : Test) : Prop := Double.leb (duration b) (duration a) = true.

(** The sum of finite durations in exact arithmetic. *)
Definition exactTotal (l : list Test) : Q :=
  fold_right (fun t acc => (Double.value (duration t) + acc)%Q) 0%Q l.

(** The whole milliseconds of a finite duration. *)
Definition millis (t : Test) : Z :=
  match duration t with Double.Fin q => Qfloor q | _ => 0 end.

End Profile.

(** ** src/plugins/loader.ts *)

Module Loader.

(** The Express app, as far as plugins see it: the routes mounted so far. *)
Record Route := { method : string; url : string }.
Definition App := list Route.

(** The default export of a tool module.  [router] is [None] when the
    property is missing or is not a function; calling it may mount routes
    and may throw. *)
Record ToolModule := {
    name : string;
    router : option (App -> Outcome unit * App)
  }.

(** What [import(fullPath)] resolves to; [default] is [None] when the
    module has no default export or a falsy one. *)
Record Imported := { default : option ToolModule }.

Class Importer := { importModule : string -> Outcome Imported }.

(** What loadPlugins does to the outside, in order. *)
Inductive Event :=
  | Import (file fullPath : string)
  | CallRouter (file : string)
  | ConsoleLog (message : string)
  | ConsoleWarn (message : string)
  | ConsoleError (message : string).

Section WithPlatform.
Context `{PathModule} `{Importer}.

(** [fs.readdir(dir)]: the names of the entries directly under [dir]. *)
Definition readdir (dir : string) (fs : FS) : Outcome (list string) :=
  match fs !! dir with
  | Some Dir =>
      Ok (map (fun p => basename p "")
            (List.filter (fun p => String.eqb (dirname p) dir && negb (String.eqb p dir))
               ((map_to_list fs).*1)))
  | Some (File _) => Throw (Fs.enotdir dir)
  | None => Throw (Fs.enoent dir)
  end.

(** The guard at the top of the loop body: the files that are skipped. *)
Definition skipped (file : string) : bool :=
  negb (endsWith file ".ts") || String.eqb file "index.ts" || startsWith file ".".

(** One iteration of the loop. *)
Definition loadOne (pluginsDir file : string) (app : App) : App * list Event :=
  if skipped file then (app, [])
  else
    let fullPath := join [pluginsDir; file] in
    match importModule fullPath with
    | Throw error =>
        (app, [Import file fullPath; ConsoleError ("Failed to load plugin " ++ file ++ ":")])
    | Ok module =>
        match default module with
        | Some d =>
            match router d with
            | Some register =>
                match register app with
                | (Ok _, app') =>
                    (app', [Import file fullPath;
                            ConsoleLog ("Loading plugin: " ++ name d);
                            CallRouter file])
                | (Throw error, app') =>
                    (app', [Import file fullPath;
                            ConsoleLog ("Loading plugin: " ++ name d);
                            CallRouter file;
                            ConsoleError ("Failed to load plugin " ++ file ++ ":")])
                end
            | None =>
                (app, [Import file fullPath;
                       ConsoleWarn ("Plugin " ++ file ++
                         " does not export a valid default module with router function")])
            end
        | None =>
            (app, [Import file fullPath;
                   ConsoleWarn ("Plugin " ++ file ++
                     " does not export a valid default module with router function")])
        end
    end.

Fixpoint loadAll (pluginsDir : string) (files : list string) (app : App)
  : App * list Event :=
  match files with
  | [] => (app, [])
  | file :: rest =>
      let '(app1, events1) := loadOne pluginsDir file app in
      let '(app2, events2) := loadAll pluginsDir rest app1 in
      (app2, (events1 ++ events2)%list)
  end.

Definition loadPlugins (app : App) (pluginsDir : string) (fs : FS)
  : Outcome unit * App * list Event :=
  if negb (Fs.pathExists pluginsDir fs)
  then (Ok tt, app,
        [ConsoleLog ("Plugins directory " ++ pluginsDir ++ " does not exist")])
  else
    match readdir pluginsDir fs with
    | Throw e => (Throw e, app, [])
    | Ok files =>
        let '(app', events) := loadAll pluginsDir files app in
        (Ok tt, app', events)
    end.

(** The module at [fullPath] loads and its default export has a router
    function. *)
Definition hasRouter (fullPath : string) : Prop :=
  exists module d register,
    importModule fullPath = Ok module /\ default module = Some d /\
    router d = Some register.
End WithPlatform.

End Loader.

(** ** src/tools/generateTests.ts *)

Module GenerateTests.

Definition nl : string := String "010"%char EmptyString.

(** [s.replace(/\\/g, '/')] *)
Fixpoint backslashesToSlashes (s : string) : string :=
  match s with
  | EmptyString => EmptyString
  | String c s' =>
      String (if Ascii.eqb c "\"%char then "/"%char else c) (backslashesToSlashes s')
  end.

Definition supported : list string := [".tsx"; ".jsx"; ".js"; ".ts"].

(** [supported.includes(ext)] *)
Definition includes (l : list string) (x : string) : bool :=
  existsb (String.eqb x) l.

(** What the callback computes from its argument before it touches the
    file system. *)
Record Plan := {
    filePath : string;
    absPath : string;
    ext : string;
    componentName : string;
    testDir : string;
    testFile : string;
    template : string
  }.

(** A callback of [uncoveredFiles.map(async ...)]: suspended at one of its
    three [await]s, or settled. *)
Inductive Task :=
  | AwaitEnsureDir (pl : Plan)
  | AwaitPathExists (pl : Plan)
  | AwaitWriteFile (pl : Plan)
  | Resolved (result : option string)
  | Rejected (e : Thrown).

(** The promise of [Promise.all] is rejected with the first rejection; the
    other callbacks go on.  [writes] records the calls of [fs.writeFile]
    that succeeded: the input path and the file written. *)
Record State := {
    fs : FS;
    tasks : list Task;
    rejection : option Thrown;
    writes : list (string * string)
  }.

Section WithPath.
Context `{PathModule}.

Definition plan (projectRoot filePath : string) : option Plan :=
  let absPath := if isAbsolute filePath then filePath else join [projectRoot; filePath] in
  let ext := extname absPath in
  if negb (includes supported ext) then None
  else
    let relative_ := relative projectRoot absPath in
    let componentName := basename absPath ext in
    let testDir := join [projectRoot; "__tests__"; dirname relative_] in
    let testFile := join [testDir; componentName ++ ".test" ++ ext] in
    let importPath := backslashesToSlashes (relative testDir absPath) in
    let template :=
      "import { render } from '@testing-library/react';" ++ nl ++
      "import " ++ componentName ++ " from '" ++
        (if startsWith importPath "." then importPath else "./" ++ importPath) ++
        "';" ++ nl ++ nl ++
      "test('renders " ++ componentName ++ " without crashing', () => {" ++ nl ++
      "  const { container } = render(<" ++ componentName ++ " />);" ++ nl ++
      "  expect(container).toBeTruthy();" ++ nl ++
      "});" ++ nl in
    Some {| filePath := filePath; absPath := absPath; ext := ext;
            componentName := componentName; testDir := testDir;
            testFile := testFile; template := template |}.

(** The callback runs up to its first [await] when [map] calls it. *)
Definition start (projectRoot filePath : string) : Task :=
  match plan projectRoot filePath with
  | None => Resolved None
  | Some pl => AwaitEnsureDir pl
  end.

Definition initial (projectRoot : string) (uncoveredFiles : list string) (fs0 : FS) : State :=
  {| fs := fs0;
     tasks := map (start projectRoot) uncoveredFiles;
     rejection := None;
     writes := [] |}.

(** The awaited operation of a task takes effect and the task runs up to
    its next [await]; a settled task does nothing. *)
Definition perform (t : Task) (fs : FS) : FS * Task * list (string * string) :=
  match t with
  | AwaitEnsureDir pl =>
      match Fs.ensureDir (testDir pl) fs with
      | Ok fs' => (fs', AwaitPathExists pl, [])
      | Throw e => (fs, Rejected e, [])
      end
  | AwaitPathExists pl =>
      if Fs.pathExists (testFile pl) fs then (fs, Resolved None, [])
      else (fs, AwaitWriteFile pl, [])
  | AwaitWriteFile pl =>
      match Fs.writeFile (testFile pl) (template pl) fs with
      | Ok fs' => (fs', Resolved (Some (testFile pl)), [(filePath pl, testFile pl)])
      | Throw e => (fs, Rejected e, [])
      end
  | Resolved _ | Rejected _ => (fs, t, [])
  end.

Definition noteRejection (r : option Thrown) (t : Task) : option Thrown :=
  match r, t with
  | Some e, _ => Some e
  | None, Rejected e => Some e
  | None, _ => None
  end.

(** One task moves; which one is up to the event loop. *)
Inductive step : State -> State -> Prop :=
  | step_task before t after fs r w :
      step {| fs := fs; tasks := before ++ t :: after; rejection := r; writes := w |}
           {| fs := (perform t fs).1.1;
              tasks := before ++ (perform t fs).1.2 :: after;
              rejection := noteRejection r (perform t fs).1.2;
              writes := w ++ (perform t fs).2 |}.

Inductive reachable (s0 : State) : State -> Prop :=
  | reachable_refl : reachable s0 s0
  | reachable_step s s' : reachable s0 s -> step s s' -> reachable s0 s'.

(** [results.filter(Boolean)]: [null] and the empty string go. *)
Definition results (ts : list Task) : option (list string) :=
  foldr (fun t acc =>
           match t, acc with
           | Resolved (Some p), Some l =>
               Some (if String.eqb p "" then l else p :: l)
           | Resolved None, Some l => Some l
           | _, _ => None
           end) (Some []) ts.

(** What the caller of generateTests gets, once it gets something. *)
Definition settled (s : State) : option (Outcome (list string)) :=
  match rejection s with
  | Some e => Some (Throw e)
  | None =>
      match results (tasks s) with
      | Some l => Some (Ok l)
      | None => None
      end
  end.

(** A schedule: the pending operations take effect in the order of the
    input, one per task and round. *)
Fixpoint roundFrom (before pending : list Task) (fs : FS) (r : option Thrown)
    (w : list (string * string)) : State :=
  match pending with
  | [] => {| fs := fs; tasks := before; rejection := r; writes := w |}
  | t :: after =>
      roundFrom (before ++ [(perform t fs).1.2]) after (perform t fs).1.1
                (noteRejection r (perform t fs).1.2) (w ++ (perform t fs).2)
  end.

Definition round (s : State) : State :=
  roundFrom [] (tasks s) (fs s) (rejection s) (writes s).

Definition finalState (projectRoot : string) (uncoveredFiles : list string) (fs0 : FS)
  : State :=
  round (round (round (initial projectRoot uncoveredFiles fs0))).

(** The entries of [results.filter(Boolean)] that are there so far. *)
Definition collected (ts : list Task) : list string :=
  ts ≫= fun t =>
    match t with
    | Resolved (Some p) => if String.eqb p "" then [] else [p]
    | _ => []
    end.

Definition generateTests (projectRoot : string) (uncoveredFiles : list string) (fs0 : FS)
  : Outcome (list string) * FS :=
  let s := finalState projectRoot uncoveredFiles fs0 in
  (match rejection s with
   | Some e => Throw e
   | None => Ok (collected (tasks s))
   end, fs s).
(** *** Invariants of the interleaving *)

(** A task that is about to write, or has written, targets a path that
    did not exist when generateTests was called. *)
Definition fresh (fs0 : FS) (t : Task) : Prop :=
  match t with
  | AwaitWriteFile pl => fs0 !! testFile pl = None
  | Resolved (Some p) => fs0 !! p = None
  | _ => True
  end.

(** Every node that existed at the call is unchanged, and no task writes
    over one. *)
Definition inv (fs0 : FS) (s : State) : Prop :=
  Fs.preserves fs0 (fs s) /\
  Forall (fresh fs0) (tasks s) /\
  forall f p, (f, p) ∈ writes s -> fs0 !! p = None.

(** The number of [await]s a task still has before it. *)
Definition rank (t : Task) : nat :=
  match t with
  | AwaitEnsureDir _ => 3%nat
  | AwaitPathExists _ => 2%nat
  | AwaitWriteFile _ => 1%nat
  | Resolved _ | Rejected _ => 0%nat
  end.

(** A rejected task has been noted. *)
Definition noted (ts : list Task) (r : option Thrown) : Prop :=
  forall e, Rejected e ∈ ts -> r <> None.

(** A suspended task carries the plan of its input path. *)
Definition planned (projectRoot : string) (t : Task) : Prop :=
  match t with
  | AwaitEnsureDir pl | AwaitPathExists pl | AwaitWriteFile pl =>
      plan projectRoot (filePath pl) = Some pl
  | Resolved _ | Rejected _ => True
  end.

(** The task of an input without plan is resolved to null, and no write
    is logged for such an input. *)
Definition skipInv (projectRoot : string) (uncoveredFiles : list string) (s : State) : Prop :=
  Forall2 (fun f t => plan projectRoot f = None -> t = Resolved None)
          uncoveredFiles (tasks s) /\
  Forall (planned projectRoot) (tasks s) /\
  forall f p, (f, p) ∈ writes s -> plan projectRoot f <> None.
End WithPath.

End GenerateTests.

(** ** The setup tool (setupVitest, setupVitestImpl) *)

Module Setup.

Definition defaultConfig : string :=
  String.concat GenerateTests.nl
    [ "import { defineConfig } from 'vitest/config';";
      "import react from '@vitejs/plugin-react';";
      "";
      "export default defineConfig({";
      "  plugins: [react()],";
      "  test: {";
      "    globals: true,";
      "    environment: 'jsdom',";
      "    setupFiles: './src/setupTests.ts',";
      "    coverage: {";
      "      provider: 'c8',";
      "      reporter: ['text','json','html'],";
      "      all: true,";
      "      statements: 100,";
      "      branches: 100,";
      "      functions: 100,";
      "      lines: 100";
      "    }";
      "  }";
      "});" ].

Definition defaultSetup : string :=
  "import '@testing-library/jest-dom';" ++ GenerateTests.nl.

Section WithPlatform.
Context `{PathModule} `{Subprocess}.

Definition vitestConfigPath (projectRoot : string) : string :=
  join [projectRoot; "vitest.config.ts"].

Definition setupPath (projectRoot : string) : string :=
  join [projectRoot; "src"; "setupTests.ts"].

(** The first half of setupVitest, up to the installation: the two files
    are written where they are missing.  The file system is returned as it
    is when the phase ends, normally or by an exception. *)
Definition writeDefaults (projectRoot : string) (fs : FS) : Outcome unit * FS :=
  let afterConfig :=
    if negb (Fs.pathExists (vitestConfigPath projectRoot) fs)
    then Fs.writeFile (vitestConfigPath projectRoot) defaultConfig fs
    else Ok fs in
  match afterConfig with
  | Throw e => (Throw e, fs)
  | Ok fs1 =>
      if negb (Fs.pathExists (setupPath projectRoot) fs1)
      then
        match Fs.ensureDir (dirname (setupPath projectRoot)) fs1 with
        | Throw e => (Throw e, fs1)
        | Ok fs2 =>
            match Fs.writeFile (setupPath projectRoot) defaultSetup fs2 with
            | Throw e => (Throw e, fs2)
            | Ok fs3 => (Ok tt, fs3)
            end
        end
      else (Ok tt, fs1)
  end.

Definition installCmd (projectRoot : string) (fs : FS) : string :=
  if Fs.pathExists (join [projectRoot; "yarn.lock"]) fs
  then "yarn add -D vitest @testing-library/react @vitejs/plugin-react"
  else "npm install --save-dev vitest @testing-library/react @vitejs/plugin-react".

(** Resolves to [{ message, stdout }]. *)
Definition setupVitest (projectRoot : string) (fs : FS) : Outcome Json * FS :=
  match writeDefaults projectRoot fs with
  | (Throw e, fs') => (Throw e, fs')
  | (Ok _, fs') =>
      let '(r, fs'') := run (installCmd projectRoot fs') projectRoot fs' in
      match exitError r with
      | Some message =>
          (Throw (ThrownObj [("error", JStr message); ("stderr", JStr (stderr r))]), fs'')
      | None =>
          (Ok (JObj [("message", JStr "Vitest setup complete"); ("stdout", JStr (stdout r))]),
           fs'')
      end
  end.
End WithPlatform.

End Setup.

(** ** src/services/localLLMService.ts and the AI test writer *)

Module Llm.

Record LLMProviderConfig := {
    type : string;
    baseUrl : option string;
    model : string;
    apiKey : option string
  }.

(** The five provider classes. *)
Inductive ProviderClass := OpenAI | LMStudio | Ollama | LlamaCpp | MLX.

(** An instance of a provider class. *)
Record Provider := {
    class : ProviderClass;
    pconfig : LLMProviderConfig
  }.

Definition providerName (p : Provider) : string :=
  match class p with
  | OpenAI => "OpenAI"
  | LMStudio => "LM Studio"
  | Ollama => "Ollama"
  | LlamaCpp => "llama.cpp"
  | MLX => "MLX"
  end.

(** What a request handler can reach in the memory of the process: the
    configuration and the routes, both set at startup, and the [provider]
    field of the singleton [localLLMService]. *)
Record Process := {
    config : list (string * Json);
    routes : Loader.App;
    provider : option Provider
  }.

(** The file system, the process, and the test files that the AI test
    writer has written (a log, for the statements below). *)
Record World := {
    files : FS;
    proc : Process;
    aiWrites : list string
  }.

Definition withFiles (fs : FS) (w : World) : World :=
  {| files := fs; proc := proc w; aiWrites := aiWrites w |}.

Definition withProvider (p : option Provider) (w : World) : World :=
  {| files := files w;
     proc := {| config := config (proc w); routes := routes (proc w); provider := p |};
     aiWrites := aiWrites w |}.

Definition logWrite (p : string) (w : World) : World :=
  {| files := files w; proc := proc w; aiWrites := (aiWrites w ++ [p])%list |}.

(** The outside of the service: [process.env], the parse of
    mcp.config.json ([None]: not JSON; [Some None]: no [llmProvider] in
    it), the health check of a provider and its completion request, which
    may touch the file system (the MLX provider writes and removes a
    script). *)
Class Backend := {
    env : string -> option string;
    parseLlmConfig : string -> option (option LLMProviderConfig);
    isHealthy : Provider -> FS -> bool;
    complete : Provider -> string -> FS -> Outcome string * FS
  }.

Section WithPlatform.
Context `{PathModule} `{Subprocess} `{Backend}.

(** [process.env.X || d] *)
Definition envOr (x d : string) : string :=
  match env x with
  | Some v => if String.eqb v "" then d else v
  | None => d
  end.

(** A relative path is resolved against the working directory. *)
Definition resolve (p : string) : string :=
  if isAbsolute p then p else join [cwd; p].

(** loadConfig of the singleton, whose [configPath] is undefined: the
    configuration file if it names a provider, the environment otherwise;
    [None] when reading the file throws. *)
Definition loadConfig (fs : FS) : option LLMProviderConfig :=
  let fromEnv :=
    let providerType := envOr "LLM_PROVIDER" "openai" in
    if String.eqb providerType "lmstudio" then
      {| type := "lmstudio";
         baseUrl := Some (envOr "LMSTUDIO_BASE_URL" "http://localhost:1234");
         model := envOr "LLM_MODEL" "local-model"; apiKey := None |}
    else if String.eqb providerType "ollama" then
      {| type := "ollama";
         baseUrl := Some (envOr "OLLAMA_BASE_URL" "http://localhost:11434");
         model := envOr "LLM_MODEL" "llama2"; apiKey := None |}
    else if String.eqb providerType "llamacpp" then
      {| type := "llamacpp";
         baseUrl := Some (envOr "LLAMACPP_BASE_URL" "http://localhost:8080");
         model := envOr "LLM_MODEL" "model.gguf"; apiKey := None |}
    else if String.eqb providerType "mlx" then
      {| type := "mlx"; baseUrl := None;
         model := envOr "LLM_MODEL" "./models/local-model"; apiKey := None |}
    else
      {| type := "openai";
         baseUrl := Some (envOr "OPENAI_BASE_URL" "https://api.openai.com/v1");
         model := envOr "LLM_MODEL" "gpt-3.5-turbo";
         apiKey := env "OPENAI_API_KEY" |} in
  if Fs.pathExists (resolve "mcp.config.json") fs then
    match Fs.readFile (resolve "mcp.config.json") fs with
    | Throw _ => None
    | Ok raw =>
        match parseLlmConfig raw with
        | None => None
        | Some (Some c) => Some c
        | Some None => Some fromEnv
        end
    end
  else Some fromEnv.

Definition createProvider (c : LLMProviderConfig) : Provider :=
  {| class :=
       if String.eqb (type c) "lmstudio" then LMStudio
       else if String.eqb (type c) "ollama" then Ollama
       else if String.eqb (type c) "llamacpp" then LlamaCpp
       else if String.eqb (type c) "mlx" then MLX
       else OpenAI;
     pconfig := c |}.

(** [localLLMService.initialize()] *)
Definition initialize (w : World) : bool * World :=
  match loadConfig (files w) with
  | None => (false, w)
  | Some c =>
      let w1 := withProvider (Some (createProvider c)) w in
      (isHealthy (createProvider c) (files w1), w1)
  end.

(** [localLLMService.getProviderName()] *)
Definition getProviderName (w : World) : string :=
  match provider (proc w) with
  | Some p => providerName p
  | None => "Unknown"
  end.

(** [localLLMService.generateCompletion(prompt)] *)
Definition generateCompletion (prompt : string) (w : World) : Outcome string * FS :=
  match provider (proc w) with
  | None => (Throw (ThrownError "LLM service not initialized" []), files w)
  | Some p => complete p prompt (files w)
  end.

(** [openai.chat.completions.create(...)] of the first version of the
    writer, which builds its own client. *)
Definition openaiCompletion (prompt : string) (w : World) : Outcome string * FS :=
  complete {| class := OpenAI;
              pconfig := {| type := "openai"; baseUrl := None; model := "gpt-4o-mini";
                            apiKey := env "OPENAI_API_KEY" |} |}
           prompt (files w).

Definition promptFor (filePath fileContent : string) : string :=
  String.concat GenerateTests.nl
    [ "You are a senior front-end engineer. Write a **Vitest** test file for the React component located at "
        ++ String "034"%char filePath ++ String "034"%char ".  ";
      "The test must:";
      "1. Import the component with proper relative path.";
      "2. Render it with typical props (use sensible defaults).";
      "3. Check for presence of the main UI element using @testing-library/react.";
      "4. Cover any props that affect rendering (use `screen.getByRole`, `userEvent`, etc.).";
      "5. Use Vitest matchers and @testing-library/react.";
      "6. Include at least one snapshot test (optional).";
      "7. Handle common edge cases for the component.";
      "";
      "Return only the TSX/TS code – no markdown, no explanations.";
      "Component source:";
      "```";
      fileContent;
      "```" ].

(** The body of the loop of generateAITests for one entry, with the
    completion request [ask] of the version at hand; [Throw] is an exception
    that leaves the loop (the read of the source file is outside the
    [try]). *)
Definition writeAITest (ask : string -> World -> Outcome string * FS)
    (projectRoot file : string) (generatedFiles : list string) (w : World)
  : Outcome (list string) * World :=
  let filePath := if isAbsolute file then file else join [projectRoot; file] in
  if negb (Fs.pathExists filePath (files w)) then (Ok generatedFiles, w)
  else
    match Fs.readFile filePath (files w) with
    | Throw e => (Throw e, w)
    | Ok fileContent =>
        let ext := extname filePath in
        let componentName := basename filePath ext in
        let prompt := promptFor filePath fileContent in
        match ask prompt w with
        | (Throw _, fs1) => (Ok generatedFiles, withFiles fs1 w)
        | (Ok generatedTest, fs1) =>
            let w1 := withFiles fs1 w in
            if String.eqb generatedTest "" then (Ok generatedFiles, w1)
            else
              let testFileName := componentName ++ ".test" ++ ext in
              let testsDir := join [projectRoot; "__tests__"; "ai-generated"] in
              match Fs.ensureDir testsDir (files w1) with
              | Throw _ => (Ok generatedFiles, w1)
              | Ok fs2 =>
                  let w2 := withFiles fs2 w1 in
                  let testFilePath := join [testsDir; testFileName] in
                  if negb (Fs.pathExists testFilePath fs2) then
                    match Fs.writeFile testFilePath generatedTest fs2 with
                    | Throw _ => (Ok generatedFiles, w2)
                    | Ok fs3 =>
                        (Ok (generatedFiles ++ [testFilePath])%list,
                         logWrite testFilePath (withFiles fs3 w2))
                    end
                  else (Ok generatedFiles, w2)
              end
        end
    end.

(** [for (const uncovered of ...) { ... }] *)
Fixpoint writeAITests (ask : string -> World -> Outcome string * FS)
    (projectRoot : string) (entries : list string)
    (generatedFiles : list string) (w : World) : Outcome (list string) * World :=
  match entries with
  | [] => (Ok generatedFiles, w)
  | file :: rest =>
      match writeAITest ask projectRoot file generatedFiles w with
      | (Throw e, w1) => (Throw e, w1)
      | (Ok generatedFiles1, w1) => writeAITests ask projectRoot rest generatedFiles1 w1
      end
  end.

(** [uncoveredFiles] holds the [file] fields of the entries. *)
Definition generateAITests (projectRoot : string) (uncoveredFiles : list string) (w : World)
  : Outcome (list string) * World :=
  match initialize w with
  | (false, w1) =>
      (Throw (ThrownError
         "LLM service could not be initialized. Please check your configuration." []), w1)
  | (true, w1) => writeAITests generateCompletion projectRoot (take 5 uncoveredFiles) [] w1
  end.

(** The first version of generateAITests, on the OpenAI client. *)
Definition generateAITestsOpenAI (projectRoot : string) (uncoveredFiles : list string)
    (w : World) : Outcome (list string) * World :=
  writeAITests openaiCompletion projectRoot (take 5 uncoveredFiles) [] w.
End WithPlatform.

End Llm.

(** ** The HTTP handlers (src/index.ts and the routers of the tools) *)

Module Server.
Import Llm.

(** The body of a request, typed as the handlers document it
    ([{ projectPath: string, uncoveredFiles?: string[] }],
    [{ baseBranch?: string }]); for /ai-generate-tests, [uncoveredFiles]
    holds the [file] fields of the entries. *)
Record Request := {
    projectPath : option string;
    uncoveredFiles : option (list string);
    baseBranch : option string
  }.

(** [!projectPath]: the property is missing or empty. *)
Definition missing (v : option string) : bool :=
  match v with
  | None => true
  | Some s => String.eqb s ""
  end.

(** The payloads of [res.json]. *)
Inductive Body :=
  | BError (error : string)
  | BFailure (error : Json)
  | BSetup (result : Json)
  | BAnalysis (uncovered : list Coverage.Uncovered) (coveragePath : string)
  | BGenerated (generatedTestFiles : list string)
  | BGeneratedAI (generatedTestFiles : list string) (message : string)
  | BDiff (diff : list (string * Diff.FileDiff)) (summary : Diff.Summary)
  | BDiffFailed (error : string) (currentCoverage : Coverage.CoverageMap)
  | BProfile (profile : Profile.Profile)
  | BLlmStatus (status message : string) (providerName : option string).

Record Response := {
    status : Z;
    payload : Body
  }.

(** [res.json(b)] and [res.status(n).json(b)] *)
Definition json (b : Body) : Response := {| status := 200; payload := b |}.
Definition statusJson (n : Z) (b : Body) : Response := {| status := n; payload := b |}.

(** The result of generateCoverageDiff. *)
Inductive DiffResult :=
  | DiffOk (diff : list (string * Diff.FileDiff))
  | DiffFailed (error : string) (currentCoverage : Coverage.CoverageMap).

Inductive Endpoint :=
  | SetupVitest
  | AnalyzeCoverage
  | GenerateTests
  | CoverageDiff
  | ProfileTests
  | AiGenerateTests
  | AiHealth
  | LlmConfig.

(** Which handlers go through the singleton. *)
Definition usesLlm (ep : Endpoint) : bool :=
  match ep with
  | AiGenerateTests | AiHealth | LlmConfig => true
  | _ => false
  end.

Section WithPlatform.
Context `{PathModule} `{Subprocess} `{Coverage.CoverageJson} `{Profile.ReportJson} `{Backend}.

(** [fs.readJSON] of the coverage artifact of the working directory. *)
Definition readCoverage (fs : FS) : Outcome Coverage.CoverageMap :=
  match Fs.readFile (join [cwd; "coverage"; "coverage-final.json"]) fs with
  | Throw e => Throw e
  | Ok raw =>
      match Coverage.parseCoverage raw with
      | Some c => Ok c
      | None => Throw Profile.syntaxError
      end
  end.

Definition generateCoverageDiff (baseBranch : string) (fs : FS) : Outcome DiffResult * FS :=
  match execSync Coverage.vitestCmd fs with
  | (Throw e, fs1) => (Throw e, fs1)
  | (Ok _, fs1) =>
      match readCoverage fs1 with
      | Throw e => (Throw e, fs1)
      | Ok currentCov =>
          (* the catch block: back to the branch, report the failure *)
          let recover (fs' : FS) : Outcome DiffResult * FS :=
            match execSync "git checkout -" fs' with
            | (Throw e, fs'') => (Throw e, fs'')
            | (Ok _, fs'') =>
                (Ok (DiffFailed
                  "Failed to compare with base branch. Ensure you have git history and the base branch exists."
                  currentCov), fs'')
            end in
          match execSync ("git checkout " ++ baseBranch) fs1 with
          | (Throw _, fs2) => recover fs2
          | (Ok _, fs2) =>
              match execSync Coverage.vitestCmd fs2 with
              | (Throw _, fs3) => recover fs3
              | (Ok _, fs3) =>
                  match readCoverage fs3 with
                  | Throw _ => recover fs3
                  | Ok baseCov =>
                      match execSync "git checkout -" fs3 with
                      | (Throw _, fs4) => recover fs4
                      | (Ok _, fs4) => (Ok (DiffOk (Diff.computeDiff baseCov currentCov)), fs4)
                      end
                  end
              end
          end
      end
  end.

(** The tool calls of the handler of /generate-tests: the analysis when no
    list is given, then the generator on the list without repetitions. *)
Definition callGenerateTests (root : string) (given : option (list string)) (fs : FS)
  : Outcome (list string) * FS :=
  match given with
  | Some files_ => GenerateTests.generateTests root (Diff.setOf files_) fs
  | None =>
      match Coverage.analyzeCoverage root fs with
      | (Throw e, fs1) => (Throw e, fs1)
      | (Ok analysis, fs1) =>
          GenerateTests.generateTests root
            (Diff.setOf (map Coverage.file (Coverage.uncovered analysis))) fs1
      end
  end.

(** [app.post('/setup-vitest', ...)] *)
Definition setupVitestHandler (req : Request) (w : World) : Response * World :=
  if missing (projectPath req)
  then (statusJson 400 (BError "Missing projectPath"), w)
  else
    match Setup.setupVitest (default "" (projectPath req)) (files w) with
    | (Ok result, fs') => (json (BSetup result), withFiles fs' w)
    | (Throw e, fs') => (statusJson 500 (BFailure (errorOrSelf e)), withFiles fs' w)
    end.

(** [app.post('/analyze-coverage', ...)] *)
Definition analyzeCoverageHandler (req : Request) (w : World) : Response * World :=
  if missing (projectPath req)
  then (statusJson 400 (BError "Missing projectPath"), w)
  else
    match Coverage.analyzeCoverage (default "" (projectPath req)) (files w) with
    | (Ok result, fs') =>
        (json (BAnalysis (Coverage.uncovered result) (Coverage.coveragePath result)),
         withFiles fs' w)
    | (Throw e, fs') => (statusJson 500 (BFailure (errorOrSelf e)), withFiles fs' w)
    end.

(** [app.post('/generate-tests', ...)] *)
Definition generateTestsHandler (req : Request) (w : World) : Response * World :=
  if missing (projectPath req)
  then (statusJson 400 (BError "Missing projectPath"), w)
  else
    match callGenerateTests (default "" (projectPath req)) (uncoveredFiles req) (files w) with
    | (Ok generated, fs') => (json (BGenerated generated), withFiles fs' w)
    | (Throw e, fs') => (statusJson 500 (BFailure (errorOrSelf e)), withFiles fs' w)
    end.

(** [app.post('/coverage-diff', ...)] *)
Definition coverageDiffHandler (req : Request) (w : World) : Response * World :=
  match generateCoverageDiff (default "main" (baseBranch req)) (files w) with
  | (Ok (DiffOk diff), fs') =>
      (json (BDiff diff (Diff.generateDiffSummary diff)), withFiles fs' w)
  | (Ok (DiffFailed error currentCoverage), fs') =>
      (statusJson 400 (BDiffFailed error currentCoverage), withFiles fs' w)
  | (Throw e, fs') =>
      (statusJson 500 (BFailure (messageOr "Failed to generate coverage diff" e)),
       withFiles fs' w)
  end.

(** [app.get('/profile-tests', ...)] *)
Definition profileTestsHandler (req : Request) (w : World) : Response * World :=
  match Profile.profileTests (files w) with
  | (Ok profile, fs') =>
      if Profile.success profile
      then (json (BProfile profile), withFiles fs' w)
      else (statusJson 500 (BFailure (JStr "Failed to profile tests")), withFiles fs' w)
  | (Throw e, fs') =>
      (statusJson 500 (BFailure (messageOr "Failed to profile tests" e)), withFiles fs' w)
  end.

(** [app.post('/ai-generate-tests', ...)] *)
Definition aiGenerateTestsHandler (req : Request) (w : World) : Response * World :=
  if missing (projectPath req)
  then (statusJson 400 (BError "Missing projectPath"), w)
  else
    match generateAITests (default "" (projectPath req))
            (default [] (uncoveredFiles req)) w with
    | (Ok generated, w1) =>
        (json (BGeneratedAI generated
                 ("Generated " ++ Diff.numToString (Z.of_nat (length generated)) ++
                  " AI-assisted test files using " ++ getProviderName w1)), w1)
    | (Throw e, w1) =>
        (statusJson 500 (BFailure (messageOr "Failed to generate AI tests" e)), w1)
    end.

(** [app.get('/ai-health', ...)] *)
Definition aiHealthHandler (req : Request) (w : World) : Response * World :=
  match initialize w with
  | (false, w1) =>
      (json (BLlmStatus "not_configured" "LLM service could not be initialized" None), w1)
  | (true, w1) =>
      (json (BLlmStatus "healthy" (getProviderName w1 ++ " provider is ready")
               (Some (getProviderName w1))), w1)
  end.

(** [app.get('/llm-config', ...)] *)
Definition llmConfigHandler (req : Request) (w : World) : Response * World :=
  match initialize w with
  | (false, w1) => (json (BLlmStatus "not_configured" "No LLM provider configured" None), w1)
  | (true, w1) =>
      (json (BLlmStatus "configured" "" (Some (getProviderName w1))), w1)
  end.

Definition handle (ep : Endpoint) : Request -> World -> Response * World :=
  match ep with
  | SetupVitest => setupVitestHandler
  | AnalyzeCoverage => analyzeCoverageHandler
  | GenerateTests => generateTestsHandler
  | CoverageDiff => coverageDiffHandler
  | ProfileTests => profileTestsHandler
  | AiGenerateTests => aiGenerateTestsHandler
  | AiHealth => aiHealthHandler
  | LlmConfig => llmConfigHandler
  end.
End WithPlatform.

End Server.

(** ** Totals over a coverage map, for the statements about computeDiff *)

Module DiffTotals.

(** All statement hit counts of a coverage map, added up. *)
Definition totalHits (m : Coverage.CoverageMap) : Z :=
  Diff.sumZ (map (fun e => Diff.sumZ ((Coverage.orEmpty (Coverage.s e.2)).*2)) m).

(** Hit counts are zero or more. *)
Definition nonnegCounts (m : Coverage.CoverageMap) : Prop :=
  Forall (fun e => Forall (fun n => 0 <= n) ((Coverage.orEmpty (Coverage.s e.2)).*2)) m.


Definition exactTotal (m : Coverage.CoverageMap) : Prop :=
  nonnegCounts m /\ totalHits m <= 2 ^ 53.





End DiffTotals.

(** ** How far a run of generateTests has got *)

Module GenerateTestsProgress.
Import GenerateTests.

Section WithPath.
Context `{PathModule}.
Variable projectRoot : string.
Variable uncoveredFiles : list string.

(** The file at [p] is the render test of one of the inputs. *)
Definition written (fs : FS) (p : string) : Prop :=
  exists f pl, f ∈ uncoveredFiles /\ plan projectRoot f = Some pl /\
               testFile pl = p /\ fs !! p = Some (File (template pl)).

(** What holds of the file system when the callback of input [f] is in
    state [t]. *)
Definition progress (fs : FS) (f : string) (t : Task) : Prop :=
  match plan projectRoot f with
  | None => t = Resolved None
  | Some pl =>
      match t with
      | AwaitEnsureDir pl' => pl' = pl
      | AwaitPathExists pl' | AwaitWriteFile pl' =>
          pl' = pl /\ fs !! testDir pl = Some Dir
      | Resolved None =>
          fs !! testDir pl = Some Dir /\ is_Some (fs !! testFile pl)
      | Resolved (Some p) =>
          fs !! testDir pl = Some Dir /\ p = testFile pl /\ written fs p
      | Rejected _ => True
      end
  end.

(** A directory stays one, a path that exists keeps existing, and a render
    test is replaced by a render test only. *)
Definition extends (fs fs' : FS) : Prop :=
  (forall p, fs !! p = Some Dir -> fs' !! p = Some Dir) /\
  (forall p, is_Some (fs !! p) -> is_Some (fs' !! p)) /\
  (forall p, written fs p -> written fs' p).

(** A callback that finds its test directory and its test file in place. *)
Definition satisfied (fs : FS) (t : Task) : Prop :=
  match t with
  | AwaitEnsureDir pl | AwaitPathExists pl =>
      fs !! testDir pl = Some Dir /\ is_Some (fs !! testFile pl)
  | Resolved None => True
  | _ => False
  end.

(** Nothing is left to do: no callback writes, fails or reports a path. *)
Definition idle (fs1 : FS) (s : State) : Prop :=
  fs s = fs1 /\ rejection s = None /\ writes s = [] /\ Forall (satisfied fs1) (tasks s).

End WithPath.

End GenerateTestsProgress.

(** ** What loadPlugins imports and mounts *)

Module LoaderTrace.
Import Loader.

(** The modules that were imported, in order. *)
Definition imports (events : list Event) : list (string * string) :=
  events ≫= fun e =>
    match e with
    | Import file fullPath => [(file, fullPath)]
    | _ => []
    end.

(** The files whose router was called, in order. *)
Definition calls (events : list Event) : list string :=
  events ≫= fun e =>
    match e with
    | CallRouter file => [file]
    | _ => []
    end.

Section WithPlatform.
Context `{PathModule} `{Importer}.

(** [module.default.router] when the module loads and it is a function. *)
Definition routerOf (fullPath : string) : option (App -> Outcome unit * App) :=
  match importModule fullPath with
  | Ok module =>
      match default module with
      | Some d => router d
      | None => None
      end
  | Throw _ => None
  end.

(** The app after the router of [file], if it has one, was called on it;
    what a router mounted before it threw stays mounted. *)
Definition mountPlugin (pluginsDir : string) (app : App) (file : string) : App :=
  match routerOf (join [pluginsDir; file]) with
  | Some register => (register app).2
  | None => app
  end.

Definition loadable (files : list string) : list string :=
  List.filter (fun file => negb (skipped file)) files.
End WithPlatform.

End LoaderTrace.

(** ** What the AI test writer adds *)

Module AiWriter.
Import Llm.

(** The test files [added] between the worlds [w] and [w']: they are what
    the writer has logged, each path was free in [w] and holds a generated
    test, which is not empty, in [w']. *)
Definition addedBy (added : list string) (w w' : World) : Prop :=
  aiWrites w' = (aiWrites w ++ added)%list /\
  NoDup added /\
  forall p, p ∈ added ->
    files w !! p = None /\ exists c, c <> "" /\ files w' !! p = Some (File c).

End AiWriter.

(** ** The recommendations of the test profiler (generateRecommendations) *)

Module Recommend.
Import Profile.

(** [{ type, severity, message, affectedTests }] *)
Record Recommendation := {
    type : string;
    severity : string;
    message : string;
    affectedTests : list string
  }.

(** [String.prototype.toLowerCase], on the letters A to Z; the other
    characters that it changes are outside ASCII and stay outside of it
    (but for the Kelvin sign and the dotted capital I, which become k and
    i), so that the search for 'renders' below does not see them. *)
Definition lowerAscii (c : ascii) : ascii :=
  let n := nat_of_ascii c in
  if (65 <=? n)%nat && (n <=? 90)%nat then ascii_of_nat (n + 32) else c.

Fixpoint toLowerCase (s : string) : string :=
  match s with
  | EmptyString => EmptyString
  | String c s' => String (lowerAscii c) (toLowerCase s')
  end.

(** [String.prototype.includes] *)
Fixpoint includes (s sub : string) : bool :=
  String.prefix sub s ||
  match s with
  | EmptyString => false
  | String _ s' => includes s' sub
  end.

Definition countText (l : list Test) : string := Diff.numToString (Z.of_nat (length l)).

Definition generateRecommendations (tests : list Test) (threshold : Double.Num)
  : list Recommendation :=
  let verySlowTests :=
    List.filter (fun test => Double.ltb (Double.mul threshold (Double.Fin 2))
                                        (Double.orZero (duration test))) tests in
  let longRunningTests :=
    List.filter (fun test => Double.ltb (Double.Fin 500) (Double.orZero (duration test)))
                tests in
  let potentiallyIncomplete :=
    List.filter (fun test => includes (toLowerCase (title test)) "renders"
                             && Double.ltb (Double.orZero (duration test)) (Double.Fin 10))
                tests in
  ((if (0 <? length verySlowTests)%nat
    then [ {| type := "performance";
              severity := "high";
              message := countText verySlowTests ++ " tests are taking longer than "
                         ++ Double.toString (Double.round (Double.divBy threshold 1000))
                         ++ "s. Consider splitting them or adding timeouts.";
              affectedTests := map fullName verySlowTests |} ]
    else []) ++
   (if (5 <? length longRunningTests)%nat
    then [ {| type := "parallelization";
              severity := "medium";
              message := "Consider running " ++ countText longRunningTests
                         ++ " long-running tests in parallel to improve overall test suite speed.";
              affectedTests := map fullName longRunningTests |} ]
    else []) ++
   (if (0 <? length potentiallyIncomplete)%nat
    then [ {| type := "completeness";
              severity := "low";
              message := countText potentiallyIncomplete
                         ++ " render-only tests might need additional assertions.";
              affectedTests := map fullName potentiallyIncomplete |} ]
    else []))%list.

(** The [recommendations] field of the profile. *)
Definition recommendationsOf (data : Report) : list Recommendation :=
  generateRecommendations (sortedTests data) (slowThreshold (sortedTests data)).

End Recommend.

(** ** The first version of the AI test writer's plugin, on the OpenAI client *)

Module OpenAIPlugin.
Import Llm Server.

Section WithPlatform.
Context `{PathModule} `{Backend}.

(** [!process.env.OPENAI_API_KEY] *)
Definition noApiKey : bool :=
  match env "OPENAI_API_KEY" with
  | Some v => String.eqb v ""
  | None => true
  end.

(** [app.post('/ai-generate-tests', ...)] *)
Definition aiGenerateTestsHandler (req : Request) (w : World) : Response * World :=
  if missing (projectPath req)
  then (statusJson 400 (BError "Missing projectPath"), w)
  else if noApiKey
  then (statusJson 400 (BError "OpenAI API key not configured"), w)
  else
    match generateAITestsOpenAI (default "" (projectPath req))
            (default [] (uncoveredFiles req)) w with
    | (Ok generated, w1) =>
        (json (BGeneratedAI generated
                 ("Generated " ++ Diff.numToString (Z.of_nat (length generated)) ++
                  " AI-assisted test files")), w1)
    | (Throw e, w1) =>
        (statusJson 500 (BFailure (messageOr "Failed to generate AI tests" e)), w1)
    end.
End WithPlatform.

End OpenAIPlugin.

(** ** The CI generator (generateCIConfig and its plugin) *)

Module Ci.

(** A double quote. *)
Definition dq : string := String "034"%char EmptyString.

Definition githubWorkflow : string :=
  String.concat GenerateTests.nl
    [ "name: Vitest Coverage CI";
      "";
      "on:";
      "  push:";
      "    branches: [ main, develop ]";
      "  pull_request:";
      "";
      "jobs:";
      "  coverage:";
      "    runs-on: ubuntu-latest";
      "    ";
      "    strategy:";
      "      matrix:";
      "        node-version: [18.x, 20.x]";
      "    ";
      "    steps:";
      "      - name: Checkout code";
      "        uses: actions/checkout@v4";
      "        ";
      "      - name: Use Node.js ${{ matrix.node-version }}";
      "        uses: actions/setup-node@v4";
      "        with:";
      "          node-version: ${{ matrix.node-version }}";
      "          cache: 'npm'";
      "          ";
      "      - name: Install dependencies";
      "        run: npm ci";
      "        ";
      "      - name: Run Vitest with coverage";
      "        run: npx vitest run --coverage";
      "        ";
      "      - name: Upload coverage reports to Codecov";
      "        uses: codecov/codecov-action@v3";
      "        with:";
      "          token: ${{ secrets.CODECOV_TOKEN }}";
      "          ";
      "      - name: Upload coverage artifacts";
      "        uses: actions/upload-artifact@v3";
      "        with:";
      "          name: coverage-report-${{ matrix.node-version }}";
      "          path: coverage/";
      "          ";
      "      - name: Comment PR with coverage";
      "        if: github.event_name == 'pull_request'";
      "        uses: 5monkeys/cobertura-action@master";
      "        with:";
      "          path: coverage/coverage-final.xml";
      "          minimum_coverage: 100";
      "          fail_below_threshold: true" ].

Definition gitlabConfig : string :=
  String.concat GenerateTests.nl
    [ "stages:";
      "  - install";
      "  - test";
      "  - coverage";
      "";
      "variables:";
      "  NODE_VERSION: " ++ dq ++ "18" ++ dq;
      "";
      "cache:";
      "  paths:";
      "    - node_modules/";
      "";
      "install:";
      "  stage: install";
      "  image: node:$NODE_VERSION";
      "  script:";
      "    - npm ci";
      "  artifacts:";
      "    paths:";
      "      - node_modules/";
      "    expire_in: 1 hour";
      "";
      "test:";
      "  stage: test";
      "  image: node:$NODE_VERSION";
      "  script:";
      "    - npx vitest run --reporter=verbose";
      "  artifacts:";
      "    when: always";
      "    paths:";
      "      - coverage/";
      "    reports:";
      "      junit: coverage/junit.xml";
      "";
      "coverage:";
      "  stage: coverage";
      "  image: node:$NODE_VERSION";
      "  script:";
      "    - npx vitest run --coverage";
      "  coverage: '/Liness*:s*(d+.d+%)/'";
      "  artifacts:";
      "    paths:";
      "      - coverage/";
      "    reports:";
      "      coverage_report:";
      "        coverage_format: cobertura";
      "        path: coverage/coverage-final.xml" ].

Definition githubReadme (name : string) : string :=
  String.concat GenerateTests.nl
    [ "## GitHub Actions CI";
      "";
      "This project uses GitHub Actions for continuous integration:";
      "";
      "- **Triggers**: Push to `main`/`develop` branches and pull requests";
      "- **Node versions**: Tests run on Node.js 18.x and 20.x";
      "- **Coverage**: Enforces 100% coverage threshold";
      "- **Artifacts**: Coverage reports are uploaded as build artifacts";
      "";
      "### Setup Instructions";
      "";
      "1. The workflow file is automatically generated at `.github/workflows/vitest-coverage.yml`";
      "2. (Optional) Add a `CODECOV_TOKEN` secret to your repository for enhanced coverage reporting";
      "3. Push to trigger the workflow";
      "";
      "### Coverage Badge";
      "";
      "Add this badge to your README:";
      "```markdown";
      "![Coverage](https://github.com/your-username/" ++ name ++ "/workflows/Vitest%20Coverage%20CI/badge.svg)";
      "```";
      "" ].

Definition gitlabReadme (name : string) : string :=
  String.concat GenerateTests.nl
    [ "## GitLab CI";
      "";
      "This project uses GitLab CI for continuous integration:";
      "";
      "- **Stages**: install → test → coverage";
      "- **Node version**: Tests run on Node.js 18.x";
      "- **Coverage**: Reports coverage in job output and artifacts";
      "- **Artifacts**: Coverage reports are preserved for download";
      "";
      "### Setup Instructions";
      "";
      "1. The configuration is automatically generated at `.gitlab-ci.yml`";
      "2. Commit and push to trigger pipeline";
      "3. View coverage reports in job artifacts";
      "";
      "### Coverage Badge";
      "";
      "Add this badge to your README:";
      "```markdown";
      "![Coverage](https://gitlab.com/your-username/" ++ name ++ "/-/jobs/artifacts/main/raw/coverage/badge.svg?job=coverage)";
      "```";
      "" ].

(** [String.prototype.trim], on the white space of ASCII (space, tab, line
    feed, vertical tab, form feed, carriage return). *)
Definition isSpace (c : ascii) : bool :=
  let n := nat_of_ascii c in
  (n =? 32)%nat || ((9 <=? n)%nat && (n <=? 13)%nat).

Fixpoint trimStart (s : string) : string :=
  match s with
  | String c s' => if isSpace c then trimStart s' else s
  | EmptyString => EmptyString
  end.

Fixpoint trimEnd (s : string) : string :=
  match s with
  | EmptyString => EmptyString
  | String c s' =>
      match trimEnd s' with
      | EmptyString => if isSpace c then EmptyString else String c EmptyString
      | rest => String c rest
      end
  end.

Definition trim (s : string) : string := trimEnd (trimStart s).

(** What generateCIConfig returns: [{ success: true, configPath,
    readmeSection, message }] or [{ success: false, error }]. *)
Inductive CIResult :=
  | CISuccess (configPath readmeSection message : string)
  | CIFailure (error : Json).

(** The body of a request: [{ platform?: string, projectName?: string }]. *)
Record Request := {
    platform : option string;
    projectName : option string
  }.

(** [{ available, workflowsDir }] and [{ available, configFile }] *)
Record Check := {
    available : bool;
    location : string
  }.

Inductive Body :=
  | BWorkflow (configPath readmeSection message instructions : string)
  | BWorkflowFailed (error : Json)
  | BAllWorkflows (github : CIResult) (githubInstructions : string)
                  (gitlab : CIResult) (gitlabInstructions : string)
  | BHealth (githubActions gitlabCI : Check).

Record Response := {
    status : Z;
    payload : Body
  }.

Section WithPlatform.
Context `{PathModule} `{Subprocess}.

Definition workflowDir : string := join [cwd; ".github"; "workflows"].
Definition workflowPath : string := join [workflowDir; "vitest-coverage.yml"].
Definition gitlabPath : string := join [cwd; ".gitlab-ci.yml"].

Definition generateGitHubWorkflow (fs : FS) : Outcome string * FS :=
  match Fs.ensureDir workflowDir fs with
  | Throw e => (Throw e, fs)
  | Ok fs1 =>
      match Fs.writeFile workflowPath (trim githubWorkflow) fs1 with
      | Throw e => (Throw e, fs1)
      | Ok fs2 => (Ok workflowPath, fs2)
      end
  end.

Definition generateGitLabWorkflow (fs : FS) : Outcome string * FS :=
  match Fs.writeFile gitlabPath (trim gitlabConfig) fs with
  | Throw e => (Throw e, fs)
  | Ok fs1 => (Ok gitlabPath, fs1)
  end.

(** [projectName || 'your-project'] *)
Definition nameOr (projectName : option string) : string :=
  match projectName with
  | Some n => if String.eqb n "" then "your-project" else n
  | None => "your-project"
  end.

Definition generateCIReadme (platform : string) (projectName : option string) : string :=
  if String.eqb platform "github" then githubReadme (nameOr projectName)
  else gitlabReadme (nameOr projectName).

Definition unsupported : string :=
  "Unsupported platform. Use " ++ dq ++ "github" ++ dq ++ " or " ++ dq ++ "gitlab" ++ dq ++ ".".

Definition generateCIConfig (platform : string) (projectName : option string) (fs : FS)
  : CIResult * FS :=
  let finish (r : Outcome string * FS) : CIResult * FS :=
    match r with
    | (Ok configPath, fs') =>
        (CISuccess configPath (generateCIReadme platform projectName)
           ("Generated " ++ platform ++ " CI configuration"), fs')
    | (Throw e, fs') =>
        (CIFailure (messageOr "Failed to generate CI configuration" e), fs')
    end in
  if String.eqb platform "github" then finish (generateGitHubWorkflow fs)
  else if String.eqb platform "gitlab" then finish (generateGitLabWorkflow fs)
  else (CIFailure (JStr unsupported), fs).

(** [app.post('/generate-workflow', ...)] *)
Definition generateWorkflowHandler (req : Request) (fs : FS) : Response * FS :=
  match generateCIConfig (default "github" (platform req)) (projectName req) fs with
  | (CISuccess configPath readmeSection message, fs') =>
      ({| status := 200;
          payload := BWorkflow configPath readmeSection message readmeSection |}, fs')
  | (CIFailure error, fs') =>
      ({| status := 400; payload := BWorkflowFailed error |}, fs')
  end.

(** [app.post('/generate-all-workflows', ...)] *)
Definition generateAllWorkflowsHandler (req : Request) (fs : FS) : Response * FS :=
  let '(githubResult, fs1) := generateCIConfig "github" (projectName req) fs in
  let '(gitlabResult, fs2) := generateCIConfig "gitlab" (projectName req) fs1 in
  ({| status := 200;
      payload := BAllWorkflows githubResult (generateCIReadme "github" (projectName req))
                               gitlabResult (generateCIReadme "gitlab" (projectName req)) |},
   fs2).

(** [app.get('/ci-health', ...)] *)
Definition ciHealthHandler (fs : FS) : Response * FS :=
  ({| status := 200;
      payload := BHealth {| available := Fs.pathExists workflowDir fs;
                            location := workflowDir |}
                         {| available := Fs.pathExists gitlabPath fs;
                            location := gitlabPath |} |},
   fs).
End WithPlatform.

End Ci.

(** ** Concrete platforms and inputs, for evaluation *)

Module Sample.

Definition path : PathModule := Posix.pathModule "/srv".

(** A subprocess that exits normally and leaves the files alone, and one
    that fails. *)
Definition quietRunner : Subprocess :=
  {| cwd := "/srv";
     run := fun _ _ fs => ({| exitError := None; stdout := ""; stderr := "" |}, fs) |}.

Definition failingRunner : Subprocess :=
  {| cwd := "/srv";
     run := fun _ _ fs =>
       ({| exitError := Some "Command failed"; stdout := ""; stderr := "boom" |}, fs) |}.

Definition coverage : Coverage.CoverageMap :=
  [("src/App.tsx",
    {| Coverage.s := Some [("0", 3); ("1", 0)];
       Coverage.b := Some [("0", [1; 0]); ("1", [2; 2])];
       Coverage.f := Some [("0", 0); ("1", 4)] |});
   ("src/util.ts",
    {| Coverage.s := Some [("0", 1)];
       Coverage.b := None;
       Coverage.f := None |})].

Definition coverageJson : Coverage.CoverageJson :=
  {| Coverage.parseCoverage := fun raw =>
       if String.eqb raw "coverage-json" then Some coverage else None |}.

Definition project : FS :=
  list_to_map [("/proj", Dir); ("/proj/coverage", Dir);
               ("/proj/coverage/coverage-final.json", File "coverage-json")].

(** A report with one suite of eleven tests that take 100, 200, ..., 1000
    and 5000 milliseconds, and a skipped one without timing data. *)
Definition assertion (ms : Z) : Profile.Assertion :=
  {| Profile.a_title := "renders " ++ Diff.numToString ms;
     Profile.a_fullName := "App renders " ++ Diff.numToString ms;
     Profile.a_duration := Some (Double.Fin (inject_Z ms));
     Profile.a_status := "passed" |}.

Definition report : Profile.Report :=
  {| Profile.testResults := Some
       [ {| Profile.s_name := "/srv/src/App.test.tsx";
            Profile.s_file := "/srv/src/App.test.tsx";
            Profile.assertionResults := Some
              (app (map assertion [300; 100; 5000; 200; 400; 500; 600; 700; 800; 900; 1000])
                 [ {| Profile.a_title := "skipped";
                       Profile.a_fullName := "App skipped";
                       Profile.a_duration := None;
                       Profile.a_status := "skipped" |} ]) |} ] |}.

(** A report with durations that have a fraction. *)
Definition timedAssertion (name : string) (ms : Q) : Profile.Assertion :=
  {| Profile.a_title := name;
     Profile.a_fullName := name;
     Profile.a_duration := Some (Double.lit ms);
     Profile.a_status := "passed" |}.

Definition fractionalReport : Profile.Report :=
  {| Profile.testResults := Some
       [ {| Profile.s_name := "/srv/src/App.test.tsx";
            Profile.s_file := "/srv/src/App.test.tsx";
            Profile.assertionResults := Some
              (map (fun name => timedAssertion name (5553846396640287 # 1000000000000))
                   ["a"; "b"; "c"; "d"; "e"; "f"] ++
               map (fun name => timedAssertion name (1 # 10000000000000))
                   ["g"; "h"; "i"; "j"; "k"; "l"])%list |} ] |}.

(** A project whose root directory has a name that ends in .js *)
Definition chartProject : FS :=
  list_to_map [("/srv", Dir); ("/srv/chart.js", Dir)].

Definition reportJson : Profile.ReportJson :=
  {| Profile.parseReport := fun raw =>
       if String.eqb raw "report-json" then Some report else None |}.

Definition profiled : FS :=
  list_to_map [("/srv", Dir); ("/srv/coverage", Dir);
               ("/srv/coverage/test-profile.json", File "report-json")].

(** A tools directory: two plugins, the index, a module that fails to
    load, one without default export, one whose router throws, a hidden
    file and a text file. *)
Definition mount (m u : string) (app : Loader.App) : Loader.App :=
  (app ++ [ {| Loader.method := m; Loader.url := u |} ])%list.

Definition plugin (n m u : string) : Outcome Loader.Imported :=
  Ok {| Loader.default := Some
          {| Loader.name := n;
             Loader.router := Some (fun app => (Ok tt, mount m u app)) |} |}.

Definition importer : Loader.Importer :=
  {| Loader.importModule := fun fullPath =>
       if String.eqb fullPath "/srv/src/tools/setupVitest.ts"
       then plugin "vitest-setup" "POST" "/setup-vitest"
       else if String.eqb fullPath "/srv/src/tools/coverageDiff.ts"
       then plugin "coverage-diff" "POST" "/coverage-diff"
       else if String.eqb fullPath "/srv/src/tools/index.ts"
       then plugin "index" "GET" "/index"
       else if String.eqb fullPath "/srv/src/tools/.draft.ts"
       then plugin "draft" "GET" "/draft"
       else if String.eqb fullPath "/srv/src/tools/types.ts"
       then Ok {| Loader.default := None |}
       else if String.eqb fullPath "/srv/src/tools/throwing.ts"
       then Ok {| Loader.default := Some
                    {| Loader.name := "throwing";
                       Loader.router := Some (fun app =>
                         (Throw (ThrownError "app.post is not a function" []), app)) |} |}
       else Throw (ThrownError ("Cannot find module '" ++ fullPath ++ "'") []) |}.

Definition server : FS :=
  list_to_map [("/srv", Dir); ("/srv/src", Dir); ("/srv/src/tools", Dir);
               ("/srv/src/tools/setupVitest.ts", File "");
               ("/srv/src/tools/broken.ts", File "");
               ("/srv/src/tools/coverageDiff.ts", File "");
               ("/srv/src/tools/index.ts", File "");
               ("/srv/src/tools/.draft.ts", File "");
               ("/srv/src/tools/types.ts", File "");
               ("/srv/src/tools/throwing.ts", File "");
               ("/srv/src/tools/README.md", File "")].

(** A project with two components, a helper and a text file; App already
    has a test. *)
Definition sources : FS :=
  list_to_map [("/proj", Dir); ("/proj/src", Dir);
               ("/proj/src/App.tsx", File "export default function App() {}");
               ("/proj/src/Card.tsx", File "export default function Card() {}");
               ("/proj/src/util.ts", File "export const id = (x) => x;");
               ("/proj/README.md", File "# project");
               ("/proj/__tests__", Dir); ("/proj/__tests__/src", Dir);
               ("/proj/__tests__/src/App.test.tsx", File "user test")].

Definition uncoveredFiles : list string :=
  ["src/App.tsx"; "README.md"; "/proj/src/Card.tsx"; "src/util.ts"].

(** A repository without the base branch: [git checkout main] fails, every
    other command exits normally. *)
Definition noBaseBranch : Subprocess :=
  {| cwd := "/srv";
     run := fun cmd _ fs =>
       if String.eqb cmd "git checkout main"
       then ({| exitError := Some "Command failed: git checkout main";
                stdout := "";
                stderr := "error: pathspec 'main' did not match any file(s) known to git" |},
             fs)
       else ({| exitError := None; stdout := ""; stderr := "" |}, fs) |}.

(** The working directory of the server, with a coverage artifact and a
    test report. *)
Definition served : FS :=
  list_to_map [("/srv", Dir); ("/srv/coverage", Dir);
               ("/srv/coverage/coverage-final.json", File "coverage-json");
               ("/srv/coverage/test-profile.json", File "report-json")].

(** No environment variable, no provider in the configuration file, a
    backend that is up and answers every prompt with the same test. *)
Definition backend : Llm.Backend :=
  {| Llm.env := fun _ => None;
     Llm.parseLlmConfig := fun _ => Some None;
     Llm.isHealthy := fun _ _ => true;
     Llm.complete := fun _ _ fs => (Ok "test('renders', () => {});", fs) |}.

(** The process right after startup: the singleton has no provider yet. *)
Definition started (fs : FS) : Llm.World :=
  {| Llm.files := fs;
     Llm.proc := {| Llm.config := [("port", JNum 3000)];
                    Llm.routes := [];
                    Llm.provider := None |};
     Llm.aiWrites := [] |}.

Definition emptyRequest : Server.Request :=
  {| Server.projectPath := None; Server.uncoveredFiles := None; Server.baseBranch := None |}.

(** A branch entry of the artifact is an array, so [a + b] concatenates. *)
Definition oneBranch : Coverage.CoverageMap :=
  [("src/App.tsx",
    {| Coverage.s := Some [("0", 1)];
       Coverage.b := Some [("0", [1; 0])];
       Coverage.f := Some [("0", 1)] |})].

(** The listing of the tools directory of [server]. *)
Definition sampleListing : list string :=
  ["setupVitest.ts"; "coverageDiff.ts"; "index.ts"; ".draft.ts";
   "README.md"; "broken.ts"; "types.ts"; "throwing.ts"].

(** A project with six components, none of which has a test. *)
Definition sixComponents : FS :=
  list_to_map [("/proj", Dir); ("/proj/src", Dir);
               ("/proj/src/A.tsx", File "export default function A() {}");
               ("/proj/src/B.tsx", File "export default function B() {}");
               ("/proj/src/C.tsx", File "export default function C() {}");
               ("/proj/src/D.tsx", File "export default function D() {}");
               ("/proj/src/E.tsx", File "export default function E() {}");
               ("/proj/src/F.tsx", File "export default function F() {}")].

Definition sixRequest : Server.Request :=
  {| Server.projectPath := Some "/proj";
     Server.uncoveredFiles :=
       Some ["src/A.tsx"; "src/B.tsx"; "src/C.tsx"; "src/D.tsx"; "src/E.tsx"; "src/F.tsx"];
     Server.baseBranch := None |}.


(** A server directory with a GitLab configuration that was edited by
    hand. *)
Definition handEdited : FS :=
  list_to_map [("/srv", Dir); ("/srv/.gitlab-ci.yml", File "stages: [test]")].

End Sample.

(** * Properties *)

Module FsFacts.
Section WithPath.
Context `{PathModule}.
Import Fs.

Lemma preserves_refl fs : preserves fs fs.
Proof. intros p n Hp. exact Hp. Qed.

Lemma preserves_trans fs1 fs2 fs3 :
  preserves fs1 fs2 -> preserves fs2 fs3 -> preserves fs1 fs3.
Proof. intros H12 H23 p n Hp. apply H23, H12, Hp. Qed.

Lemma preserves_insert_fresh fs p n :
  fs !! p = None -> preserves fs (<[p := n]> fs).
Proof.
  intros Hnone q m Hq.
  rewrite lookup_insert_ne; [exact Hq | congruence].
Qed.

Lemma mkdirs_preserves n : forall p fs fs',
  mkdirs n p fs = Ok fs' -> preserves fs fs'.
Proof.
  induction n as [| n IH]; intros p fs fs' Hm; simpl in Hm.
  - destruct (fs !! p) as [[c|]|]; inversion Hm; subst. apply preserves_refl.
  - destruct (fs !! p) as [[c|]|] eqn:Hp; try (inversion Hm; subst; apply preserves_refl).
    destruct (mkdirs n (dirname p) fs) as [fs1|e] eqn:Hrec; inversion Hm; subst.
    intros q m Hq.
    destruct (decide (p = q)) as [->|Hne].
    + congruence.
    + rewrite lookup_insert_ne by exact Hne. eapply IH; eauto.
Qed.

Lemma ensureDir_preserves p fs fs' :
  ensureDir p fs = Ok fs' -> preserves fs fs'.
Proof. apply mkdirs_preserves. Qed.

Lemma mkdirs_is_dir n : forall p fs fs',
  mkdirs n p fs = Ok fs' -> fs' !! p = Some Dir.
Proof.
  destruct n as [| n]; intros p fs fs' Hm; simpl in Hm.
  - destruct (fs !! p) as [[c|]|] eqn:Hp; inversion Hm; subst. exact Hp.
  - destruct (fs !! p) as [[c|]|] eqn:Hp; try (inversion Hm; subst; exact Hp).
    destruct (mkdirs n (dirname p) fs) as [fs1|e]; inversion Hm; subst.
    apply lookup_insert_eq.
Qed.

Lemma writeFile_other p c fs fs' q :
  writeFile p c fs = Ok fs' -> q <> p -> fs' !! q = fs !! q.
Proof.
  unfold writeFile. intros Hw Hne.
  destruct (fs !! p) as [[c0|]|]; [inversion Hw; subst | inversion Hw |].
  - apply lookup_insert_ne. congruence.
  - destruct (fs !! dirname p) as [[c1|]|]; inversion Hw; subst.
    apply lookup_insert_ne. congruence.
Qed.

Lemma writeFile_written p c fs fs' :
  writeFile p c fs = Ok fs' -> fs' !! p = Some (File c).
Proof.
  unfold writeFile. intros Hw.
  destruct (fs !! p) as [[c0|]|]; [inversion Hw; subst | inversion Hw |].
  - apply lookup_insert_eq.
  - destruct (fs !! dirname p) as [[c1|]|]; inversion Hw; subst.
    apply lookup_insert_eq.
Qed.

Lemma writeFile_fresh_preserves p c fs fs' :
  fs !! p = None -> writeFile p c fs = Ok fs' -> preserves fs fs'.
Proof.
  intros Hnone Hw q n Hq.
  rewrite (writeFile_other p c fs fs' q Hw); [exact Hq | congruence].
Qed.

Lemma pathExists_false p fs : pathExists p fs = false <-> fs !! p = None.
Proof. unfold pathExists. destruct (fs !! p); split; congruence. Qed.

Lemma pathExists_true p fs : pathExists p fs = true <-> is_Some (fs !! p).
Proof.
  unfold pathExists. destruct (fs !! p) eqn:E; split; intros Hx; try congruence.
  - eauto.
  - destruct Hx as [x Hx]. congruence.
Qed.
End WithPath.
End FsFacts.

Module CoverageFacts.
Import Coverage.

Lemma distinctKeys_unique {A : Type} (o : list (string * A)) k v1 v2 :
  distinctKeys o -> (k, v1) ∈ o -> (k, v2) ∈ o -> v1 = v2.
Proof.
  unfold distinctKeys. induction o as [| [k0 v0] o IH]; simpl; intros Hnd H1 H2.
  - inversion H1.
  - apply NoDup_cons in Hnd. destruct Hnd as [Hfresh Hnd].
    apply elem_of_cons in H1, H2.
    assert (Hin : forall v, (k0, v) ∈ o -> k0 ∈ o.*1).
    { intros v Hv. apply list_elem_of_fmap. exists (k0, v). auto. }
    destruct H1 as [E1 | H1], H2 as [E2 | H2].
    + congruence.
    + inversion E1; subst. exfalso. eauto.
    + inversion E2; subst. exfalso. eauto.
    + eauto.
Qed.

Section OneKind.
Context {A : Type} (fl ty : string) (test : A -> bool).


Lemma elem_of_collect entries u :
  u ∈ collectWhere fl ty test entries <->
  exists i c, (i, c) ∈ entries /\ test c = true /\
              u = {| file := fl; type := ty; id := i |}.
Proof.
  unfold collectWhere. rewrite list_elem_of_bind. split.
  - intros [[i c] [Hu Hin]]. exists i, c.
    destruct (test c) eqn:Ht.
    + apply list_elem_of_singleton in Hu. auto.
    + inversion Hu.
  - intros (i & c & Hin & Ht & ->). exists (i, c). split; [| exact Hin].
    rewrite Ht. apply list_elem_of_singleton. reflexivity.
Qed.

Lemma NoDup_collect entries : distinctKeys entries -> NoDup (collectWhere fl ty test entries).
Proof.
  unfold distinctKeys, collectWhere. intros Hnd. apply NoDup_bind.
  - intros [i1 c1] [i2 c2] u Hin1 Hin2 Hu1 Hu2.
    destruct (test c1); [| inversion Hu1].
    destruct (test c2); [| inversion Hu2].
    apply list_elem_of_singleton in Hu1, Hu2. subst u.
    inversion Hu2; subst i2.
    f_equal. eapply distinctKeys_unique; eauto.
  - intros [i c] _. destruct (test c); [apply NoDup_singleton | apply NoDup_nil_2].
  - eapply NoDup_fmap_1. exact Hnd.
Qed.
End OneKind.

Lemma existsb_zero (counts : list Z) :
  existsb (fun c => c =? 0) counts = true <-> 0 ∈ counts.
Proof.
  rewrite existsb_exists. split.
  - intros [c [Hin Hc]]. apply Z.eqb_eq in Hc. subst c.
    apply list_elem_of_In. exact Hin.
  - intros Hin. exists 0. split; [apply list_elem_of_In; exact Hin | reflexivity].
Qed.

(** Membership in the entries of one file. *)
Lemma elem_of_uncoveredOfFile fl data u :
  u ∈ uncoveredOfFile fl data <->
  file u = fl /\
  ((type u = "statement" /\ (id u, 0) ∈ orEmpty (s data)) \/
   (type u = "branch" /\ exists counts, (id u, counts) ∈ orEmpty (b data) /\ 0 ∈ counts) \/
   (type u = "function" /\ (id u, 0) ∈ orEmpty (f data))).
Proof.
  unfold uncoveredOfFile. rewrite !elem_of_app.
  rewrite (elem_of_collect fl "statement" (fun c => c =? 0)).
  rewrite (elem_of_collect fl "branch" (existsb (fun c => c =? 0))).
  rewrite (elem_of_collect fl "function" (fun c => c =? 0)).
  split.
  - intros [(i & c & Hin & Hc & ->) | [(i & c & Hin & Hc & ->) | (i & c & Hin & Hc & ->)]];
      simpl; split; try reflexivity.
    + left. apply Z.eqb_eq in Hc. subst c. auto.
    + right; left. split; [reflexivity |]. exists c. split; [exact Hin |].
      apply existsb_zero. exact Hc.
    + right; right. apply Z.eqb_eq in Hc. subst c. auto.
  - destruct u as [uf ut ui]. simpl.
    intros [<- [[-> Hin] | [[-> (counts & Hin & Hz)] | [-> Hin]]]].
    + left. exists ui, 0. auto.
    + right; left. exists ui, counts. split; [exact Hin |].
      split; [apply existsb_zero; exact Hz | reflexivity].
    + right; right. exists ui, 0. auto.
Qed.

Lemma NoDup_uncoveredOfFile fl data :
  distinctKeys (orEmpty (s data)) ->
  distinctKeys (orEmpty (b data)) ->
  distinctKeys (orEmpty (f data)) ->
  NoDup (uncoveredOfFile fl data).
Proof.
  intros Hs Hb Hf. unfold uncoveredOfFile.
  apply NoDup_app. split; [| split].
  - apply (NoDup_collect fl "statement" (fun c => c =? 0)). exact Hs.
  - intros u Hu Hu'.
    apply (elem_of_collect fl "statement" (fun c => c =? 0)) in Hu.
    destruct Hu as (i & c & _ & _ & ->).
    apply elem_of_app in Hu'. destruct Hu' as [Hu' | Hu'].
    + apply (elem_of_collect fl "branch" (existsb (fun c => c =? 0))) in Hu'.
      destruct Hu' as (i' & c' & _ & _ & Heq). discriminate Heq.
    + apply (elem_of_collect fl "function" (fun c => c =? 0)) in Hu'.
      destruct Hu' as (i' & c' & _ & _ & Heq). discriminate Heq.
  - apply NoDup_app. split; [| split].
    + apply (NoDup_collect fl "branch" (existsb (fun c => c =? 0))). exact Hb.
    + intros u Hu Hu'.
      apply (elem_of_collect fl "branch" (existsb (fun c => c =? 0))) in Hu.
      destruct Hu as (i & c & _ & _ & ->).
      apply (elem_of_collect fl "function" (fun c => c =? 0)) in Hu'.
      destruct Hu' as (i' & c' & _ & _ & Heq). discriminate Heq.
    + apply (NoDup_collect fl "function" (fun c => c =? 0)). exact Hf.
Qed.

Lemma elem_of_collectUncovered coverage u :
  u ∈ collectUncovered coverage <-> isUncovered coverage u.
Proof.
  unfold collectUncovered, isUncovered. rewrite list_elem_of_bind. split.
  - intros [[fl data] [Hu Hin]].
    apply elem_of_uncoveredOfFile in Hu. destruct Hu as [Hfile Hu].
    exists data. rewrite Hfile. auto.
  - intros (data & Hin & Hu). exists (file u, data). split; [| exact Hin].
    apply elem_of_uncoveredOfFile. auto.
Qed.

Lemma NoDup_collectUncovered coverage :
  wellFormed coverage -> NoDup (collectUncovered coverage).
Proof.
  intros [Hkeys Hinner]. unfold collectUncovered. apply NoDup_bind.
  - intros [f1 d1] [f2 d2] u Hin1 Hin2 Hu1 Hu2.
    apply elem_of_uncoveredOfFile in Hu1, Hu2.
    destruct Hu1 as [E1 _], Hu2 as [E2 _]. subst f1 f2.
    f_equal. eapply distinctKeys_unique; eauto.
  - intros [fl data] Hin. destruct (Hinner fl data Hin) as (Hs & Hb & Hf).
    apply NoDup_uncoveredOfFile; assumption.
  - eapply NoDup_fmap_1. exact Hkeys.
Qed.

Section WithPlatform.
Context `{PathModule} `{Subprocess} `{CoverageJson}.


(** analyzeCoverage returns whenever the test runner exits normally and
    leaves a coverage map behind. *)
Lemma analyzeCoverage_returns projectRoot fs coverage :
  exitError (run vitestCmd projectRoot fs).1 = None ->
  artifact projectRoot (run vitestCmd projectRoot fs).2 = Some coverage ->
  analyzeCoverage projectRoot fs =
    (Ok {| uncovered := collectUncovered coverage;
           coveragePath := join [projectRoot; "coverage"; "coverage-final.json"] |},
     (run vitestCmd projectRoot fs).2).
Proof.
  unfold analyzeCoverage, artifact.
  destruct (run vitestCmd projectRoot fs) as [r fs1]. simpl.
  intros -> Hart.
  destruct (Fs.readFile _ fs1) as [raw | e]; [| discriminate].
  rewrite Hart. reflexivity.
Qed.

(** C1: the uncovered list that analyzeCoverage returns holds exactly one
    entry for each statement and function whose hit count is zero and for
    each branch with a zero in its hit-count array, and nothing else. *)
Theorem analyzeCoverage_zero_filter projectRoot fs r fs' coverage :
  analyzeCoverage projectRoot fs = (Ok r, fs') ->
  artifact projectRoot fs' = Some coverage ->
  wellFormed coverage ->
  NoDup (uncovered r) /\ forall u, u ∈ uncovered r <-> isUncovered coverage u.
Proof.
  unfold analyzeCoverage, artifact.
  destruct (run vitestCmd projectRoot fs) as [res fs1].
  destruct (exitError res); [discriminate |].
  destruct (Fs.readFile _ fs1) as [raw | e] eqn:Hread; [| discriminate].
  destruct (parseCoverage raw) as [cov |] eqn:Hparse; [| discriminate].
  intros Hret. inversion Hret; subst. rewrite Hread, Hparse.
  intros Hcov Hwf. inversion Hcov; subst. simpl. split.
  - apply NoDup_collectUncovered. exact Hwf.
  - intros u. apply elem_of_collectUncovered.
Qed.
End WithPlatform.

Example analyzeCoverage_sample :
  (@analyzeCoverage Sample.path Sample.quietRunner Sample.coverageJson
     "/proj" Sample.project).1 =
  Ok {| uncovered :=
          [ {| file := "src/App.tsx"; type := "statement"; id := "1" |};
            {| file := "src/App.tsx"; type := "branch"; id := "0" |};
            {| file := "src/App.tsx"; type := "function"; id := "0" |} ];
        coveragePath := "/proj/coverage/coverage-final.json" |}.
Proof. vm_compute. reflexivity. Qed.

Lemma sample_wellFormed : wellFormed Sample.coverage.
Proof.
  split.
  - unfold distinctKeys. apply (bool_decide_unpack _). vm_compute. reflexivity.
  - intros fl data Hin. unfold Sample.coverage in Hin.
    repeat (apply elem_of_cons in Hin; destruct Hin as [Hin | Hin];
            [inversion Hin; subst; clear Hin | ]);
      [ | | inversion Hin ];
      unfold distinctKeys; simpl; repeat split;
      apply (bool_decide_unpack _); vm_compute; reflexivity.
Qed.

Lemma analyzeCoverage_zero_filter_witness :
  let r := {| uncovered := collectUncovered Sample.coverage;
              coveragePath := "/proj/coverage/coverage-final.json" |} in
  NoDup (uncovered r) /\ forall u, u ∈ uncovered r <-> isUncovered Sample.coverage u.
Proof.
  intros r.
  apply (@analyzeCoverage_zero_filter Sample.path Sample.quietRunner Sample.coverageJson
           "/proj" Sample.project r Sample.project Sample.coverage).
  - vm_compute. reflexivity.
  - vm_compute. reflexivity.
  - exact sample_wellFormed.
Defined.
End CoverageFacts.

Module DiffFacts.
Import Diff.

Lemma elem_of_setOf l x : x ∈ setOf l <-> x ∈ l.
Proof.
  induction l as [| y l IH]; simpl; [reflexivity |].
  rewrite !elem_of_cons, <- IH. split.
  - intros [-> | Hin]; [auto |].
    apply list_elem_of_In, filter_In in Hin. destruct Hin as [Hin _].
    right. apply list_elem_of_In. exact Hin.
  - intros [-> | Hin]; [auto |].
    destruct (String.eqb x y) eqn:E.
    + apply String.eqb_eq in E. auto.
    + right. apply list_elem_of_In, filter_In. split.
      * apply list_elem_of_In. exact Hin.
      * rewrite E. reflexivity.
Qed.












(** C4: on a coverage map with one branch whose hit counts are [1, 0], the
    branch fields of computeDiff are the string "01,0" and NaN, where the
    sums are 1 and the change is 0; the statement fields are the sums. *)
Theorem computeDiff_branch_fields_concatenate :
  computeDiff Sample.oneBranch Sample.oneBranch =
    [("src/App.tsx",
      {| baseStatements := VNum 1;
         currentStatements := VNum 1;
         statementChange := VNum 0;
         baseBranches := VStr "01,0";
         currentBranches := VStr "01,0";
         branchChange := VNaN |})] /\
  sumZ (branchCounts Sample.oneBranch "src/App.tsx") = 1.
Proof. split; vm_compute; reflexivity. Qed.
End DiffFacts.

Module DoubleFacts.
Import Double.
Local Open Scope Q_scope.

Lemma Qltb_lt x y : Qltb x y = true <-> x < y.
Proof.
  unfold Qltb. rewrite negb_true_iff, <- not_true_iff_false, Qle_bool_iff.
  split; [apply Qnot_le_lt | apply Qlt_not_le].
Qed.

Lemma Qltb_ge x y : Qltb x y = false <-> y <= x.
Proof.
  unfold Qltb. rewrite negb_false_iff. apply Qle_bool_iff.
Qed.

(** *** Powers of two *)

Lemma pow2_pos p : 0 < pow2 p.
Proof. apply Qpower_0_lt. reflexivity. Qed.

Lemma pow2_plus a b : pow2 (a + b) == pow2 a * pow2 b.
Proof. apply Qpower_plus. discriminate. Qed.

Lemma pow2_succ a : pow2 (a + 1) == 2 * pow2 a.
Proof. rewrite pow2_plus. change (pow2 1) with 2. ring. Qed.

Lemma pow2_le a b : (a <= b)%Z -> pow2 a <= pow2 b.
Proof. intros Hab. apply Qpower_le_compat_l; [exact Hab | discriminate]. Qed.

Lemma pow2_lt_inv a b : pow2 a < pow2 b -> (a < b)%Z.
Proof. intros Hab. apply (Qpower_lt_compat_l_inv 2); [exact Hab | reflexivity]. Qed.

Lemma pow2_Z n : (0 <= n)%Z -> pow2 n == inject_Z (2 ^ n).
Proof. intros Hn. unfold pow2. rewrite (Zpower_Qpower 2 n Hn). reflexivity. Qed.

(** *** The binade *)

Lemma binade_spec q : 0 < q -> pow2 (binade q) <= q /\ q < pow2 (binade q + 1).
Proof.
  intros Hq. destruct q as [n d].
  assert (Hn : (0 < n)%Z).
  { unfold Qlt in Hq. simpl in Hq. lia. }
  pose proof (Z.log2_spec n Hn) as [Hn1 Hn2].
  pose proof (Z.log2_spec (Z.pos d) (Pos2Z.is_pos d)) as [Hd1 Hd2].
  pose proof (Z.log2_nonneg n) as Ha. pose proof (Z.log2_nonneg (Z.pos d)) as Hb.
  set (a := Z.log2 n) in *. set (b := Z.log2 (Z.pos d)) in *.
  assert (HD : 0 < inject_Z (Z.pos d)) by reflexivity.
  assert (Hq' : n # d == inject_Z n / inject_Z (Z.pos d)) by apply Qmake_Qdiv.
  assert (Hn1q : pow2 a <= inject_Z n).
  { rewrite pow2_Z by exact Ha. rewrite <- Zle_Qle. exact Hn1. }
  assert (Hn2q : inject_Z n < pow2 (a + 1)).
  { rewrite pow2_Z by lia. rewrite <- Zlt_Qlt. exact Hn2. }
  assert (Hd1q : pow2 b <= inject_Z (Z.pos d)).
  { rewrite pow2_Z by exact Hb. rewrite <- Zle_Qle. exact Hd1. }
  assert (Hd2q : inject_Z (Z.pos d) < pow2 (b + 1)).
  { rewrite pow2_Z by lia. rewrite <- Zlt_Qlt. exact Hd2. }
  unfold binade. cbn [Qnum Qden]. fold a b.
  destruct (Qle_bool (pow2 (a - b)) (n # d)) eqn:E.
  - split; [apply Qle_bool_iff; exact E |].
    rewrite Hq'. apply Qlt_shift_div_r; [exact HD |].
    eapply Qlt_le_trans; [exact Hn2q |].
    replace (a + 1)%Z with ((a - b + 1) + b)%Z by lia. rewrite pow2_plus.
    apply Qmult_le_l; [apply pow2_pos | exact Hd1q].
  - assert (Hlt : n # d < pow2 (a - b)).
    { apply Qnot_le_lt. intros Hle. apply Qle_bool_iff in Hle. congruence. }
    split.
    + rewrite Hq'. apply Qle_shift_div_l; [exact HD |].
      eapply Qle_trans; [| exact Hn1q].
      replace a with ((a - b - 1) + (b + 1))%Z at 2 by lia. rewrite pow2_plus.
      apply Qmult_le_l; [apply pow2_pos | apply Qlt_le_weak; exact Hd2q].
    + replace (a - b - 1 + 1)%Z with (a - b)%Z by lia. exact Hlt.
Qed.

Lemma binade_mono x y : 0 < x -> x <= y -> (binade x <= binade y)%Z.
Proof.
  intros Hx Hxy.
  destruct (binade_spec x Hx) as [Hx1 _].
  destruct (binade_spec y (Qlt_le_trans _ _ _ Hx Hxy)) as [_ Hy2].
  assert (Hlt : pow2 (binade x) < pow2 (binade y + 1)).
  { eapply Qle_lt_trans; [exact Hx1 |]. eapply Qle_lt_trans; eauto. }
  apply pow2_lt_inv in Hlt. lia.
Qed.

Lemma binade_ge e q : pow2 e <= q -> (e <= binade q)%Z.
Proof.
  intros He.
  assert (Hq : 0 < q) by (eapply Qlt_le_trans; [apply pow2_pos | exact He]).
  destruct (binade_spec q Hq) as [_ H2].
  assert (Hlt : pow2 e < pow2 (binade q + 1)) by (eapply Qle_lt_trans; eauto).
  apply pow2_lt_inv in Hlt. lia.
Qed.

(** *** Rounding to an integer *)

Lemma nearestEven_bounds x : (Qfloor x <= nearestEven x <= Qfloor x + 1)%Z.
Proof.
  unfold nearestEven. destruct (_ ?= _); [destruct (Z.even _) | |]; lia.
Qed.

Lemma nearestEven_mono x y : x <= y -> (nearestEven x <= nearestEven y)%Z.
Proof.
  intros Hxy. pose proof (Qfloor_resp_le x y Hxy) as Hf.
  pose proof (nearestEven_bounds x) as Hx. pose proof (nearestEven_bounds y) as Hy.
  destruct (Z.eq_dec (Qfloor x) (Qfloor y)) as [Heq | Hne]; [| lia].
  unfold nearestEven in *. rewrite <- Heq in *.
  destruct (Qcompare_spec (x - inject_Z (Qfloor x)) (1 # 2)) as [Ex | Ex | Ex];
    destruct (Qcompare_spec (y - inject_Z (Qfloor x)) (1 # 2)) as [Ey | Ey | Ey];
    try (destruct (Z.even (Qfloor x))); try lia; exfalso; lra.
Qed.

Lemma nearestEven_Z n : nearestEven (inject_Z n) = n.
Proof.
  unfold nearestEven. rewrite Qfloor_Z.
  assert (E : (inject_Z n - inject_Z n ?= 1 # 2) = Lt).
  { apply Qlt_alt. ring_simplify (inject_Z n - inject_Z n). reflexivity. }
  rewrite E. reflexivity.
Qed.

Lemma nearestEven_ge n x : inject_Z n <= x -> (n <= nearestEven x)%Z.
Proof. intros H. rewrite <- (nearestEven_Z n). apply nearestEven_mono. exact H. Qed.

Lemma nearestEven_le n x : x <= inject_Z n -> (nearestEven x <= n)%Z.
Proof. intros H. rewrite <- (nearestEven_Z n). apply nearestEven_mono. exact H. Qed.

(** *** Rounding to a double *)

Lemma ulpExponent_mono x y : 0 < x -> x <= y -> (ulpExponent x <= ulpExponent y)%Z.
Proof.
  intros Hx Hxy. unfold ulpExponent. pose proof (binade_mono x y Hx Hxy). lia.
Qed.

(** A positive rational does not round to less than a power of two below
    it, provided that power is a double. *)
Lemma roundPos_ge e q : (ulpExponent q <= e)%Z -> pow2 e <= q -> pow2 e <= roundPos q.
Proof.
  intros He Hq. unfold roundPos. set (p := ulpExponent q) in *.
  assert (Hn : (2 ^ (e - p) <= nearestEven (q / pow2 p))%Z).
  { apply nearestEven_ge. rewrite <- pow2_Z by lia.
    apply Qle_shift_div_l; [apply pow2_pos |].
    rewrite <- (pow2_plus (e - p) p). replace (e - p + p)%Z with e by lia. exact Hq. }
  rewrite Zle_Qle in Hn. rewrite <- pow2_Z in Hn by lia.
  replace (pow2 e) with (pow2 ((e - p) + p)) by (f_equal; lia). rewrite pow2_plus.
  apply Qmult_le_compat_r; [exact Hn | apply Qlt_le_weak, pow2_pos].
Qed.

(** Nor to more than a power of two above it. *)
Lemma roundPos_le e q : (ulpExponent q <= e)%Z -> q <= pow2 e -> roundPos q <= pow2 e.
Proof.
  intros He Hq. unfold roundPos. set (p := ulpExponent q) in *.
  assert (Hn : (nearestEven (q / pow2 p) <= 2 ^ (e - p))%Z).
  { apply nearestEven_le. rewrite <- pow2_Z by lia.
    apply Qle_shift_div_r; [apply pow2_pos |].
    rewrite <- (pow2_plus (e - p) p). replace (e - p + p)%Z with e by lia. exact Hq. }
  rewrite Zle_Qle in Hn. rewrite <- pow2_Z in Hn by lia.
  replace (pow2 e) with (pow2 ((e - p) + p)) by (f_equal; lia). rewrite pow2_plus.
  apply Qmult_le_compat_r; [exact Hn | apply Qlt_le_weak, pow2_pos].
Qed.

Lemma roundPos_nonneg q : 0 < q -> 0 <= roundPos q.
Proof.
  intros Hq. unfold roundPos.
  apply Qmult_le_0_compat; [| apply Qlt_le_weak, pow2_pos].
  change 0 with (inject_Z 0). rewrite <- Zle_Qle. apply nearestEven_ge.
  apply Qle_shift_div_l; [apply pow2_pos |]. rewrite Qmult_0_l. apply Qlt_le_weak, Hq.
Qed.

(** Rounding keeps the order. *)
Lemma roundPos_mono x y : 0 < x -> x <= y -> roundPos x <= roundPos y.
Proof.
  intros Hx Hxy.
  assert (Hy : 0 < y) by (eapply Qlt_le_trans; eauto).
  pose proof (ulpExponent_mono x y Hx Hxy) as Hp.
  destruct (Z.eq_dec (ulpExponent x) (ulpExponent y)) as [Heq | Hne].
  - unfold roundPos. rewrite <- Heq.
    apply Qmult_le_compat_r; [| apply Qlt_le_weak, pow2_pos].
    rewrite <- Zle_Qle. apply nearestEven_mono.
    apply Qmult_le_compat_r; [exact Hxy |].
    apply Qlt_le_weak, Qinv_lt_0_compat, pow2_pos.
  - assert (Hby : (ulpExponent y = binade y - 52)%Z /\ (binade x + 1 <= binade y)%Z).
    { unfold ulpExponent in *. lia. }
    destruct Hby as [Hpy Hb].
    destruct (binade_spec x Hx) as [_ Hx2]. destruct (binade_spec y Hy) as [Hy1 _].
    apply (Qle_trans _ (pow2 (binade y))).
    + apply roundPos_le; [unfold ulpExponent in *; lia |].
      apply Qlt_le_weak. eapply Qlt_le_trans; [exact Hx2 | apply pow2_le; exact Hb].
    + apply roundPos_ge; [lia | exact Hy1].
Qed.

(** A number of the normal range rounds to its own binade. *)
Lemma roundPos_binade q : pow2 (-1022) <= q -> pow2 (binade q) <= roundPos q.
Proof.
  intros Hq.
  assert (Hpos : 0 < q) by (eapply Qlt_le_trans; [apply pow2_pos | exact Hq]).
  apply roundPos_ge; [| apply binade_spec; exact Hpos].
  pose proof (binade_ge _ _ Hq). unfold ulpExponent. lia.
Qed.

(** *** The order of the numbers *)

Lemma rnd_pos q : 0 < q ->
  rnd q = if Qle_bool (pow2 1024) (roundPos q) then PInf else Fin (roundPos q).
Proof. intros Hq. unfold rnd. apply Qgt_alt in Hq. rewrite Hq. reflexivity. Qed.

Lemma rnd_nonneg q : 0 <= q -> nonneg (rnd q).
Proof.
  intros Hq. unfold rnd. destruct (Qcompare_spec q 0) as [E | E | E].
  - apply Qle_refl.
  - exfalso. lra.
  - destruct (Qle_bool _ _); [exact I | apply roundPos_nonneg; exact E].
Qed.

Lemma add_nonneg x y : nonneg x -> nonneg y -> nonneg (add x y).
Proof.
  destruct x as [a | | |], y as [b | | |]; simpl; try tauto.
  intros Ha Hb. apply rnd_nonneg. lra.
Qed.

Lemma divBy_nonneg x d : nonneg x -> nonneg (divBy x d).
Proof.
  destruct x as [a | | |]; simpl; try tauto.
  intros Ha. apply rnd_nonneg. apply Qle_shift_div_l; [reflexivity | lra].
Qed.

Lemma ltb_pos_nonneg x : ltb (Fin 0) x = true -> nonneg x.
Proof.
  destruct x as [q | | |]; simpl; try discriminate; [| tauto].
  intros H. apply Qltb_lt in H. apply Qlt_le_weak. exact H.
Qed.

Lemma orZero_pos x : ltb (Fin 0) x = true -> orZero x = x.
Proof.
  destruct x as [q | | |]; simpl; try discriminate; [| reflexivity].
  intros H. apply Qltb_lt in H.
  destruct (Qeq_bool q 0) eqn:E; [| reflexivity].
  apply Qeq_bool_iff in E. exfalso. lra.
Qed.

Lemma ltb_orZero x y : nonneg x -> ltb x (orZero y) = ltb x y.
Proof.
  intros Hx. destruct y as [b | | |]; cbn [orZero]; try reflexivity.
  - destruct (Qeq_bool b 0) eqn:E; [| reflexivity].
    apply Qeq_bool_iff in E.
    destruct x as [a | | |]; simpl in *; try tauto.
    destruct (Qltb a b) eqn:E1; destruct (Qltb a 0) eqn:E2; try reflexivity;
      rewrite ?Qltb_lt, ?Qltb_ge in *; exfalso; lra.
  - destruct x as [a | | |]; simpl in *; try tauto.
    apply Qltb_ge. exact Hx.
Qed.

Lemma ltb_leb x y : ltb x y = true -> leb x y = true.
Proof.
  destruct x as [a | | |], y as [b | | |]; simpl; try discriminate; try reflexivity.
  intros H. apply Qltb_lt in H. apply Qle_bool_iff, Qlt_le_weak. exact H.
Qed.

Lemma ltb_false_leb x y : nonneg x -> nonneg y -> ltb x y = false -> leb y x = true.
Proof.
  destruct x as [a | | |], y as [b | | |]; simpl; try tauto; try discriminate;
    try reflexivity.
  intros _ _ H. apply Qltb_ge in H. apply Qle_bool_iff. exact H.
Qed.

Lemma leb_trans x y z : leb x y = true -> leb y z = true -> leb x z = true.
Proof.
  destruct x as [a | | |], y as [b | | |], z as [c | | |]; simpl;
    try discriminate; try reflexivity.
  rewrite !Qle_bool_iff. apply Qle_trans.
Qed.

Lemma ltb_leb_trans x y z : ltb x y = true -> leb y z = true -> ltb x z = true.
Proof.
  destruct x as [a | | |], y as [b | | |], z as [c | | |]; simpl;
    try discriminate; try reflexivity.
  rewrite !Qltb_lt, Qle_bool_iff. apply Qlt_le_trans.
Qed.

Lemma leb_ltb_trans x y z : leb x y = true -> ltb y z = true -> ltb x z = true.
Proof.
  destruct x as [a | | |], y as [b | | |], z as [c | | |]; simpl;
    try discriminate; try reflexivity.
  rewrite !Qltb_lt, Qle_bool_iff. apply Qle_lt_trans.
Qed.

(** [Math.max] of a number that is not NaN is not below its first
    argument. *)
Lemma max_ge_l (c : Q) y : nonneg y -> leb (Fin c) (max (Fin c) y) = true.
Proof.
  destruct y as [b | | |]; simpl; try tauto.
  intros _. destruct (Qltb c b) eqn:E.
  - apply Qltb_lt in E. apply Qle_bool_iff, Qlt_le_weak. exact E.
  - apply Qle_bool_iff, Qle_refl.
Qed.

Lemma max_nonneg (c : Q) y : 0 <= c -> nonneg y -> nonneg (max (Fin c) y).
Proof.
  destruct y as [b | | |]; simpl; try tauto.
  intros Hc Hb. destruct (Qltb c b); assumption.
Qed.

(** Twice a number from 1000 on, in doubles, is at least 2000 and more
    than the number. *)
Lemma twice_above (t : Q) x :
  1000 <= t -> ltb (mul (Fin t) (Fin 2)) x = true ->
  ltb (Fin t) x = true /\ ltb (Fin 2000) x = true.
Proof.
  intros Ht. cbn [mul].
  assert (Hpos : 0 < t * 2) by lra.
  rewrite (rnd_pos _ Hpos).
  destruct (Qle_bool _ _); [destruct x; discriminate |].
  assert (H2000 : 2000 <= roundPos (t * 2)).
  { assert (E : roundPos 2000 == 2000) by (vm_compute; reflexivity).
    rewrite <- E. apply roundPos_mono; [reflexivity | lra]. }
  assert (Hb : pow2 (binade (t * 2)) <= roundPos (t * 2)).
  { apply roundPos_binade. apply (Qle_trans _ 2000); [| lra].
    apply Qlt_le_weak. apply Qinv_lt_0_compat in Hpos.
    vm_compute. reflexivity. }
  destruct (binade_spec _ Hpos) as [_ Hup]. rewrite pow2_succ in Hup.
  destruct x as [d | | |]; simpl; try discriminate; [| split; reflexivity].
  rewrite !Qltb_lt. intros Hd. split; lra.
Qed.

(** *** The rounding error *)

(** Rounding to an integer loses a half at most, and rounding a number of
    the normal range to a double the share [eps] of it. *)
Lemma nearestEven_lower x : x - (1 # 2) <= inject_Z (nearestEven x).
Proof.
  unfold nearestEven.
  pose proof (Qfloor_le x) as Hf. pose proof (Qlt_floor x) as Hc.
  rewrite inject_Z_plus in Hc. change (inject_Z 1) with 1 in Hc.
  destruct (Qcompare_spec (x - inject_Z (Qfloor x)) (1 # 2)) as [E | E | E].
  - destruct (Z.even (Qfloor x)).
    + lra.
    + rewrite inject_Z_plus. change (inject_Z 1) with 1. lra.
  - lra.
  - rewrite inject_Z_plus. change (inject_Z 1) with 1. lra.
Qed.

Lemma roundPos_rel q : pow2 (-1022) <= q -> q * (1 - eps) <= roundPos q.
Proof.
  intros Hq.
  assert (Hpos : 0 < q) by (eapply Qlt_le_trans; [apply pow2_pos | exact Hq]).
  destruct (binade_spec q Hpos) as [Hlo _].
  pose proof (binade_ge _ _ Hq) as He.
  unfold roundPos, ulpExponent.
  replace (Z.max (binade q - 52) (-1074)) with (binade q - 52)%Z by lia.
  set (p := (binade q - 52)%Z).
  pose proof (pow2_pos p) as Hp.
  pose proof (nearestEven_lower (q / pow2 p)) as Hn.
  assert (H1 : (q / pow2 p - (1 # 2)) * pow2 p <= inject_Z (nearestEven (q / pow2 p)) * pow2 p).
  { apply Qmult_le_compat_r; [exact Hn | apply Qlt_le_weak, Hp]. }
  eapply Qle_trans; [| exact H1].
  assert (H2 : (q / pow2 p - (1 # 2)) * pow2 p == q - (1 # 2) * pow2 p).
  { field. apply Qnot_eq_sym, Qlt_not_eq, Hp. }
  rewrite H2.
  assert (H3 : (1 # 2) * pow2 p == pow2 (binade q) * eps).
  { unfold eps. rewrite <- pow2_plus. replace (binade q + -53)%Z with (p + -1)%Z by lia.
    rewrite pow2_plus. change (pow2 (-1)) with (1 # 2). ring. }
  rewrite H3.
  assert (H4 : pow2 (binade q) * eps <= q * eps).
  { apply Qmult_le_compat_r; [exact Hlo | apply Qlt_le_weak, pow2_pos]. }
  lra.
Qed.

Lemma rnd_rel q r : pow2 (-1022) <= q -> rnd q = Fin r -> q * (1 - eps) <= r.
Proof.
  intros Hq Hr.
  assert (Hpos : 0 < q) by (eapply Qlt_le_trans; [apply pow2_pos | exact Hq]).
  rewrite (rnd_pos _ Hpos) in Hr. destruct (Qle_bool _ _); [discriminate |].
  injection Hr as <-. apply roundPos_rel. exact Hq.
Qed.

Lemma eps_pos : 0 < eps.
Proof. apply pow2_pos. Qed.

(** Far above the subnormal numbers. *)
Lemma normal_range q : 1 # 1000000000 <= q -> pow2 (-1022) <= q.
Proof.
  intros Hq. eapply Qle_trans; [| exact Hq]. vm_compute. discriminate.
Qed.

(** *** Integers *)

(** An integer up to 2^53 is a double: rounding leaves it as it is. *)
Lemma roundPos_integer q z :
  q == inject_Z z -> (0 < z <= 2 ^ 53)%Z -> roundPos q == inject_Z z.
Proof.
  intros Hqz Hz.
  assert (Hq : 0 < q).
  { rewrite Hqz. change 0 with (inject_Z 0). rewrite <- Zlt_Qlt. lia. }
  destruct (binade_spec _ Hq) as [Hlo _].
  assert (He : (binade q <= 53)%Z).
  { assert (Hlt : pow2 (binade q) < pow2 54).
    { eapply Qle_lt_trans; [exact Hlo |]. rewrite Hqz, (pow2_Z 54) by lia.
      rewrite <- Zlt_Qlt. lia. }
    apply pow2_lt_inv in Hlt. lia. }
  unfold roundPos, ulpExponent. set (p := Z.max (binade q - 52) (-1074)).
  assert (Hint : exists n, q / pow2 p == inject_Z n).
  { destruct (Z.le_gt_cases p 0) as [Hp | Hp].
    - exists (z * 2 ^ (- p))%Z. rewrite inject_Z_mult, <- pow2_Z by lia.
      rewrite Hqz. unfold Qdiv, pow2. rewrite Qpower_opp. reflexivity.
    - assert (He53 : binade q = 53%Z) by lia.
      assert (Hz53 : z = (2 ^ 53)%Z).
      { rewrite He53, Hqz, (pow2_Z 53) in Hlo by lia. rewrite <- Zle_Qle in Hlo. lia. }
      exists (2 ^ 52)%Z. replace p with 1%Z by lia. rewrite Hqz, Hz53.
      vm_compute. reflexivity. }
  destruct Hint as [n Hn].
  assert (Hne : nearestEven (q / pow2 p) = n).
  { apply Z.le_antisymm.
    - apply nearestEven_le. rewrite Hn. apply Qle_refl.
    - apply nearestEven_ge. rewrite Hn. apply Qle_refl. }
  rewrite Hne, <- Hn, <- Hqz. field.
  apply Qnot_eq_sym, Qlt_not_eq, pow2_pos.
Qed.

Lemma rnd_integer q z :
  q == inject_Z z -> (- 2 ^ 53 <= z <= 2 ^ 53)%Z -> isInteger (rnd q) z.
Proof.
  intros Hqz Hz. unfold isInteger, rnd.
  assert (Hsmall : forall r y, r == inject_Z y -> (y <= 2 ^ 53)%Z ->
                               Qle_bool (pow2 1024) r = false).
  { intros r y Hr Hy. apply not_true_iff_false. intros Hle.
    apply Qle_bool_iff in Hle. rewrite Hr, (pow2_Z 1024) in Hle by lia.
    rewrite <- Zle_Qle in Hle.
    assert (2 ^ 53 < 2 ^ 1024)%Z by (apply Z.pow_lt_mono_r; lia). lia. }
  destruct (Qcompare_spec q 0) as [E | E | E].
  - simpl. apply Qeq_bool_iff. rewrite <- Hqz, E. reflexivity.
  - assert (Hneg : (0 < - z <= 2 ^ 53)%Z).
    { rewrite Hqz in E. change 0 with (inject_Z 0) in E. rewrite <- Zlt_Qlt in E. lia. }
    assert (Hr : roundPos (- q) == inject_Z (- z)).
    { apply roundPos_integer; [| exact Hneg]. rewrite Hqz. reflexivity. }
    rewrite (Hsmall _ _ Hr) by lia. simpl. apply Qeq_bool_iff.
    rewrite Hr, inject_Z_opp. ring.
  - assert (Hpos : (0 < z <= 2 ^ 53)%Z).
    { rewrite Hqz in E. change 0 with (inject_Z 0) in E. rewrite <- Zlt_Qlt in E. lia. }
    pose proof (roundPos_integer q z Hqz Hpos) as Hr.
    rewrite (Hsmall _ _ Hr) by lia. simpl. apply Qeq_bool_iff. exact Hr.
Qed.

(** Doubles add integers exactly as long as the sum is an integer up to
    2^53: the sum of two, and so the sum of a list of integers that are
    zero or more. *)
Lemma add_integers x a b :
  isInteger x a -> (- 2 ^ 53 <= a + b <= 2 ^ 53)%Z ->
  isInteger (add x (Fin (inject_Z b))) (a + b).
Proof.
  unfold isInteger at 1. destruct x as [q | | |]; try discriminate.
  intros Hq Hab. apply Qeq_bool_iff in Hq. cbn [add].
  apply rnd_integer; [| exact Hab]. rewrite Hq, inject_Z_plus. reflexivity.
Qed.

Lemma sumOf_from (l : list Z) : forall x a,
  isInteger x a -> (0 <= a)%Z -> Forall (fun n => 0 <= n)%Z l ->
  (a + fold_right Z.add 0%Z l <= 2 ^ 53)%Z ->
  isInteger (fold_left (fun sum n => add sum (Fin (inject_Z n))) l x)
            (a + fold_right Z.add 0 l)%Z.
Proof.
  induction l as [| n l IH]; intros x a Hx Ha Hl Hsum; simpl in *.
  - rewrite Z.add_0_r. exact Hx.
  - apply Forall_cons in Hl. destruct Hl as [Hn Hl].
    assert (Hrest : (0 <= fold_right Z.add 0 l)%Z).
    { clear -Hl. induction Hl; simpl; lia. }
    rewrite Z.add_assoc. apply IH; [| lia | exact Hl | lia].
    apply add_integers; [exact Hx | lia].
Qed.

Lemma sumOf_exact (l : list Z) :
  Forall (fun n => 0 <= n)%Z l -> (fold_right Z.add 0 l <= 2 ^ 53)%Z ->
  isInteger (sumOf l) (fold_right Z.add 0%Z l).
Proof.
  intros Hl Hsum. unfold sumOf.
  apply (sumOf_from l (Fin 0) 0%Z); [reflexivity | lia | exact Hl | exact Hsum].
Qed.

(** Above 2^53 they do not: 2^53 + 1 is no double. *)
Example sumOf_rounds :
  isInteger (sumOf [2 ^ 53; 1; 1]%Z) (2 ^ 53) /\
  isInteger (rnd (inject_Z (2 ^ 53 + 1))) (2 ^ 53).
Proof. split; vm_compute; reflexivity. Qed.

(** *** The model on known numbers *)

(** 0.1 is 3602879701896397 / 2^55; 0.1 + 0.2 is not 0.3 but
    0.30000000000000004; the largest double plus half the distance to the
    next power of two overflows, and half the smallest double is 0. *)
Example rnd_samples :
  eqb (lit (1 # 10)) (Fin (3602879701896397 # 36028797018963968)) = true /\
  eqb (add (lit (1 # 10)) (lit (2 # 10))) (lit (3 # 10)) = false /\
  eqb (add (lit (1 # 10)) (lit (2 # 10)))
      (lit (30000000000000004 # 100000000000000000)) = true /\
  isInteger (lit (pow2 1024 - pow2 971)) (2 ^ 1024 - 2 ^ 971) /\
  rnd (pow2 1024 - pow2 970) = PInf /\
  eqb (lit (pow2 (-1075))) (Fin 0) = true /\
  eqb (lit (pow2 (-1074))) (Fin 0) = false.
Proof. repeat split; vm_compute; reflexivity. Qed.

Example toString_samples :
  map toString [IFin 0; IFin 123; IFin (-45); IFin (2 ^ 53); IFin (2 ^ 64);
                IFin (10 ^ 21); IFin (2 ^ 70); IFin (2 ^ 1024 - 2 ^ 971); IPInf; INaN]
  = ["0"; "123"; "-45"; "9007199254740992"; "18446744073709552000";
     "1e+21"; "1.1805916207174113e+21"; "1.7976931348623157e+308";
     "Infinity"; "NaN"].
Proof. vm_compute. reflexivity. Qed.

Lemma mul_nonneg x (c : Q) : 0 < c -> nonneg x -> nonneg (mul x (Fin c)).
Proof.
  intros Hc. destruct x as [a | | |]; simpl; try tauto.
  - intros Ha. apply rnd_nonneg. apply Qmult_le_0_compat; [exact Ha | lra].
  - intros _. unfold scaleInf. apply Qgt_alt in Hc. rewrite Hc. exact I.
Qed.

(** Twice a threshold of 1000 or more is at least 2000, and more than the
    threshold, also after rounding and when it overflows. *)
Lemma twice_threshold_above thr x :
  leb (Fin 1000) thr = true -> ltb (mul thr (Fin 2)) x = true ->
  ltb thr x = true /\ ltb (Fin 2000) x = true.
Proof.
  destruct thr as [t | | |]; try discriminate.
  - intros Ht. apply twice_above. apply Qle_bool_iff. exact Ht.
  - intros _ H. vm_compute in H. destruct x; discriminate H.
Qed.

End DoubleFacts.

Module ProfileFacts.
Import Profile.

(** *** The sort *)

Lemma insertDesc_perm x l : Permutation (insertDesc x l) (x :: l).
Proof.
  induction l as [| y l IH]; simpl; [reflexivity |].
  destruct (Double.ltb _ _); [| reflexivity].
  rewrite IH. apply perm_swap.
Qed.

Lemma sortDesc_perm l : Permutation (sortDesc l) l.
Proof.
  induction l as [| x l IH]; simpl; [reflexivity |].
  rewrite insertDesc_perm. apply perm_skip. exact IH.
Qed.

Lemma slowerEq_trans a b c : slowerEq a b -> slowerEq b c -> slowerEq a c.
Proof. unfold slowerEq. intros Hab Hbc. eapply DoubleFacts.leb_trans; eauto. Qed.

Lemma insertDesc_sorted x l :
  Double.ltb (Double.Fin 0) (duration x) = true ->
  Forall (fun t => Double.ltb (Double.Fin 0) (duration t) = true) l ->
  StronglySorted slowerEq l -> StronglySorted slowerEq (insertDesc x l).
Proof.
  intros Hx Hpos Hsorted. induction Hsorted as [| y l Hsorted IH Hall]; simpl.
  - repeat constructor.
  - apply Forall_cons in Hpos. destruct Hpos as [Hy Hpos].
    rewrite (DoubleFacts.orZero_pos _ Hx), (DoubleFacts.orZero_pos _ Hy).
    destruct (Double.ltb (duration x) (duration y)) eqn:E.
    + constructor; [apply IH; exact Hpos |].
      apply Forall_forall. intros z Hz.
      apply list_elem_of_In in Hz.
      apply (Permutation_in _ (insertDesc_perm x l)) in Hz.
      destruct Hz as [<- | Hz].
      * unfold slowerEq. apply DoubleFacts.ltb_leb. exact E.
      * rewrite Forall_forall in Hall. apply Hall, list_elem_of_In. exact Hz.
    + assert (Hxy : slowerEq x y).
      { unfold slowerEq.
        apply DoubleFacts.ltb_false_leb; auto using DoubleFacts.ltb_pos_nonneg. }
      constructor; [constructor; assumption |].
      constructor; [exact Hxy |].
      eapply Forall_impl; [exact Hall |].
      intros z Hz. eapply slowerEq_trans; eauto.
Qed.

Lemma sortDesc_sorted l :
  Forall (fun t => Double.ltb (Double.Fin 0) (duration t) = true) l ->
  StronglySorted slowerEq (sortDesc l).
Proof.
  induction 1 as [| x l Hx Hpos IH]; simpl; [constructor |].
  apply insertDesc_sorted; [exact Hx | | exact IH].
  apply Forall_forall. intros t Ht. rewrite Forall_forall in Hpos. apply Hpos.
  apply list_elem_of_In. apply list_elem_of_In in Ht.
  eapply Permutation_in; [apply sortDesc_perm | exact Ht].
Qed.

Lemma positiveTests_positive data :
  Forall (fun t => Double.ltb (Double.Fin 0) (duration t) = true) (positiveTests data).
Proof.
  apply Forall_forall. intros t Ht. apply list_elem_of_In, filter_In in Ht. apply Ht.
Qed.

Lemma sortedTests_perm data : Permutation (sortedTests data) (positiveTests data).
Proof. apply sortDesc_perm. Qed.

Lemma sortedTests_sorted data : StronglySorted slowerEq (sortedTests data).
Proof. apply sortDesc_sorted, positiveTests_positive. Qed.

Lemma sortedTests_positive data :
  Forall (fun t => Double.ltb (Double.Fin 0) (duration t) = true) (sortedTests data).
Proof.
  apply Forall_forall. intros t Ht.
  pose proof (positiveTests_positive data) as Hpos. rewrite Forall_forall in Hpos.
  apply Hpos, list_elem_of_In. apply list_elem_of_In in Ht.
  eapply Permutation_in; [apply sortedTests_perm | exact Ht].
Qed.

(** *** Sums and averages *)

(** On tests with a duration above zero [|| 0] changes nothing. *)
Lemma sumDurations_from (l : list Test) :
  Forall (fun t => Double.ltb (Double.Fin 0) (duration t) = true) l ->
  forall acc,
    fold_left (fun sum test => Double.add sum (Double.orZero (duration test))) l acc
    = fold_left Double.add (map duration l) acc.
Proof.
  induction 1 as [| t l Ht _ IH]; intros acc; simpl; [reflexivity |].
  rewrite (DoubleFacts.orZero_pos _ Ht). apply IH.
Qed.

Lemma avgDuration_mean l :
  Forall (fun t => Double.ltb (Double.Fin 0) (duration t) = true) l ->
  avgDuration l = mean l.
Proof.
  intros Hpos. unfold avgDuration, mean, sumDurations, total.
  rewrite (sumDurations_from l Hpos). destruct l; reflexivity.
Qed.

Lemma slowThreshold_spec data :
  slowThreshold (sortedTests data)
  = Double.max (Double.Fin 1000) (Double.mul (mean (sortedTests data)) (Double.Fin 2)).
Proof.
  unfold slowThreshold. rewrite (avgDuration_mean _ (sortedTests_positive data)).
  reflexivity.
Qed.

(** The sum and the average of durations above zero are zero or more, and
    so is the threshold, which is 1000 at least. *)
Lemma sumDurations_nonneg l :
  Forall (fun t => Double.ltb (Double.Fin 0) (duration t) = true) l ->
  Double.nonneg (sumDurations l).
Proof.
  intros Hpos. unfold sumDurations.
  assert (Hacc : Double.nonneg (Double.Fin 0)) by apply Qle_refl.
  revert Hacc. generalize (Double.Fin 0).
  induction Hpos as [| t l Ht _ IH]; intros acc Hacc; simpl; [exact Hacc |].
  apply IH. rewrite (DoubleFacts.orZero_pos _ Ht).
  apply DoubleFacts.add_nonneg; [exact Hacc | apply DoubleFacts.ltb_pos_nonneg; exact Ht].
Qed.

Lemma avgDuration_nonneg l :
  Forall (fun t => Double.ltb (Double.Fin 0) (duration t) = true) l ->
  Double.nonneg (avgDuration l).
Proof.
  intros Hpos. unfold avgDuration. destruct (0 <? length l)%nat.
  - apply DoubleFacts.divBy_nonneg, sumDurations_nonneg, Hpos.
  - apply Qle_refl.
Qed.

Lemma slowThreshold_bounds data :
  Double.nonneg (slowThreshold (sortedTests data)) /\
  Double.leb (Double.Fin 1000) (slowThreshold (sortedTests data)) = true.
Proof.
  assert (H2 : Double.nonneg (Double.mul (avgDuration (sortedTests data)) (Double.Fin 2))).
  { apply DoubleFacts.mul_nonneg; [reflexivity |].
    apply avgDuration_nonneg, sortedTests_positive. }
  unfold slowThreshold. split.
  - apply DoubleFacts.max_nonneg; [discriminate | exact H2].
  - apply DoubleFacts.max_ge_l. exact H2.
Qed.

Lemma elem_of_slowTests data t :
  t ∈ slowTests (profileOf data) <->
  t ∈ positiveTests data /\
  Double.ltb (summaryThreshold (summary (profileOf data))) (duration t) = true.
Proof.
  simpl. rewrite !list_elem_of_In, filter_In.
  pose proof (positiveTests_positive data) as Hpos. rewrite Forall_forall in Hpos.
  split; intros [Hin Hlt].
  - apply (Permutation_in _ (sortedTests_perm data)) in Hin.
    split; [exact Hin |].
    rewrite (DoubleFacts.orZero_pos _ (Hpos t (proj2 (list_elem_of_In _ _) Hin))) in Hlt.
    exact Hlt.
  - split; [eapply Permutation_in; [symmetry; apply sortedTests_perm | exact Hin] |].
    rewrite (DoubleFacts.orZero_pos _ (Hpos t (proj2 (list_elem_of_In _ _) Hin))).
    exact Hlt.
Qed.

Section WithPlatform.
Context `{PathModule} `{Subprocess} `{ReportJson}.

(** profileTests returns whenever the test runner exits normally and
    leaves a report behind. *)
Lemma profileTests_returns fs data :
  exitError (run ("npx vitest run --reporter=json --outputFile=" ++ outFile) cwd fs).1
    = None ->
  readReport outFile
    (run ("npx vitest run --reporter=json --outputFile=" ++ outFile) cwd fs).2 = Ok data ->
  profileTests fs =
    (Ok (profileOf data),
     (run ("npx vitest run --reporter=json --outputFile=" ++ outFile) cwd fs).2).
Proof.
  unfold profileTests, execSync. fold outFile.
  destruct (run _ cwd fs) as [r fs1]. simpl.
  intros -> ->. reflexivity.
Qed.

(** C6, as the code has it: slowestTests holds the first ten of the tests
    with duration > 0 sorted slowest first; the threshold is
    Math.max(1000, 2 * average), the average being that of these tests as
    doubles give it (the durations added slowest first, each sum, the
    quotient and the product rounded to the nearest double); and slowTests
    holds exactly the tests with duration > 0 whose duration exceeds the
    threshold. *)
Theorem profileTests_slowest_and_slow fs p fs' data :
  profileTests fs = (Ok p, fs') ->
  readReport outFile fs' = Ok data ->
  Permutation (sortedTests data) (positiveTests data) /\
  StronglySorted slowerEq (sortedTests data) /\
  slowestTests p = take 10 (sortedTests data) /\
  summaryThreshold (summary p)
    = Double.max (Double.Fin 1000) (Double.mul (mean (sortedTests data)) (Double.Fin 2)) /\
  forall t, t ∈ slowTests p <->
            t ∈ positiveTests data /\
            Double.ltb (summaryThreshold (summary p)) (duration t) = true.
Proof.
  unfold profileTests. fold outFile.
  destruct (execSync _ fs) as [[out | e] fs1]; [| discriminate].
  destruct (readReport outFile fs1) as [data' | e] eqn:Hread; [| discriminate].
  intros Hret. inversion Hret; subst. rewrite Hread.
  intros Hdata. inversion Hdata; subst.
  split; [apply sortedTests_perm |].
  split; [apply sortedTests_sorted |].
  split; [reflexivity |].
  split; [apply slowThreshold_spec |].
  apply elem_of_slowTests.
Qed.
End WithPlatform.

Example profileTests_sample :
  map millis (slowestTests (profileOf Sample.report)) =
    [5000; 1000; 900; 800; 700; 600; 500; 400; 300; 200]%Z /\
  map millis (slowTests (profileOf Sample.report)) = [5000]%Z /\
  Double.eqb (summaryThreshold (summary (profileOf Sample.report)))
             (Double.lit (21000 # 11)) = true /\
  avgDurationRounded (summary (profileOf Sample.report)) = Double.IFin 955.
Proof. repeat split; vm_compute; reflexivity. Qed.

(** Rounding decides which tests are slow.  Of six tests of
    5553.846396640287 ms and six of 1e-13 ms none exceeds twice the exact
    average, which is the sum of the two durations; the sum that the code
    computes is rounded, its threshold is 5553.846396640286, and the six
    long tests are slow. *)
Example profileTests_rounding :
  totalTests (summary (profileOf Sample.fractionalReport)) = 12%nat /\
  slowTestCount (summary (profileOf Sample.fractionalReport)) = 6%nat /\
  Double.eqb (summaryThreshold (summary (profileOf Sample.fractionalReport)))
             (Double.lit (5553846396640286 # 1000000000000)) = true.
Proof. repeat split; vm_compute; reflexivity. Qed.

Lemma profileTests_slowest_and_slow_witness :
  Permutation (sortedTests Sample.report) (positiveTests Sample.report) /\
  StronglySorted slowerEq (sortedTests Sample.report) /\
  slowestTests (profileOf Sample.report) = take 10 (sortedTests Sample.report) /\
  summaryThreshold (summary (profileOf Sample.report))
    = Double.max (Double.Fin 1000)
                 (Double.mul (mean (sortedTests Sample.report)) (Double.Fin 2)) /\
  forall t, t ∈ slowTests (profileOf Sample.report) <->
            t ∈ positiveTests Sample.report /\
            Double.ltb (summaryThreshold (summary (profileOf Sample.report)))
                       (duration t) = true.
Proof.
  apply (@profileTests_slowest_and_slow Sample.path Sample.quietRunner Sample.reportJson
           Sample.profiled (profileOf Sample.report) Sample.profiled Sample.report).
  - vm_compute. reflexivity.
  - vm_compute. reflexivity.
Defined.

(** The claim as stated fails on a report with eleven timed tests:
    slowestTests is not a rearrangement of them, the test of 100 ms is
    missing. *)
Lemma profileTests_slowestTests_not_all :
  (@profileTests Sample.path Sample.quietRunner Sample.reportJson Sample.profiled).1
    = Ok (profileOf Sample.report) /\
  ~ Permutation (slowestTests (profileOf Sample.report)) (positiveTests Sample.report).
Proof.
  split; [vm_compute; reflexivity |].
  intros Hperm. apply Permutation_length in Hperm.
  vm_compute in Hperm. discriminate Hperm.
Qed.
End ProfileFacts.

Module LoaderFacts.
Import Loader.

Section WithPlatform.
Context `{PathModule} `{Importer}.

Lemma loadOne_import pluginsDir file app f p :
  Import f p ∈ (loadOne pluginsDir file app).2 <->
      f = file /\ p = join [pluginsDir; file] /\ skipped file = false.
Proof.
  unfold loadOne. destruct (skipped file).
  - simpl. split; [intros Hin; inversion Hin | intros (_ & _ & Hs); discriminate].
  - destruct (importModule (join [pluginsDir; file])) as [[[[n [register |]] |]] | e];
      simpl; [destruct (register app) as [[[] | e] app'] | | |]; simpl;
      rewrite ?elem_of_cons, elem_of_nil;
      (split; [intros Hin; repeat destruct Hin as [Hin | Hin]; try discriminate;
               try contradiction; inversion Hin; auto
              | intros (-> & -> & _); auto]).
Qed.

Lemma loadOne_router pluginsDir file app f :
  CallRouter f ∈ (loadOne pluginsDir file app).2 <->
  f = file /\ skipped file = false /\ hasRouter (join [pluginsDir; file]).
Proof.
  unfold loadOne, hasRouter. destruct (skipped file).
  - simpl. split; [intros Hin; inversion Hin | intros (_ & Hs & _); discriminate].
  - destruct (importModule (join [pluginsDir; file])) as [[[[n [register |]] |]] | e] eqn:Himp;
      simpl; [destruct (register app) as [[[] | e] app'] | | |]; simpl;
      rewrite ?elem_of_cons, elem_of_nil;
      (split; [intros Hin; repeat destruct Hin as [Hin | Hin]; try discriminate;
               try contradiction; inversion Hin; eauto 10
              | intros (-> & _ & (m & d & r & Hm & Hd & Hr)); auto;
                inversion Hm; subst; simpl in *; try congruence;
                inversion Hd; subst; simpl in *; congruence]).
Qed.

Lemma loadAll_import pluginsDir files : forall app f p,
  Import f p ∈ (loadAll pluginsDir files app).2 <->
      f ∈ files /\ p = join [pluginsDir; f] /\ skipped f = false.
Proof.
  induction files as [| file rest IH]; intros app f p; simpl.
  - rewrite elem_of_nil. split; [contradiction | intros [Hin _]; inversion Hin].
  - destruct (loadOne pluginsDir file app) as [app1 events1] eqn:Hone.
    destruct (loadAll pluginsDir rest app1) as [app2 events2] eqn:Hall.
    simpl. rewrite elem_of_app, elem_of_cons.
    pose proof (loadOne_import pluginsDir file app f p) as H1.
    rewrite Hone in H1. simpl in H1. rewrite H1.
    pose proof (IH app1 f p) as H2. rewrite Hall in H2. simpl in H2. rewrite H2.
    split.
    + intros [(-> & Hp & Hs) | (Hin & Hp & Hs)]; auto.
    + intros ([-> | Hin] & Hp & Hs); auto.
Qed.

Lemma loadAll_router pluginsDir files : forall app f,
  CallRouter f ∈ (loadAll pluginsDir files app).2 <->
  f ∈ files /\ skipped f = false /\ hasRouter (join [pluginsDir; f]).
Proof.
  induction files as [| file rest IH]; intros app f; simpl.
  - rewrite elem_of_nil. split; [contradiction | intros [Hin _]; inversion Hin].
  - destruct (loadOne pluginsDir file app) as [app1 events1] eqn:Hone.
    destruct (loadAll pluginsDir rest app1) as [app2 events2] eqn:Hall.
    simpl. rewrite elem_of_app, elem_of_cons.
    pose proof (loadOne_router pluginsDir file app f) as H1.
    rewrite Hone in H1. simpl in H1. rewrite H1.
    pose proof (IH app1 f) as H2. rewrite Hall in H2. simpl in H2. rewrite H2.
    split.
    + intros [(-> & Hs & Hr) | (Hin & Hs & Hr)]; auto.
    + intros ([-> | Hin] & Hs & Hr); auto.
Qed.

Lemma loadPlugins_events app pluginsDir fs files :
  Loader.readdir pluginsDir fs = Ok files ->
  loadPlugins app pluginsDir fs =
    (Ok tt, (loadAll pluginsDir files app).1, (loadAll pluginsDir files app).2).
Proof.
  unfold loadPlugins, Fs.pathExists. intros Hdir.
  assert (Hsome : exists n, fs !! pluginsDir = Some n).
  { unfold Loader.readdir in Hdir. destruct (fs !! pluginsDir) as [n |]; [eauto | discriminate]. }
  destruct Hsome as [n ->]. simpl. rewrite Hdir.
  destruct (loadAll pluginsDir files app). reflexivity.
Qed.

(** C7, as the code has it: for every file of the plugins directory that
    the guard lets through (a name that ends in .ts, is not index.ts and
    does not start with a dot), loadPlugins imports the module and calls
    its router exactly when the module loads and its default export has a
    router function, whatever happens to the other files; on the files
    that the guard skips it does neither. *)
Theorem loadPlugins_loads_unskipped app pluginsDir fs files :
  Loader.readdir pluginsDir fs = Ok files ->
  (loadPlugins app pluginsDir fs).1.1 = Ok tt /\
  forall file, file ∈ files ->
    (Import file (join [pluginsDir; file]) ∈ (loadPlugins app pluginsDir fs).2
       <-> skipped file = false) /\
    (CallRouter file ∈ (loadPlugins app pluginsDir fs).2
       <-> skipped file = false /\ hasRouter (join [pluginsDir; file])).
Proof.
  intros Hdir. rewrite (loadPlugins_events app pluginsDir fs files Hdir). simpl.
  split; [reflexivity |].
  intros file Hin. rewrite loadAll_import, loadAll_router. tauto.
Qed.
End WithPlatform.

Example loadPlugins_sample :
  (@loadPlugins Sample.path Sample.importer [] "/srv/src/tools" Sample.server).1 =
  (Ok tt, (@loadPlugins Sample.path Sample.importer [] "/srv/src/tools" Sample.server).1.2) /\
  Permutation
    (@loadPlugins Sample.path Sample.importer [] "/srv/src/tools" Sample.server).1.2
    [ {| method := "POST"; url := "/setup-vitest" |};
      {| method := "POST"; url := "/coverage-diff" |} ].
Proof.
  split; [vm_compute; reflexivity |].
  vm_compute. first [reflexivity | apply perm_swap].
Qed.


Lemma sample_readdir :
  @Loader.readdir Sample.path "/srv/src/tools" Sample.server = Ok Sample.sampleListing.
Proof. vm_compute. reflexivity. Qed.

Lemma loadPlugins_loads_unskipped_witness :
  (@loadPlugins Sample.path Sample.importer [] "/srv/src/tools" Sample.server).1.1 = Ok tt /\
  forall file,
    file ∈ Sample.sampleListing ->
    (Import file (@join Sample.path ["/srv/src/tools"; file])
       ∈ (@loadPlugins Sample.path Sample.importer [] "/srv/src/tools" Sample.server).2
     <-> skipped file = false) /\
    (CallRouter file
       ∈ (@loadPlugins Sample.path Sample.importer [] "/srv/src/tools" Sample.server).2
     <-> skipped file = false /\
         @hasRouter Sample.importer (@join Sample.path ["/srv/src/tools"; file])).
Proof.
  apply (@loadPlugins_loads_unskipped Sample.path Sample.importer [] "/srv/src/tools"
           Sample.server Sample.sampleListing).
  vm_compute. reflexivity.
Defined.

(** The claim as stated fails on index.ts: it is a file of the plugins
    directory whose default export has a router function, and loadPlugins
    neither imports it nor calls its router. *)
Lemma loadPlugins_skips_index :
  "index.ts" ∈ Sample.sampleListing /\
  @hasRouter Sample.importer (@join Sample.path ["/srv/src/tools"; "index.ts"]) /\
  (Import "index.ts" (@join Sample.path ["/srv/src/tools"; "index.ts"])
     ∉ (@loadPlugins Sample.path Sample.importer [] "/srv/src/tools" Sample.server).2) /\
  (CallRouter "index.ts"
     ∉ (@loadPlugins Sample.path Sample.importer [] "/srv/src/tools" Sample.server).2).
Proof.
  rewrite (@loadPlugins_events Sample.path Sample.importer [] _ _ _ sample_readdir).
  cbn [snd]. rewrite loadAll_import, loadAll_router.
  split; [| split; [| split]].
  - unfold Sample.sampleListing. set_solver.
  - unfold hasRouter. do 3 eexists.
    split; [vm_compute; reflexivity | split; reflexivity].
  - intros (_ & _ & Hs). vm_compute in Hs. discriminate Hs.
  - intros (_ & Hs & _). vm_compute in Hs. discriminate Hs.
Qed.
End LoaderFacts.

Module GenerateTestsFacts.
Import GenerateTests.

Section WithPath.
Context `{PathModule}.


Lemma preserves_none fs0 fs p :
  Fs.preserves fs0 fs -> fs !! p = None -> fs0 !! p = None.
Proof.
  intros Hpres Hnone. destruct (fs0 !! p) as [n |] eqn:E; [| reflexivity].
  apply Hpres in E. congruence.
Qed.

Lemma perform_inv fs0 t fs :
  Fs.preserves fs0 fs -> fresh fs0 t ->
  Fs.preserves fs0 (perform t fs).1.1 /\
  fresh fs0 (perform t fs).1.2 /\
  forall f p, (f, p) ∈ (perform t fs).2 -> fs0 !! p = None.
Proof.
  intros Hpres Hfresh.
  assert (Hnil : forall f p, (f, p) ∈ @nil (string * string) -> fs0 !! p = None).
  { intros f p Hin. inversion Hin. }
  destruct t as [pl | pl | pl | r | e]; simpl.
  - destruct (Fs.ensureDir (testDir pl) fs) as [fs' | e] eqn:E; simpl; auto.
    split; [| auto].
    eapply FsFacts.preserves_trans; [exact Hpres |].
    eapply FsFacts.ensureDir_preserves; eauto.
  - destruct (Fs.pathExists (testFile pl) fs) eqn:E; simpl; auto.
    split; [exact Hpres |]. split; [| exact Hnil].
    apply FsFacts.pathExists_false in E. eapply preserves_none; eauto.
  - simpl in Hfresh.
    destruct (Fs.writeFile (testFile pl) (template pl) fs) as [fs' | e] eqn:E; simpl; auto.
    split; [| split; [exact Hfresh |]].
    + intros q n Hq.
      rewrite (FsFacts.writeFile_other _ _ _ _ q E); [apply Hpres; exact Hq | congruence].
    + intros f p Hin. apply list_elem_of_singleton in Hin. inversion Hin; subst.
      exact Hfresh.
  - auto.
  - auto.
Qed.

Lemma step_inv fs0 s s' : inv fs0 s -> step s s' -> inv fs0 s'.
Proof.
  intros (Hpres & Hall & Hw) Hstep. destruct Hstep as [before t after fs r w].
  simpl in *.
  apply Forall_app in Hall. destruct Hall as [Hbefore Hrest].
  apply Forall_cons in Hrest. destruct Hrest as [Ht Hafter].
  destruct (perform_inv fs0 t fs Hpres Ht) as (Hp' & Ht' & Hw').
  split; [exact Hp' |]. split.
  - apply Forall_app. split; [exact Hbefore |].
    apply Forall_cons. split; assumption.
  - intros f p Hin. apply elem_of_app in Hin.
    destruct Hin as [Hin | Hin]; eauto.
Qed.

Lemma initial_inv projectRoot uncoveredFiles fs0 :
  inv fs0 (initial projectRoot uncoveredFiles fs0).
Proof.
  split; [apply FsFacts.preserves_refl |]. split.
  - simpl. apply Forall_forall. intros t Hin.
    apply list_elem_of_fmap in Hin. destruct Hin as (f & -> & _).
    unfold start. destruct (plan projectRoot f); exact I.
  - simpl. intros f p Hin. inversion Hin.
Qed.

Lemma reachable_inv projectRoot uncoveredFiles fs0 s :
  reachable (initial projectRoot uncoveredFiles fs0) s -> inv fs0 s.
Proof.
  induction 1 as [| s s' _ IH Hstep].
  - apply initial_inv.
  - eapply step_inv; eauto.
Qed.

Lemma results_elem ts : forall l p,
  results ts = Some l -> p ∈ l -> Resolved (Some p) ∈ ts.
Proof.
  induction ts as [| t ts IH]; simpl; intros l p Hres Hin.
  - inversion Hres; subst. inversion Hin.
  - destruct t as [pl | pl | pl | [q |] | e]; try discriminate;
      destruct (results ts) as [l' |]; try discriminate; inversion Hres; subst.
    + destruct (String.eqb q "").
      * right. eapply IH; eauto.
      * apply elem_of_cons in Hin. destruct Hin as [-> | Hin]; [left |].
        right. eapply IH; eauto.
    + right. eapply IH; eauto.
Qed.

(** Nothing that existed when generateTests was called is written to,
    changed or reported, under any schedule. *)
Lemma existing_paths_untouched projectRoot uncoveredFiles fs0 s p n :
  reachable (initial projectRoot uncoveredFiles fs0) s ->
  fs0 !! p = Some n ->
  fs s !! p = Some n /\
  (forall f, (f, p) ∉ writes s) /\
  (forall l, settled s = Some (Ok l) -> p ∉ l).
Proof.
  intros Hreach Hp. destruct (reachable_inv _ _ _ _ Hreach) as (Hpres & Hall & Hw).
  split; [apply Hpres; exact Hp |]. split.
  - intros f Hin. apply Hw in Hin. congruence.
  - intros l Hset Hin. unfold settled in Hset.
    destruct (rejection s); [discriminate |].
    destruct (results (tasks s)) as [l' |] eqn:Hres; [| discriminate].
    inversion Hset; subst l'.
    pose proof (results_elem _ _ _ Hres Hin) as Hres'.
    rewrite Forall_forall in Hall. apply Hall in Hres'. simpl in Hres'. congruence.
Qed.

(** *** The schedule of [generateTests] *)

Lemma reachable_trans s0 s1 s2 : reachable s0 s1 -> reachable s1 s2 -> reachable s0 s2.
Proof.
  intros H01 H12. induction H12 as [| s s' _ IH Hstep]; [exact H01 |].
  eapply reachable_step; eauto.
Qed.

Lemma roundFrom_reachable pending : forall s0 before fs r w,
  reachable s0 {| fs := fs; tasks := before ++ pending; rejection := r; writes := w |} ->
  reachable s0 (roundFrom before pending fs r w).
Proof.
  induction pending as [| t after IH]; intros s0 before fs r w Hreach; simpl.
  - rewrite app_nil_r in Hreach. exact Hreach.
  - apply IH. rewrite <- app_assoc. simpl.
    eapply reachable_step; [exact Hreach |]. apply step_task.
Qed.

Lemma round_reachable s0 s : reachable s0 s -> reachable s0 (round s).
Proof.
  intros Hreach. unfold round. apply roundFrom_reachable.
  destruct s; exact Hreach.
Qed.

Lemma finalState_reachable projectRoot uncoveredFiles fs0 :
  reachable (initial projectRoot uncoveredFiles fs0)
            (finalState projectRoot uncoveredFiles fs0).
Proof.
  unfold finalState. do 3 apply round_reachable. apply reachable_refl.
Qed.

(** *** Three rounds settle every task *)


Lemma perform_rank t fs : (rank (perform t fs).1.2 <= pred (rank t))%nat.
Proof.
  destruct t as [pl | pl | pl | r | e]; simpl.
  - destruct (Fs.ensureDir _ fs); simpl; lia.
  - destruct (Fs.pathExists _ fs); simpl; lia.
  - destruct (Fs.writeFile _ _ fs); simpl; lia.
  - lia.
  - lia.
Qed.


Lemma roundFrom_settles k pending : forall before fs r w,
  Forall (fun t => (rank t <= k)%nat) before ->
  Forall (fun t => (rank t <= S k)%nat) pending ->
  noted before r ->
  Forall (fun t => (rank t <= k)%nat) (tasks (roundFrom before pending fs r w)) /\
  noted (tasks (roundFrom before pending fs r w))
        (rejection (roundFrom before pending fs r w)).
Proof.
  induction pending as [| t after IH]; intros before fs r w Hbefore Hpending Hnoted; simpl.
  - auto.
  - apply Forall_cons in Hpending. destruct Hpending as [Ht Hafter].
    apply IH; [| exact Hafter |].
    + apply Forall_app. split; [exact Hbefore |].
      apply Forall_cons. split; [| constructor].
      pose proof (perform_rank t fs). lia.
    + intros e Hin. apply elem_of_app in Hin. destruct Hin as [Hin | Hin].
      * apply Hnoted in Hin. destruct r; [discriminate | contradiction].
      * apply list_elem_of_singleton in Hin. rewrite <- Hin.
        destruct r; discriminate.
Qed.

Lemma round_settles k s :
  Forall (fun t => (rank t <= S k)%nat) (tasks s) ->
  Forall (fun t => (rank t <= k)%nat) (tasks (round s)) /\
  noted (tasks (round s)) (rejection (round s)).
Proof.
  intros Hall. unfold round. apply roundFrom_settles; [constructor | exact Hall |].
  intros e Hin. inversion Hin.
Qed.

Lemma results_all_resolved ts :
  Forall (fun t => (rank t <= 0)%nat) ts -> (forall e, Rejected e ∉ ts) ->
  exists l, results ts = Some l.
Proof.
  induction ts as [| t ts IH]; intros Hall Hnone; simpl.
  - eauto.
  - apply Forall_cons in Hall. destruct Hall as [Ht Hall].
    destruct IH as [l Hl]; [exact Hall | |].
    { intros e Hin. apply (Hnone e). right. exact Hin. }
    rewrite Hl. destruct t as [pl | pl | pl | [q |] | e]; simpl in Ht; try lia; eauto.
    exfalso. apply (Hnone e). left.
Qed.

Lemma results_collected ts : forall l, results ts = Some l -> collected ts = l.
Proof.
  induction ts as [| t ts IH]; simpl; intros l Hres.
  - inversion Hres. reflexivity.
  - change (collected (t :: ts)) with (collected [t] ++ collected ts).
    destruct t as [pl | pl | pl | [q |] | e]; try discriminate;
      destruct (results ts) as [l' |]; try discriminate;
      rewrite (IH l' eq_refl); inversion Hres; subst; clear Hres.
    + unfold collected. simpl. destruct (String.eqb q ""); reflexivity.
    + reflexivity.
Qed.

(** generateTests settles: after the three rounds the promise is fulfilled
    or rejected, with the value that generateTests returns. *)
Lemma generateTests_settles projectRoot uncoveredFiles fs0 :
  settled (finalState projectRoot uncoveredFiles fs0)
    = Some (generateTests projectRoot uncoveredFiles fs0).1.
Proof.
  unfold generateTests, finalState. simpl.
  set (s0 := initial projectRoot uncoveredFiles fs0).
  assert (H0 : Forall (fun t => (rank t <= 3)%nat) (tasks s0)).
  { simpl. apply Forall_forall. intros t Hin.
    apply list_elem_of_fmap in Hin. destruct Hin as (f & -> & _).
    unfold start. destruct (plan projectRoot f); simpl; lia. }
  destruct (round_settles 2%nat s0 H0) as [H1 _].
  destruct (round_settles 1%nat _ H1) as [H2 _].
  destruct (round_settles 0%nat _ H2) as [H3 Hnoted].
  set (s3 := round (round (round s0))) in *.
  unfold settled. destruct (rejection s3) as [e |] eqn:Hrej; [reflexivity |].
  destruct (results_all_resolved (tasks s3) H3) as [l Hl].
  - intros e Hin. apply Hnoted in Hin. congruence.
  - rewrite Hl, (results_collected _ _ Hl). reflexivity.
Qed.

(** C2: a target test file that exists before the call keeps its content
    under every interleaving of the callbacks, no write to it is made,
    and it is not in the list that generateTests returns. *)
Theorem generateTests_never_overwrites projectRoot uncoveredFiles fs0 s filePath pl n :
  reachable (initial projectRoot uncoveredFiles fs0) s ->
  filePath ∈ uncoveredFiles ->
  plan projectRoot filePath = Some pl ->
  fs0 !! testFile pl = Some n ->
  fs s !! testFile pl = Some n /\
  (forall f, (f, testFile pl) ∉ writes s) /\
  (forall l, settled s = Some (Ok l) -> testFile pl ∉ l).
Proof.
  intros Hreach _ _ Hexists.
  eapply existing_paths_untouched; eauto.
Qed.

(** *** Paths with another extension *)


Lemma plan_filePath projectRoot f pl : plan projectRoot f = Some pl -> filePath pl = f.
Proof.
  unfold plan. destruct (negb _); [discriminate |].
  intros Hpl. inversion Hpl. reflexivity.
Qed.

Lemma perform_planned projectRoot t fs :
  planned projectRoot t ->
  planned projectRoot (perform t fs).1.2 /\
  forall f p, (f, p) ∈ (perform t fs).2 -> plan projectRoot f <> None.
Proof.
  intros Hpl.
  assert (Hnil : forall f p, (f, p) ∈ @nil (string * string) -> plan projectRoot f <> None).
  { intros f p Hin. inversion Hin. }
  destruct t as [pl | pl | pl | r | e]; simpl in *.
  - destruct (Fs.ensureDir _ fs); simpl; auto.
  - destruct (Fs.pathExists _ fs); simpl; auto.
  - destruct (Fs.writeFile _ _ fs); simpl; auto.
    split; [exact I |]. intros f p Hin.
    apply list_elem_of_singleton in Hin. inversion Hin; subst. congruence.
  - auto.
  - auto.
Qed.

Lemma step_skipInv projectRoot uncoveredFiles s s' :
  skipInv projectRoot uncoveredFiles s -> step s s' ->
  skipInv projectRoot uncoveredFiles s'.
Proof.
  intros (Hpos & Hall & Hw) Hstep. destruct Hstep as [before t after fs r w].
  simpl in *.
  apply Forall_app in Hall. destruct Hall as [Hbefore Hrest].
  apply Forall_cons in Hrest. destruct Hrest as [Ht Hafter].
  destruct (perform_planned projectRoot t fs Ht) as [Ht' Hw'].
  split; [| split].
  - apply Forall2_app_inv_r in Hpos.
    destruct Hpos as (fs1 & fs2 & H1 & H2 & ->).
    apply Forall2_cons_inv_r in H2. destruct H2 as (f & fs3 & Hf & H3 & ->).
    apply Forall2_app; [exact H1 |]. constructor; [| exact H3].
    intros Hnone. rewrite (Hf Hnone). reflexivity.
  - apply Forall_app. split; [exact Hbefore |].
    apply Forall_cons. split; assumption.
  - intros f p Hin. apply elem_of_app in Hin. destruct Hin as [Hin | Hin]; eauto.
Qed.

Lemma reachable_skipInv projectRoot uncoveredFiles fs0 s :
  reachable (initial projectRoot uncoveredFiles fs0) s ->
  skipInv projectRoot uncoveredFiles s.
Proof.
  induction 1 as [| s s' _ IH Hstep]; [| eapply step_skipInv; eauto].
  split; [| split]; simpl.
  - induction uncoveredFiles as [| f files IH]; simpl; constructor; [| exact IH].
    intros Hnone. unfold start. rewrite Hnone. reflexivity.
  - apply Forall_forall. intros t Hin.
    apply list_elem_of_fmap in Hin. destruct Hin as (f & -> & _).
    unfold start. destruct (plan projectRoot f) as [pl |] eqn:Hpl; simpl; [| exact I].
    rewrite (plan_filePath _ _ _ Hpl). exact Hpl.
  - intros f p Hin. inversion Hin.
Qed.

Lemma plan_unsupported projectRoot filePath :
  includes supported
    (extname (if isAbsolute filePath then filePath else join [projectRoot; filePath]))
    = false ->
  plan projectRoot filePath = None.
Proof. unfold plan. intros ->. reflexivity. Qed.

(** C10, as the code has it: for an input path whose resolved path (the
    path itself when it is absolute, the path joined to the project root
    otherwise) has an extension that is not .tsx, .jsx, .js or .ts, the
    callback resolves to null at once and stays so under every
    interleaving: it writes no file, and every entry of the returned list
    comes from the callback of another position of the input. *)
Theorem generateTests_skips_other_extensions
    projectRoot uncoveredFiles fs0 s i filePath :
  reachable (initial projectRoot uncoveredFiles fs0) s ->
  uncoveredFiles !! i = Some filePath ->
  includes supported
    (extname (if isAbsolute filePath then filePath else join [projectRoot; filePath]))
    = false ->
  tasks s !! i = Some (Resolved None) /\
  (forall p, (filePath, p) ∉ writes s) /\
  (forall l p, settled s = Some (Ok l) -> p ∈ l ->
     exists j, j <> i /\ tasks s !! j = Some (Resolved (Some p))).
Proof.
  intros Hreach Hi Hext. apply plan_unsupported in Hext.
  destruct (reachable_skipInv _ _ _ _ Hreach) as (Hpos & _ & Hw).
  assert (Hti : tasks s !! i = Some (Resolved None)).
  { destruct (Forall2_lookup_l _ _ _ _ _ Hpos Hi) as (t & Ht & Hskip).
    rewrite Ht, (Hskip Hext). reflexivity. }
  split; [exact Hti |]. split.
  - intros p Hin. apply Hw in Hin. contradiction.
  - intros l p Hset Hin. unfold settled in Hset.
    destruct (rejection s); [discriminate |].
    destruct (results (tasks s)) as [l' |] eqn:Hres; [| discriminate].
    inversion Hset; subst l'.
    apply (results_elem _ _ _ Hres) in Hin.
    apply list_elem_of_lookup in Hin. destruct Hin as [j Hj].
    exists j. split; [| exact Hj].
    intros ->. congruence.
Qed.
End WithPath.

Example generateTests_sample :
  (@generateTests Sample.path "/proj" Sample.uncoveredFiles Sample.sources).1 =
    Ok ["/proj/__tests__/src/Card.test.tsx"; "/proj/__tests__/src/util.test.ts"] /\
  (@generateTests Sample.path "/proj" Sample.uncoveredFiles Sample.sources).2
    !! "/proj/__tests__/src/Card.test.tsx" =
    Some (File
      ("import { render } from '@testing-library/react';" ++ nl ++
       "import Card from '../../src/Card.tsx';" ++ nl ++ nl ++
       "test('renders Card without crashing', () => {" ++ nl ++
       "  const { container } = render(<Card />);" ++ nl ++
       "  expect(container).toBeTruthy();" ++ nl ++
       "});" ++ nl)).
Proof. split; vm_compute; reflexivity. Qed.

Lemma generateTests_never_overwrites_witness :
  fs (@finalState Sample.path "/proj" Sample.uncoveredFiles Sample.sources)
    !! "/proj/__tests__/src/App.test.tsx" = Some (File "user test") /\
  (forall f, (f, "/proj/__tests__/src/App.test.tsx")
     ∉ writes (@finalState Sample.path "/proj" Sample.uncoveredFiles Sample.sources)) /\
  (forall l,
     settled (@finalState Sample.path "/proj" Sample.uncoveredFiles Sample.sources) = Some (Ok l) ->
     "/proj/__tests__/src/App.test.tsx" ∉ l).
Proof.
  refine (match @plan Sample.path "/proj" "src/App.tsx" as o
                return @plan Sample.path "/proj" "src/App.tsx" = o -> _ with
          | Some pl => fun Hpl => _
          | None => fun Hpl => _
          end eq_refl).
  - assert (Htarget : testFile pl = "/proj/__tests__/src/App.test.tsx").
    { vm_compute in Hpl. inversion Hpl. reflexivity. }
    rewrite <- Htarget.
    apply (@generateTests_never_overwrites Sample.path "/proj" Sample.uncoveredFiles
             Sample.sources _ "src/App.tsx" pl (File "user test")).
    + apply finalState_reachable.
    + unfold Sample.uncoveredFiles. apply list_elem_of_here.
    + exact Hpl.
    + rewrite Htarget. vm_compute. reflexivity.
  - vm_compute in Hpl. discriminate Hpl.
Defined.

Lemma generateTests_skips_other_extensions_witness :
  tasks (@finalState Sample.path "/proj" Sample.uncoveredFiles Sample.sources) !! 1%nat
    = Some (Resolved None) /\
  (forall p, ("README.md", p)
     ∉ writes (@finalState Sample.path "/proj" Sample.uncoveredFiles Sample.sources)) /\
  (forall l p,
     settled (@finalState Sample.path "/proj" Sample.uncoveredFiles Sample.sources) = Some (Ok l) ->
     p ∈ l ->
     exists j, j <> 1%nat /\
       tasks (@finalState Sample.path "/proj" Sample.uncoveredFiles Sample.sources) !! j
         = Some (Resolved (Some p))).
Proof.
  apply (@generateTests_skips_other_extensions Sample.path "/proj" Sample.uncoveredFiles
           Sample.sources _ 1%nat "README.md").
  - apply finalState_reachable.
  - reflexivity.
  - vm_compute. reflexivity.
Defined.

(** The claim as stated fails where the extension comes from the project
    root.  The input path "." has no extension; under the root
    /srv/chart.js it resolves to the root itself, whose extension is .js,
    and generateTests writes a test file for it and returns it. *)
Lemma generateTests_writes_for_root_path :
  includes supported (@extname Sample.path ".") = false /\
  (@generateTests Sample.path "/srv/chart.js" ["."] Sample.chartProject).1
    = Ok ["/srv/chart.js/__tests__/chart.test.js"] /\
  writes (@finalState Sample.path "/srv/chart.js" ["."] Sample.chartProject)
    = [(".", "/srv/chart.js/__tests__/chart.test.js")] /\
  Sample.chartProject !! "/srv/chart.js/__tests__/chart.test.js" = None /\
  exists content,
    (@generateTests Sample.path "/srv/chart.js" ["."] Sample.chartProject).2
      !! "/srv/chart.js/__tests__/chart.test.js" = Some (File content).
Proof.
  repeat split; try (vm_compute; reflexivity).
  eexists. vm_compute. reflexivity.
Qed.
End GenerateTestsFacts.

Module SetupFacts.
Import Setup.

Section WithPlatform.
Context `{PathModule} `{Subprocess}.




(** The phase completes when the project root is a directory and [src] is a
    directory or can be made in it. *)
Lemma writeDefaults_completes projectRoot fs :
  fs !! dirname (vitestConfigPath projectRoot) = Some Dir ->
  fs !! dirname (setupPath projectRoot) = Some Dir \/
  (fs !! dirname (setupPath projectRoot) = None /\
   fs !! dirname (dirname (setupPath projectRoot)) = Some Dir /\
   dirname (setupPath projectRoot) <> vitestConfigPath projectRoot /\
   dirname (setupPath projectRoot) <> setupPath projectRoot) ->
  (writeDefaults projectRoot fs).1 = Ok tt.
Proof.
  intros Hroot Hsrc. unfold writeDefaults.
  set (cfg := vitestConfigPath projectRoot) in *.
  set (stp := setupPath projectRoot) in *.
  assert (Hfs1 : exists fs1,
    (if negb (Fs.pathExists cfg fs) then Fs.writeFile cfg defaultConfig fs else Ok fs) = Ok fs1 /\
    Fs.preserves fs fs1 /\ forall q, q <> cfg -> fs1 !! q = fs !! q).
  { destruct (Fs.pathExists cfg fs) eqn:Ecfg; simpl.
    - exists fs. split; [reflexivity |]. split; [apply FsFacts.preserves_refl | reflexivity].
    - apply FsFacts.pathExists_false in Ecfg.
      unfold Fs.writeFile. rewrite Ecfg, Hroot.
      eexists. split; [reflexivity |]. split.
      + apply FsFacts.preserves_insert_fresh. exact Ecfg.
      + intros q Hq. apply lookup_insert_ne. congruence. }
  destruct Hfs1 as (fs1 & -> & Hpres & Hother).
  destruct (Fs.pathExists stp fs1) eqn:Eset; simpl; [reflexivity |].
  apply FsFacts.pathExists_false in Eset.
  assert (Hdir : exists fs2, Fs.ensureDir (dirname stp) fs1 = Ok fs2 /\
                 fs2 !! dirname stp = Some Dir /\ fs2 !! stp = None).
  { unfold Fs.ensureDir. destruct Hsrc as [Hd | (Hd & Hdd & Hne1 & Hne2)].
    - exists fs1. simpl. rewrite (Hpres _ _ Hd). auto.
    - simpl. rewrite (Hother _ Hne1), Hd.
      assert (Hparent : fs1 !! dirname (dirname stp) = Some Dir) by (apply Hpres; exact Hdd).
      assert (Hm : Fs.mkdirs (String.length (dirname stp)) (dirname (dirname stp)) fs1 = Ok fs1).
      { destruct (String.length (dirname stp)); simpl; rewrite Hparent; reflexivity. }
      rewrite Hm. eexists. split; [reflexivity |]. split.
      + apply lookup_insert_eq.
      + rewrite lookup_insert_ne by exact Hne2. exact Eset. }
  destruct Hdir as (fs2 & -> & Hd2 & Hs2).
  unfold Fs.writeFile. rewrite Hs2, Hd2. reflexivity.
Qed.


(** setupVitest runs the installation on the files that the phase left. *)
Lemma setupVitest_after_phase projectRoot fs fs' :
  writeDefaults projectRoot fs = (Ok tt, fs') ->
  (setupVitest projectRoot fs).2 = (run (installCmd projectRoot fs') projectRoot fs').2.
Proof.
  unfold setupVitest. intros ->.
  destruct (run _ projectRoot fs') as [r fs'']. simpl.
  destruct (exitError r); reflexivity.
Qed.
End WithPlatform.

Example setupVitest_sample :
  (@setupVitest Sample.path Sample.quietRunner "/proj" Sample.sources).1 =
    Ok (JObj [("message", JStr "Vitest setup complete"); ("stdout", JStr "")]) /\
  (@setupVitest Sample.path Sample.quietRunner "/proj" Sample.sources).2
    !! "/proj/src/setupTests.ts" = Some (File defaultSetup) /\
  (@setupVitest Sample.path Sample.quietRunner "/proj" Sample.sources).2
    !! "/proj/vitest.config.ts" = Some (File defaultConfig).
Proof. repeat split; vm_compute; reflexivity. Qed.


End SetupFacts.

Module LlmFacts.
Import Llm.

Section WithPlatform.
Context `{PathModule} `{Subprocess} `{Backend}.

Lemma initialize_keeps_log w :
  aiWrites (initialize w).2 = aiWrites w /\ files (initialize w).2 = files w.
Proof.
  unfold initialize. destruct (loadConfig (files w)); simpl; auto.
Qed.

(** One entry adds at most one test file, and leaves the process alone. *)
Lemma writeAITest_bounds ask projectRoot file generatedFiles w :
  (forall l, (writeAITest ask projectRoot file generatedFiles w).1 = Ok l ->
             (length l <= S (length generatedFiles))%nat) /\
  (length (aiWrites (writeAITest ask projectRoot file generatedFiles w).2)
     <= S (length (aiWrites w)))%nat /\
  proc (writeAITest ask projectRoot file generatedFiles w).2 = proc w.
Proof.
  unfold writeAITest.
  set (filePath := if isAbsolute file then file else join [projectRoot; file]).
  assert (Hsame : (forall l, Ok generatedFiles = Ok l ->
                     (length l <= S (length generatedFiles))%nat)).
  { intros l Hl. inversion Hl; subst. lia. }
  destruct (Fs.pathExists filePath (files w)); simpl; [| auto].
  destruct (Fs.readFile filePath (files w)) as [fileContent | e]; simpl.
  2: { split; [intros l Hl; discriminate | auto]. }
  destruct (ask _ w) as [[generatedTest | e] fs1]; simpl; [| auto].
  destruct (String.eqb generatedTest ""); simpl; [auto |].
  destruct (Fs.ensureDir _ fs1) as [fs2 | e]; simpl; [| auto].
  destruct (Fs.pathExists _ fs2); simpl; [auto |].
  destruct (Fs.writeFile _ generatedTest fs2) as [fs3 | e]; simpl; [| auto].
  split; [| split; [| reflexivity]].
  - intros l Hl. inversion Hl; subst. rewrite length_app. simpl. lia.
  - rewrite length_app. simpl. lia.
Qed.

Lemma writeAITests_bounds ask projectRoot entries : forall generatedFiles w,
  (forall l, (writeAITests ask projectRoot entries generatedFiles w).1 = Ok l ->
             (length l <= length generatedFiles + length entries)%nat) /\
  (length (aiWrites (writeAITests ask projectRoot entries generatedFiles w).2)
     <= length (aiWrites w) + length entries)%nat /\
  proc (writeAITests ask projectRoot entries generatedFiles w).2 = proc w.
Proof.
  induction entries as [| file rest IH]; intros generatedFiles w; simpl.
  - split; [| split; [lia | reflexivity]].
    intros l Hl. inversion Hl; subst. lia.
  - destruct (writeAITest_bounds ask projectRoot file generatedFiles w)
      as (Hl1 & Hw1 & Hp1).
    destruct (writeAITest ask projectRoot file generatedFiles w) as [[g1 | e] w1]; simpl in *.
    + destruct (IH g1 w1) as (Hl2 & Hw2 & Hp2).
      specialize (Hl1 g1 eq_refl).
      split; [| split; [lia | congruence]].
      intros l Hl. apply Hl2 in Hl. lia.
    + split; [intros l Hl; discriminate |]. split; [lia | exact Hp1].
Qed.

Lemma take_five_length (l : list string) : (length (take 5 l) <= 5)%nat.
Proof. rewrite length_take. lia. Qed.

(** Both versions of generateAITests look at the first five entries only:
    the result is the result on the first five, a returned list has at most
    five elements, and at most five test files are written in one call. *)
Lemma generateAITests_bounds projectRoot uncoveredFiles w :
  generateAITests projectRoot uncoveredFiles w
    = generateAITests projectRoot (take 5 uncoveredFiles) w /\
  generateAITestsOpenAI projectRoot uncoveredFiles w
    = generateAITestsOpenAI projectRoot (take 5 uncoveredFiles) w /\
  (forall l w', generateAITests projectRoot uncoveredFiles w = (Ok l, w') \/
                generateAITestsOpenAI projectRoot uncoveredFiles w = (Ok l, w') ->
                (length l <= 5)%nat) /\
  (length (aiWrites (generateAITests projectRoot uncoveredFiles w).2)
     <= length (aiWrites w) + 5)%nat /\
  (length (aiWrites (generateAITestsOpenAI projectRoot uncoveredFiles w).2)
     <= length (aiWrites w) + 5)%nat.
Proof.
  pose proof (take_five_length uncoveredFiles) as Hfive.
  unfold generateAITests, generateAITestsOpenAI.
  rewrite take_take. change (5 `min` 5)%nat with 5%nat.
  split; [reflexivity |]. split; [reflexivity |].
  destruct (initialize_keeps_log w) as [Hlog _].
  destruct (initialize w) as [[|] w1]; cbn [fst snd] in *.
  - destruct (writeAITests_bounds generateCompletion projectRoot
                (take 5 uncoveredFiles) [] w1) as (Hl & Hw & _).
    destruct (writeAITests_bounds openaiCompletion projectRoot
                (take 5 uncoveredFiles) [] w) as (Hl' & Hw' & _).
    rewrite Hlog in Hw.
    split; [| split; [lia | lia]].
    intros l w' [Hr | Hr].
    + specialize (Hl l). rewrite Hr in Hl. specialize (Hl eq_refl). cbn [length] in Hl. lia.
    + specialize (Hl' l). rewrite Hr in Hl'. specialize (Hl' eq_refl). cbn [length] in Hl'. lia.
  - destruct (writeAITests_bounds openaiCompletion projectRoot
                (take 5 uncoveredFiles) [] w) as (Hl' & Hw' & _).
    rewrite Hlog.
    split; [| split; [lia | lia]].
    intros l w' [Hr | Hr]; [discriminate |].
    specialize (Hl' l). rewrite Hr in Hl'. specialize (Hl' eq_refl). cbn [length] in Hl'. lia.
Qed.
End WithPlatform.
End LlmFacts.

Module ServerFacts.
Import Llm Server.

Section WithPlatform.
Context `{PathModule} `{Subprocess} `{Coverage.CoverageJson} `{Profile.ReportJson} `{Backend}.

(** A failed checkout of the base branch is reported by generateCoverageDiff
    as a result, not as an exception, when the way back succeeds. *)
Lemma generateCoverageDiff_checkout_fails
    baseBranch fs out fs1 currentCov message fs2 back fs3 :
  execSync Coverage.vitestCmd fs = (Ok out, fs1) ->
  readCoverage fs1 = Ok currentCov ->
  execSync ("git checkout " ++ baseBranch) fs1 = (Throw message, fs2) ->
  execSync "git checkout -" fs2 = (Ok back, fs3) ->
  generateCoverageDiff baseBranch fs =
    (Ok (DiffFailed
       "Failed to compare with base branch. Ensure you have git history and the base branch exists."
       currentCov), fs3).
Proof.
  unfold generateCoverageDiff. intros -> -> -> ->. reflexivity.
Qed.

(** C3, as the code has it.  On /setup-vitest, /analyze-coverage and
    /generate-tests a missing projectPath is answered with 400, a failure of
    the tool with 500 and a JSON body that carries the error, a success with
    200.  /coverage-diff requires no projectPath; an exception of its tool is
    answered with 500, and a failure of the comparison with the base branch,
    which the tool reports as a result, with 400: so is a failed checkout
    of the base branch. *)
Theorem tool_endpoint_statuses req w :
  (missing (projectPath req) = true ->
   (handle SetupVitest req w).1 = statusJson 400 (BError "Missing projectPath") /\
   (handle AnalyzeCoverage req w).1 = statusJson 400 (BError "Missing projectPath") /\
   (handle GenerateTests req w).1 = statusJson 400 (BError "Missing projectPath")) /\
  (forall root, projectPath req = Some root -> missing (projectPath req) = false ->
   (forall e fs', Setup.setupVitest root (files w) = (Throw e, fs') ->
      (handle SetupVitest req w).1 = statusJson 500 (BFailure (errorOrSelf e))) /\
   (forall r fs', Setup.setupVitest root (files w) = (Ok r, fs') ->
      (handle SetupVitest req w).1 = statusJson 200 (BSetup r)) /\
   (forall e fs', Coverage.analyzeCoverage root (files w) = (Throw e, fs') ->
      (handle AnalyzeCoverage req w).1 = statusJson 500 (BFailure (errorOrSelf e))) /\
   (forall r fs', Coverage.analyzeCoverage root (files w) = (Ok r, fs') ->
      status (handle AnalyzeCoverage req w).1 = 200) /\
   (forall e fs', callGenerateTests root (uncoveredFiles req) (files w) = (Throw e, fs') ->
      (handle GenerateTests req w).1 = statusJson 500 (BFailure (errorOrSelf e))) /\
   (forall l fs', callGenerateTests root (uncoveredFiles req) (files w) = (Ok l, fs') ->
      (handle GenerateTests req w).1 = statusJson 200 (BGenerated l))) /\
  (forall e fs',
     generateCoverageDiff (default "main" (baseBranch req)) (files w) = (Throw e, fs') ->
     (handle CoverageDiff req w).1 =
       statusJson 500 (BFailure (messageOr "Failed to generate coverage diff" e))) /\
  (forall error currentCov fs',
     generateCoverageDiff (default "main" (baseBranch req)) (files w)
       = (Ok (DiffFailed error currentCov), fs') ->
     (handle CoverageDiff req w).1 = statusJson 400 (BDiffFailed error currentCov)) /\
  (forall diff fs',
     generateCoverageDiff (default "main" (baseBranch req)) (files w) = (Ok (DiffOk diff), fs') ->
     status (handle CoverageDiff req w).1 = 200) /\
  (forall out fs1 currentCov e fs2 back fs3,
     execSync Coverage.vitestCmd (files w) = (Ok out, fs1) ->
     readCoverage fs1 = Ok currentCov ->
     execSync ("git checkout " ++ default "main" (baseBranch req)) fs1 = (Throw e, fs2) ->
     execSync "git checkout -" fs2 = (Ok back, fs3) ->
     status (handle CoverageDiff req w).1 = 400).
Proof.
  split; [| split; [| split; [| split; [| split]]]];
    [ | | | | | intros out fs1 currentCov e fs2 back fs3 Hrun Hread Hcheckout Hback;
                simpl; unfold coverageDiffHandler;
                rewrite (generateCoverageDiff_checkout_fails _ _ _ _ _ _ _ _ _
                           Hrun Hread Hcheckout Hback); reflexivity ].
  - intros Hmiss. simpl.
    unfold setupVitestHandler, analyzeCoverageHandler, generateTestsHandler.
    rewrite Hmiss. auto.
  - intros root Hroot Hpresent. simpl.
    unfold setupVitestHandler, analyzeCoverageHandler, generateTestsHandler.
    rewrite Hpresent, Hroot. simpl.
    repeat split; intros ? ? Hcall; rewrite Hcall; reflexivity.
  - intros e fs' Hcall. simpl. unfold coverageDiffHandler. rewrite Hcall. reflexivity.
  - intros error currentCov fs' Hcall. simpl. unfold coverageDiffHandler.
    rewrite Hcall. reflexivity.
  - intros diff fs' Hcall. simpl. unfold coverageDiffHandler. rewrite Hcall. reflexivity.
Qed.

(** C9: generateAITests, in both of its versions, processes the first five
    entries of uncoveredFiles only: its result is the result on the first
    five, a returned list has at most five elements and at most five test
    files are written in one call; so one /ai-generate-tests request writes
    at most five test files and answers with at most five of them. *)
Theorem generateAITests_at_most_five projectRoot entries req w :
  generateAITests projectRoot entries w
    = generateAITests projectRoot (take 5 entries) w /\
  generateAITestsOpenAI projectRoot entries w
    = generateAITestsOpenAI projectRoot (take 5 entries) w /\
  (forall l w', generateAITests projectRoot entries w = (Ok l, w') \/
                generateAITestsOpenAI projectRoot entries w = (Ok l, w') ->
                (length l <= 5)%nat) /\
  (length (aiWrites (generateAITests projectRoot entries w).2)
     <= length (aiWrites w) + 5)%nat /\
  (length (aiWrites (generateAITestsOpenAI projectRoot entries w).2)
     <= length (aiWrites w) + 5)%nat /\
  (length (aiWrites (handle AiGenerateTests req w).2) <= length (aiWrites w) + 5)%nat /\
  (forall l message, payload (handle AiGenerateTests req w).1 = BGeneratedAI l message ->
                     (length l <= 5)%nat).
Proof.
  destruct (LlmFacts.generateAITests_bounds projectRoot entries w)
    as (Hfirst & Hfirst' & Hlen & Hlog & Hlog').
  repeat (split; [assumption |]).
  clear Hfirst Hfirst' Hlen Hlog Hlog'.
  destruct (LlmFacts.generateAITests_bounds (default "" (projectPath req))
              (default [] (uncoveredFiles req)) w) as (_ & _ & Hlen1 & Hlog1 & _).
  simpl. unfold aiGenerateTestsHandler.
  destruct (missing (projectPath req)); simpl.
  - split; [lia | intros l message Hp; discriminate Hp].
  - destruct (generateAITests (default "" (projectPath req))
                (default [] (uncoveredFiles req)) w)
      as [[generated | e] w1] eqn:Hgen; simpl in *.
    + split; [exact Hlog1 |]. intros l message Hp. inversion Hp; subst.
      apply (Hlen1 l w1). left. reflexivity.
    + split; [exact Hlog1 | intros l message Hp; discriminate Hp].
Qed.

(** *** The state of the process *)

Lemma withFiles_proc fs w : proc (withFiles fs w) = proc w.
Proof. reflexivity. Qed.

(** initialize touches nothing but the provider, and sets it to the
    provider of the configuration it finds. *)
Lemma initialize_proc w :
  config (proc (initialize w).2) = config (proc w) /\
  routes (proc (initialize w).2) = routes (proc w) /\
  (provider (proc (initialize w).2) = provider (proc w) \/
   exists c, loadConfig (files w) = Some c /\
             provider (proc (initialize w).2) = Some (createProvider c)).
Proof.
  unfold initialize. destruct (loadConfig (files w)) as [c |]; simpl; eauto 6.
Qed.

Lemma generateAITests_proc projectRoot entries w :
  proc (generateAITests projectRoot entries w).2 = proc (initialize w).2.
Proof.
  unfold generateAITests. destruct (initialize w) as [[|] w1]; simpl; [| reflexivity].
  apply LlmFacts.writeAITests_bounds.
Qed.


(** C8, as the code has it: a handler leaves the configuration and the
    routes of the process as they are; the handlers of /setup-vitest,
    /analyze-coverage, /generate-tests, /coverage-diff and /profile-tests
    leave the whole process state as it is; the handlers of
    /ai-generate-tests, /ai-health and /llm-config may replace the provider
    of the singleton, by the provider of the configuration that they load
    during the request. *)
Theorem handlers_change_only_the_provider ep req w :
  config (proc (handle ep req w).2) = config (proc w) /\
  routes (proc (handle ep req w).2) = routes (proc w) /\
  (usesLlm ep = false -> proc (handle ep req w).2 = proc w) /\
  (provider (proc (handle ep req w).2) = provider (proc w) \/
   exists c, usesLlm ep = true /\ loadConfig (files w) = Some c /\
             provider (proc (handle ep req w).2) = Some (createProvider c)).
Proof.
  assert (Hsame : forall w', proc w' = proc w ->
            config (proc w') = config (proc w) /\
            routes (proc w') = routes (proc w) /\
            (usesLlm ep = false -> proc w' = proc w) /\
            (provider (proc w') = provider (proc w) \/
             exists c, usesLlm ep = true /\ loadConfig (files w) = Some c /\
                       provider (proc w') = Some (createProvider c))).
  { intros w' ->. auto. }
  assert (Hinit : forall w', proc w' = proc (initialize w).2 -> usesLlm ep = true ->
            config (proc w') = config (proc w) /\
            routes (proc w') = routes (proc w) /\
            (usesLlm ep = false -> proc w' = proc w) /\
            (provider (proc w') = provider (proc w) \/
             exists c, usesLlm ep = true /\ loadConfig (files w) = Some c /\
                       provider (proc w') = Some (createProvider c))).
  { intros w' -> Hllm. destruct (initialize_proc w) as (Hc & Hr & Hp).
    split; [exact Hc |]. split; [exact Hr |]. split; [congruence |].
    destruct Hp as [Hp | (c & Hload & Hp)]; eauto. }
  destruct ep; simpl.
  - unfold setupVitestHandler. destruct (missing _); [apply Hsame; reflexivity |].
    destruct (Setup.setupVitest _ _) as [[r | e] fs']; apply Hsame; reflexivity.
  - unfold analyzeCoverageHandler. destruct (missing _); [apply Hsame; reflexivity |].
    destruct (Coverage.analyzeCoverage _ _) as [[r | e] fs']; apply Hsame; reflexivity.
  - unfold generateTestsHandler. destruct (missing _); [apply Hsame; reflexivity |].
    destruct (callGenerateTests _ _ _) as [[r | e] fs']; apply Hsame; reflexivity.
  - unfold coverageDiffHandler.
    destruct (generateCoverageDiff _ _) as [[[diff | error cov] | e] fs'];
      apply Hsame; reflexivity.
  - unfold profileTestsHandler.
    destruct (Profile.profileTests _) as [[p | e] fs']; [destruct (Profile.success p) |];
      apply Hsame; reflexivity.
  - unfold aiGenerateTestsHandler. destruct (missing _); [apply Hsame; reflexivity |].
    pose proof (generateAITests_proc (default "" (projectPath req))
                  (default [] (uncoveredFiles req)) w) as Hp.
    destruct (generateAITests _ _ w) as [[l | e] w1]; apply Hinit; auto.
  - unfold aiHealthHandler.
    destruct (initialize w) as [[|] w1] eqn:Hi; simpl; apply Hinit; auto.
  - unfold llmConfigHandler.
    destruct (initialize w) as [[|] w1] eqn:Hi; simpl; apply Hinit; auto.
Qed.
End WithPlatform.

Example missing_projectPath_sample :
  (@handle Sample.path Sample.quietRunner Sample.coverageJson Sample.reportJson
     Sample.backend SetupVitest Sample.emptyRequest (Sample.started Sample.sources)).1
  = statusJson 400 (BError "Missing projectPath").
Proof. vm_compute. reflexivity. Qed.

Example failed_subprocess_sample :
  (@handle Sample.path Sample.failingRunner Sample.coverageJson Sample.reportJson
     Sample.backend AnalyzeCoverage
     {| projectPath := Some "/proj"; uncoveredFiles := None; baseBranch := None |}
     (Sample.started Sample.project)).1
  = statusJson 500 (BFailure (JStr "Command failed")).
Proof. vm_compute. reflexivity. Qed.

Example generate_tests_sample :
  (@handle Sample.path Sample.quietRunner Sample.coverageJson Sample.reportJson
     Sample.backend GenerateTests
     {| projectPath := Some "/proj";
        uncoveredFiles := Some ["src/Card.tsx"; "src/Card.tsx"; "src/App.tsx"];
        baseBranch := None |}
     (Sample.started Sample.sources)).1
  = statusJson 200 (BGenerated ["/proj/__tests__/src/Card.test.tsx"]).
Proof. vm_compute. reflexivity. Qed.

Example ai_generate_tests_sample :
  (@handle Sample.path Sample.quietRunner Sample.coverageJson Sample.reportJson
     Sample.backend AiGenerateTests
     {| projectPath := Some "/proj";
        uncoveredFiles := Some ["src/Card.tsx"; "src/missing.tsx"; "src/util.ts"];
        baseBranch := None |}
     (Sample.started Sample.sources)).1
  = statusJson 200
      (BGeneratedAI ["/proj/__tests__/ai-generated/Card.test.tsx";
                     "/proj/__tests__/ai-generated/util.test.ts"]
         "Generated 2 AI-assisted test files using OpenAI").
Proof. vm_compute. reflexivity. Qed.

(** The claim as stated fails on /coverage-diff: the subprocess
    [git checkout main] fails and the response has status 400, not 500. *)
Lemma coverageDiff_failed_checkout_is_400 :
  exitError (@run Sample.noBaseBranch "git checkout main" "/srv" Sample.served).1
    = Some "Command failed: git checkout main" /\
  (@handle Sample.path Sample.noBaseBranch Sample.coverageJson Sample.reportJson
     Sample.backend CoverageDiff Sample.emptyRequest (Sample.started Sample.served)).1
  = statusJson 400
      (BDiffFailed
         "Failed to compare with base branch. Ensure you have git history and the base branch exists."
         Sample.coverage).
Proof. split; vm_compute; reflexivity. Qed.

(** The claim as stated fails on /ai-health: before the request the
    singleton has no provider, after it the provider built from the
    environment. *)
Lemma aiHealth_sets_the_provider :
  provider (proc (Sample.started Sample.served)) = None /\
  provider (proc (@handle Sample.path Sample.quietRunner Sample.coverageJson
                    Sample.reportJson Sample.backend AiHealth Sample.emptyRequest
                    (Sample.started Sample.served)).2)
  = Some {| class := OpenAI;
            pconfig := {| type := "openai";
                          baseUrl := Some "https://api.openai.com/v1";
                          model := "gpt-3.5-turbo";
                          apiKey := None |} |}.
Proof. split; vm_compute; reflexivity. Qed.

Example six_entries_sample :
  (@handle Sample.path Sample.quietRunner Sample.coverageJson Sample.reportJson
     Sample.backend AiGenerateTests Sample.sixRequest
     (Sample.started Sample.sixComponents)).1
  = statusJson 200
      (BGeneratedAI ["/proj/__tests__/ai-generated/A.test.tsx";
                     "/proj/__tests__/ai-generated/B.test.tsx";
                     "/proj/__tests__/ai-generated/C.test.tsx";
                     "/proj/__tests__/ai-generated/D.test.tsx";
                     "/proj/__tests__/ai-generated/E.test.tsx"]
         "Generated 5 AI-assisted test files using OpenAI") /\
  files (@handle Sample.path Sample.quietRunner Sample.coverageJson Sample.reportJson
           Sample.backend AiGenerateTests Sample.sixRequest
           (Sample.started Sample.sixComponents)).2
    !! "/proj/__tests__/ai-generated/F.test.tsx" = None.
Proof. split; vm_compute; reflexivity. Qed.

Lemma generateAITests_at_most_five_witness :
  payload (@handle Sample.path Sample.quietRunner Sample.coverageJson Sample.reportJson
             Sample.backend AiGenerateTests Sample.sixRequest
             (Sample.started Sample.sixComponents)).1
  = BGeneratedAI ["/proj/__tests__/ai-generated/A.test.tsx";
                  "/proj/__tests__/ai-generated/B.test.tsx";
                  "/proj/__tests__/ai-generated/C.test.tsx";
                  "/proj/__tests__/ai-generated/D.test.tsx";
                  "/proj/__tests__/ai-generated/E.test.tsx"]
      "Generated 5 AI-assisted test files using OpenAI" /\
  (length ["/proj/__tests__/ai-generated/A.test.tsx";
           "/proj/__tests__/ai-generated/B.test.tsx";
           "/proj/__tests__/ai-generated/C.test.tsx";
           "/proj/__tests__/ai-generated/D.test.tsx";
           "/proj/__tests__/ai-generated/E.test.tsx"] <= 5)%nat.
Proof.
  assert (Hpayload :
    payload (@handle Sample.path Sample.quietRunner Sample.coverageJson Sample.reportJson
               Sample.backend AiGenerateTests Sample.sixRequest
               (Sample.started Sample.sixComponents)).1
    = BGeneratedAI ["/proj/__tests__/ai-generated/A.test.tsx";
                    "/proj/__tests__/ai-generated/B.test.tsx";
                    "/proj/__tests__/ai-generated/C.test.tsx";
                    "/proj/__tests__/ai-generated/D.test.tsx";
                    "/proj/__tests__/ai-generated/E.test.tsx"]
        "Generated 5 AI-assisted test files using OpenAI").
  { vm_compute. reflexivity. }
  split; [exact Hpayload |].
  destruct (@generateAITests_at_most_five Sample.path Sample.quietRunner Sample.coverageJson
              Sample.reportJson Sample.backend "/proj"
              (default [] (uncoveredFiles Sample.sixRequest)) Sample.sixRequest
              (Sample.started Sample.sixComponents))
    as (_ & _ & _ & _ & _ & _ & Hresponse).
  exact (Hresponse _ _ Hpayload).
Defined.

Lemma tool_endpoint_statuses_witness :
  (@handle Sample.path Sample.quietRunner Sample.coverageJson Sample.reportJson
     Sample.backend GenerateTests Sample.emptyRequest (Sample.started Sample.sources)).1
    = statusJson 400 (BError "Missing projectPath") /\
  (@handle Sample.path Sample.failingRunner Sample.coverageJson Sample.reportJson
     Sample.backend AnalyzeCoverage
     {| projectPath := Some "/proj"; uncoveredFiles := None; baseBranch := None |}
     (Sample.started Sample.project)).1
    = statusJson 500 (BFailure (JStr "Command failed")).
Proof.
  split.
  - apply (@tool_endpoint_statuses Sample.path Sample.quietRunner Sample.coverageJson
             Sample.reportJson Sample.backend Sample.emptyRequest
             (Sample.started Sample.sources)).
    reflexivity.
  - refine (proj1 (proj2 (proj2 (proj1 (proj2
      (@tool_endpoint_statuses Sample.path Sample.failingRunner Sample.coverageJson
         Sample.reportJson Sample.backend
         {| projectPath := Some "/proj"; uncoveredFiles := None; baseBranch := None |}
         (Sample.started Sample.project))) "/proj" eq_refl eq_refl)))
      (ThrownObj [("error", JStr "Command failed"); ("stderr", JStr "boom")])
      Sample.project _).
    vm_compute. reflexivity.
Defined.

Lemma handlers_change_only_the_provider_witness :
  proc (@handle Sample.path Sample.quietRunner Sample.coverageJson Sample.reportJson
          Sample.backend SetupVitest
          {| projectPath := Some "/proj"; uncoveredFiles := None; baseBranch := None |}
          (Sample.started Sample.sources)).2
  = proc (Sample.started Sample.sources).
Proof.
  apply (@handlers_change_only_the_provider Sample.path Sample.quietRunner
           Sample.coverageJson Sample.reportJson Sample.backend SetupVitest).
  reflexivity.
Defined.
End ServerFacts.

Module DiffLaws.
Import Diff DiffFacts DiffTotals.

























End DiffLaws.

Module GenerateTestsLaws.
Import GenerateTests GenerateTestsProgress GenerateTestsFacts.

Section WithPath.
Context `{PathModule}.
Variable projectRoot : string.
Variable uncoveredFiles : list string.

Lemma extends_refl fs : extends projectRoot uncoveredFiles fs fs.
Proof. repeat split; auto. Qed.

Lemma preserves_extends fs fs' : Fs.preserves fs fs' -> extends projectRoot uncoveredFiles fs fs'.
Proof.
  intros Hp. repeat split.
  - intros p Hd. apply Hp. exact Hd.
  - intros p [n Hn]. exists n. apply Hp. exact Hn.
  - intros p (f & pl & Hin & Hpl & Htf & Hfile).
    exists f, pl. repeat split; auto.
Qed.

Lemma writeFile_not_dir p c fs fs' : Fs.writeFile p c fs = Ok fs' -> fs !! p <> Some Dir.
Proof.
  unfold Fs.writeFile. intros Hw Hd. rewrite Hd in Hw. discriminate.
Qed.

Lemma writeFile_extends f pl fs fs' :
  f ∈ uncoveredFiles -> plan projectRoot f = Some pl ->
  Fs.writeFile (testFile pl) (template pl) fs = Ok fs' ->
  extends projectRoot uncoveredFiles fs fs' /\ written projectRoot uncoveredFiles fs' (testFile pl).
Proof.
  intros Hin Hpl Hw.
  pose proof (writeFile_not_dir _ _ _ _ Hw) as Hnd.
  pose proof (FsFacts.writeFile_written _ _ _ _ Hw) as Hnew.
  assert (Hwr : written projectRoot uncoveredFiles fs' (testFile pl)).
  { exists f, pl. auto. }
  split; [| exact Hwr]. repeat split.
  - intros p Hd. rewrite (FsFacts.writeFile_other _ _ _ _ p Hw); [exact Hd |].
    intros ->. contradiction.
  - intros p Hp. destruct (decide (p = testFile pl)) as [-> | Hne].
    + rewrite Hnew. eauto.
    + rewrite (FsFacts.writeFile_other _ _ _ _ p Hw Hne). exact Hp.
  - intros p Hp. destruct (decide (p = testFile pl)) as [-> | Hne]; [exact Hwr |].
    destruct Hp as (g & pl' & Hg & Hpl' & Htf & Hfile).
    exists g, pl'. repeat split; auto.
    rewrite (FsFacts.writeFile_other _ _ _ _ p Hw Hne). exact Hfile.
Qed.

Lemma progress_extends fs fs' f t :
  extends projectRoot uncoveredFiles fs fs' ->
  progress projectRoot uncoveredFiles fs f t ->
  progress projectRoot uncoveredFiles fs' f t.
Proof.
  intros (Hd & He & Hw). unfold GenerateTestsProgress.progress.
  destruct (plan projectRoot f) as [pl |]; [| auto].
  destruct t as [pl' | pl' | pl' | [p |] | e]; intuition auto.
Qed.

(** The callback of an input takes its next step. *)
Lemma perform_progress fs f t :
  f ∈ uncoveredFiles -> progress projectRoot uncoveredFiles fs f t ->
  extends projectRoot uncoveredFiles fs (perform t fs).1.1 /\
  progress projectRoot uncoveredFiles (perform t fs).1.1 f (perform t fs).1.2.
Proof.
  intros Hin. unfold GenerateTestsProgress.progress.
  destruct (plan projectRoot f) as [pl |] eqn:Hpl.
  - destruct t as [pl' | pl' | pl' | [p |] | e]; simpl.
    + intros ->. destruct (Fs.ensureDir (testDir pl) fs) as [fs' | e] eqn:He; simpl.
      * split; [apply preserves_extends, (FsFacts.ensureDir_preserves _ _ _ He) |].
        split; [reflexivity |]. exact (FsFacts.mkdirs_is_dir _ _ _ _ He).
      * split; [apply extends_refl | exact I].
    + intros [-> Hdir].
      destruct (Fs.pathExists (testFile pl) fs) eqn:Hex; simpl;
        (split; [apply extends_refl |]); split; auto.
      apply FsFacts.pathExists_true. exact Hex.
    + intros [-> Hdir].
      destruct (Fs.writeFile (testFile pl) (template pl) fs) as [fs' | e] eqn:Hw; simpl.
      * destruct (writeFile_extends f pl fs fs' Hin Hpl Hw) as [Hext Hwr].
        split; [exact Hext |]. split; [| split; [reflexivity | exact Hwr]].
        apply Hext. exact Hdir.
      * split; [apply extends_refl | exact I].
    + intros Hp. split; [apply extends_refl | exact Hp].
    + intros Hp. split; [apply extends_refl | exact Hp].
    + intros _. split; [apply extends_refl | exact I].
  - intros ->. simpl. split; [apply extends_refl | reflexivity].
Qed.

Lemma step_progress s s' :
  Forall2 (progress projectRoot uncoveredFiles (fs s)) uncoveredFiles (tasks s) -> step s s' ->
  Forall2 (progress projectRoot uncoveredFiles (fs s')) uncoveredFiles (tasks s').
Proof.
  intros Hall Hstep. destruct Hstep as [before t after fs r w]. simpl in *.
  apply Forall2_app_inv_r in Hall. destruct Hall as (l1 & l2 & H1 & H2 & Heq).
  apply Forall2_cons_inv_r in H2. destruct H2 as (f & l3 & Hf & H3 & ->).
  assert (Hin : f ∈ uncoveredFiles).
  { rewrite Heq. apply elem_of_app. right. left. }
  destruct (perform_progress fs f t Hin Hf) as [Hext Hf'].
  enough (Hg : forall l, l = (l1 ++ f :: l3)%list ->
            Forall2 (progress projectRoot uncoveredFiles (perform t fs).1.1) l
                    (before ++ (perform t fs).1.2 :: after))
    by (apply Hg; exact Heq).
  intros l ->. apply Forall2_app; [| constructor; [exact Hf' |]].
  - eapply Forall2_impl; [exact H1 |]. intros g u. apply progress_extends, Hext.
  - eapply Forall2_impl; [exact H3 |]. intros g u. apply progress_extends, Hext.
Qed.

Lemma reachable_progress fs0 s :
  reachable (initial projectRoot uncoveredFiles fs0) s ->
  Forall2 (progress projectRoot uncoveredFiles (fs s)) uncoveredFiles (tasks s).
Proof.
  induction 1 as [| s s' _ IH Hstep]; [| eapply step_progress; eauto].
  simpl. generalize uncoveredFiles at 2 3. intros l.
  induction l as [| f l IH]; simpl; constructor; [| exact IH].
  unfold GenerateTestsProgress.progress, start.
  destruct (plan projectRoot f); reflexivity.
Qed.

Lemma settled_ok s l :
  settled s = Some (Ok l) -> rejection s = None /\ results (tasks s) = Some l.
Proof.
  unfold settled. destruct (rejection s); [discriminate |].
  destruct (results (tasks s)); [| discriminate].
  intros Heq. inversion Heq. auto.
Qed.

Lemma results_resolved ts : forall l,
  results ts = Some l -> Forall (fun t => exists r, t = Resolved r) ts.
Proof.
  induction ts as [| t ts IH]; simpl; intros l Hres; [constructor |].
  destruct t as [pl | pl | pl | r | e]; try discriminate;
    try (destruct r; discriminate).
  destruct (results ts) as [l' |]; [| destruct r; discriminate].
  constructor; [eauto | eapply IH; eauto].
Qed.

Lemma results_length ts : forall l, results ts = Some l -> (length l <= length ts)%nat.
Proof.
  induction ts as [| t ts IH]; simpl; intros l Hres.
  - inversion Hres. simpl. lia.
  - destruct t as [pl | pl | pl | [q |] | e]; try discriminate;
      destruct (results ts) as [l' |]; try discriminate;
      specialize (IH l' eq_refl); inversion Hres; subst.
    + destruct (String.eqb q ""); simpl; lia.
    + lia.
Qed.

(** What a successful run leaves behind, whatever the interleaving. *)
Lemma settled_postcondition fs0 s l :
  reachable (initial projectRoot uncoveredFiles fs0) s ->
  settled s = Some (Ok l) ->
  (forall f pl, f ∈ uncoveredFiles -> plan projectRoot f = Some pl ->
     fs s !! testDir pl = Some Dir /\ is_Some (fs s !! testFile pl)) /\
  (forall p, p ∈ l -> fs0 !! p = None /\ written projectRoot uncoveredFiles (fs s) p) /\
  (length l <= length uncoveredFiles)%nat.
Proof.
  intros Hreach Hsettled.
  destruct (settled_ok s l Hsettled) as [Hrej Hres].
  pose proof (reachable_progress fs0 _ Hreach) as Hprog.
  pose proof (reachable_inv projectRoot uncoveredFiles fs0 _ Hreach) as (_ & Hfresh & _).
  pose proof (results_resolved _ _ Hres) as Hall.
  split; [| split].
  - intros f pl Hin Hpl.
    apply list_elem_of_lookup in Hin. destruct Hin as [i Hi].
    destruct (Forall2_lookup_l _ _ _ _ _ Hprog Hi) as (t & Ht & Hp).
    unfold GenerateTestsProgress.progress in Hp. rewrite Hpl in Hp.
    assert (Hin : t ∈ tasks s) by (eapply list_elem_of_lookup_2; eauto).
    rewrite Forall_forall in Hall. destruct (Hall t Hin) as [[p |] ->].
    + destruct Hp as (Hdir & -> & (g & pl' & _ & _ & Htf & Hfile)).
      split; [exact Hdir |]. rewrite Hfile. eauto.
    + exact Hp.
  - intros p Hp. apply (results_elem _ _ _ Hres) in Hp.
    split.
    + rewrite Forall_forall in Hfresh. exact (Hfresh _ Hp).
    + apply list_elem_of_lookup in Hp. destruct Hp as [i Hi].
      destruct (Forall2_lookup_r _ _ _ _ _ Hprog Hi) as (f & Hf & Hpr).
      unfold GenerateTestsProgress.progress in Hpr.
      destruct (plan projectRoot f) as [pl |]; [| discriminate].
      destruct Hpr as (_ & _ & Hwr). exact Hwr.
  - rewrite (Forall2_length _ _ _ Hprog). apply results_length, Hres.
Qed.

(** X4: when generateTests succeeds, under whatever interleaving of its
    callbacks, every input with a supported extension has its test
    directory, and something at the path of its test file; every returned
    path was free before the call and now holds the render test of one of
    the inputs; at most one path is returned per input. *)
Theorem generateTests_creates_tests fs0 s l :
  reachable (initial projectRoot uncoveredFiles fs0) s ->
  settled s = Some (Ok l) ->
  (forall f pl, f ∈ uncoveredFiles -> plan projectRoot f = Some pl ->
     fs s !! testDir pl = Some Dir /\ is_Some (fs s !! testFile pl)) /\
  (forall p, p ∈ l ->
     fs0 !! p = None /\
     exists f pl, f ∈ uncoveredFiles /\ plan projectRoot f = Some pl /\
                  testFile pl = p /\ fs s !! p = Some (File (template pl))) /\
  (length l <= length uncoveredFiles)%nat.
Proof. apply settled_postcondition. Qed.

(** *** A second run *)

Lemma noteRejection_settled r t :
  (forall e, t <> Rejected e) -> noteRejection r t = r.
Proof.
  intros Ht. destruct r as [e |]; [reflexivity |].
  destruct t; try reflexivity. exfalso. eapply Ht. reflexivity.
Qed.

Lemma perform_satisfied fs t :
  satisfied fs t ->
  (perform t fs).1.1 = fs /\ (perform t fs).2 = [] /\
  satisfied fs (perform t fs).1.2.
Proof.
  destruct t as [pl | pl | pl | [p |] | e]; simpl; try contradiction.
  - intros [Hdir Hfile]. unfold Fs.ensureDir. simpl. rewrite Hdir. simpl. auto.
  - intros [Hdir Hfile]. apply FsFacts.pathExists_true in Hfile. rewrite Hfile.
    simpl. auto.
  - auto.
Qed.

Lemma satisfied_not_rejected fs t e : satisfied fs t -> t <> Rejected e.
Proof. intros Hs ->. exact Hs. Qed.

Lemma step_idle fs1 s s' : idle fs1 s -> step s s' -> idle fs1 s'.
Proof.
  intros (Hfs & Hrej & Hw & Hall) Hstep.
  destruct Hstep as [before t after fs r w]. simpl in *. subst fs r w.
  apply Forall_app in Hall. destruct Hall as [Hbefore Hrest].
  apply Forall_cons in Hrest. destruct Hrest as [Ht Hafter].
  destruct (perform_satisfied fs1 t Ht) as (Hfs' & Hw' & Hs).
  unfold idle. cbn [GenerateTests.fs tasks rejection writes]. rewrite Hfs', Hw'.
  rewrite noteRejection_settled by (intros e; eapply satisfied_not_rejected; exact Hs).
  repeat split; auto.
  apply Forall_app. split; [exact Hbefore |]. constructor; assumption.
Qed.

Lemma results_satisfied fs1 ts : forall l,
  Forall (satisfied fs1) ts -> results ts = Some l -> l = [].
Proof.
  induction ts as [| t ts IH]; simpl; intros l Hall Hres.
  - inversion Hres. reflexivity.
  - apply Forall_cons in Hall. destruct Hall as [Ht Hall].
    destruct t as [pl | pl | pl | [q |] | e]; try discriminate; try contradiction.
    destruct (results ts) as [l' |]; [| discriminate].
    inversion Hres; subst. apply IH; auto.
Qed.

(** X5: a run of generateTests that succeeds leaves nothing to do: in a
    second run on the resulting files with the same input, under whatever
    interleaving, no callback writes a file or fails, the files stay as
    they are, and the list that is returned is empty. *)
Theorem generateTests_second_run fs0 s1 l s2 :
  reachable (initial projectRoot uncoveredFiles fs0) s1 ->
  settled s1 = Some (Ok l) ->
  reachable (initial projectRoot uncoveredFiles (fs s1)) s2 ->
  fs s2 = fs s1 /\ writes s2 = [] /\ rejection s2 = None /\
  (forall r, settled s2 = Some r -> r = Ok []) /\
  generateTests projectRoot uncoveredFiles (fs s1) = (Ok [], fs s1).
Proof.
  intros Hreach Hsettled Hagain.
  destruct (settled_postcondition fs0 s1 l Hreach Hsettled) as (Hdone & _ & _).
  assert (Hidle : forall s, reachable (initial projectRoot uncoveredFiles (fs s1)) s ->
                            idle (fs s1) s).
  { induction 1 as [| s s' _ IH Hstep]; [| eapply step_idle; eauto].
    unfold idle. simpl. repeat split.
    apply Forall_forall. intros t Hin.
    apply list_elem_of_fmap in Hin. destruct Hin as (f & -> & Hf).
    unfold start. destruct (plan projectRoot f) as [pl |] eqn:Hpl; simpl; [| exact I].
    apply (Hdone f pl Hf Hpl). }
  assert (Hnone : forall s r, idle (fs s1) s -> settled s = Some r -> r = Ok []).
  { intros s r (_ & Hrej & _ & Hall). unfold settled. rewrite Hrej.
    destruct (results (tasks s)) as [l' |] eqn:Hres; [| discriminate].
    intros Heq. inversion Heq. f_equal. eapply results_satisfied; eauto. }
  destruct (Hidle s2 Hagain) as (Hfs & Hrej & Hw & Hall).
  split; [exact Hfs |]. split; [exact Hw |]. split; [exact Hrej |].
  split; [intros r; apply Hnone; repeat split; assumption |].
  pose proof (Hidle _ (finalState_reachable projectRoot uncoveredFiles (fs s1))) as Hfinal.
  pose proof (generateTests_settles projectRoot uncoveredFiles (fs s1)) as Hs.
  apply (Hnone _ _ Hfinal) in Hs.
  destruct Hfinal as (Hfs' & _).
  unfold generateTests in *. cbn [fst] in Hs. rewrite Hs, Hfs'. reflexivity.
Qed.
End WithPath.

Lemma generateTests_creates_tests_witness :
  let s := @finalState Sample.path "/proj" Sample.uncoveredFiles Sample.sources in
  (forall f pl, f ∈ Sample.uncoveredFiles -> @plan Sample.path "/proj" f = Some pl ->
     fs s !! testDir pl = Some Dir /\ is_Some (fs s !! testFile pl)) /\
  (forall p, p ∈ ["/proj/__tests__/src/Card.test.tsx"; "/proj/__tests__/src/util.test.ts"] ->
     Sample.sources !! p = None /\
     exists f pl, f ∈ Sample.uncoveredFiles /\ @plan Sample.path "/proj" f = Some pl /\
                  testFile pl = p /\ fs s !! p = Some (File (template pl))) /\
  (length ["/proj/__tests__/src/Card.test.tsx"; "/proj/__tests__/src/util.test.ts"]
   <= length Sample.uncoveredFiles)%nat.
Proof.
  intros s.
  apply (@generateTests_creates_tests Sample.path "/proj" Sample.uncoveredFiles
           Sample.sources s).
  - apply finalState_reachable.
  - vm_compute. reflexivity.
Defined.

Lemma generateTests_second_run_witness :
  let s1 := @finalState Sample.path "/proj" Sample.uncoveredFiles Sample.sources in
  let s2 := @finalState Sample.path "/proj" Sample.uncoveredFiles (fs s1) in
  fs s2 = fs s1 /\ writes s2 = [] /\ rejection s2 = None /\
  (forall r, settled s2 = Some r -> r = Ok []) /\
  @generateTests Sample.path "/proj" Sample.uncoveredFiles (fs s1) = (Ok [], fs s1).
Proof.
  intros s1 s2.
  apply (@generateTests_second_run Sample.path "/proj" Sample.uncoveredFiles
           Sample.sources s1
           ["/proj/__tests__/src/Card.test.tsx"; "/proj/__tests__/src/util.test.ts"] s2).
  - apply finalState_reachable.
  - vm_compute. reflexivity.
  - apply finalState_reachable.
Defined.
End GenerateTestsLaws.

Module LoaderLaws.
Import Loader LoaderTrace LoaderFacts.

Section WithPlatform.
Context `{PathModule} `{Importer}.

Lemma loadOne_trace pluginsDir file app :
  let r := loadOne pluginsDir file app in
  r.1 = (if skipped file then app else mountPlugin pluginsDir app file) /\
  imports r.2 = (if skipped file then [] else [(file, join [pluginsDir; file])]) /\
  calls r.2 = (if skipped file then []
               else match routerOf (join [pluginsDir; file]) with
                    | Some _ => [file]
                    | None => []
                    end).
Proof.
  unfold loadOne, mountPlugin, routerOf. destruct (skipped file); [auto |].
  destruct (importModule (join [pluginsDir; file])) as [[[[n [register |]] |]] | e];
    simpl; [destruct (register app) as [[[] | e] app'] | | |]; simpl; auto.
Qed.

Lemma imports_app e1 e2 : imports (e1 ++ e2) = (imports e1 ++ imports e2)%list.
Proof. unfold imports. apply bind_app. Qed.

Lemma calls_app e1 e2 : calls (e1 ++ e2) = (calls e1 ++ calls e2)%list.
Proof. unfold calls. apply bind_app. Qed.

Lemma loadAll_trace pluginsDir files : forall app,
  let r := loadAll pluginsDir files app in
  r.1 = fold_left (mountPlugin pluginsDir) (loadable files) app /\
  imports r.2 = map (fun file => (file, join [pluginsDir; file])) (loadable files) /\
  calls r.2 =
    List.filter (fun file => bool_decide (is_Some (routerOf (join [pluginsDir; file]))))
                (loadable files).
Proof.
  induction files as [| file rest IH]; intros app; [simpl; auto |].
  cbn [loadAll].
  pose proof (loadOne_trace pluginsDir file app) as H1.
  destruct (loadOne pluginsDir file app) as [app1 events1].
  pose proof (IH app1) as H2.
  destruct (loadAll pluginsDir rest app1) as [app2 events2].
  cbn zeta in H1, H2. cbn [fst snd] in *.
  destruct H1 as (A1 & I1 & C1). destruct H2 as (A2 & I2 & C2).
  rewrite imports_app, calls_app, I1, I2, C1, C2, A2, A1.
  unfold loadable. cbn [List.filter].
  destruct (skipped file); cbn [negb]; [auto |].
  cbn [fold_left map List.filter].
  destruct (routerOf (join [pluginsDir; file])) as [register |]; simpl; auto.
Qed.

(** X6: with a plugins directory that can be listed, loadPlugins returns
    normally whatever the plugins do; the files that the guard lets through
    are imported once each, in the order of the listing; the routers called
    are those of the modules that load and have one, in that order; and
    the resulting app is what these routers make of it one after the
    other, including what a router mounted before it threw. *)
Theorem loadPlugins_order app pluginsDir fs files :
  Loader.readdir pluginsDir fs = Ok files ->
  let r := loadPlugins app pluginsDir fs in
  r.1.1 = Ok tt /\
  r.1.2 = fold_left (mountPlugin pluginsDir) (loadable files) app /\
  imports r.2 = map (fun file => (file, join [pluginsDir; file])) (loadable files) /\
  calls r.2 =
    List.filter (fun file => bool_decide (is_Some (routerOf (join [pluginsDir; file]))))
                (loadable files).
Proof.
  intros Hdir r. subst r.
  rewrite (loadPlugins_events app pluginsDir fs files Hdir). cbn [fst snd].
  split; [reflexivity |]. apply loadAll_trace.
Qed.


End WithPlatform.

Lemma loadPlugins_order_witness :
  let r := @loadPlugins Sample.path Sample.importer [] "/srv/src/tools" Sample.server in
  r.1.1 = Ok tt /\
  r.1.2 = fold_left (@mountPlugin Sample.path Sample.importer "/srv/src/tools")
            (loadable Sample.sampleListing) [] /\
  imports r.2 = map (fun file => (file, @join Sample.path ["/srv/src/tools"; file]))
                    (loadable Sample.sampleListing) /\
  calls r.2 =
    List.filter
      (fun file => bool_decide (is_Some (@routerOf Sample.importer
                                           (@join Sample.path ["/srv/src/tools"; file]))))
      (loadable Sample.sampleListing).
Proof.
  apply (@loadPlugins_order Sample.path Sample.importer [] "/srv/src/tools"
           Sample.server Sample.sampleListing).
  vm_compute. reflexivity.
Defined.

End LoaderLaws.

Module ProfileLaws.
Import Double DoubleFacts Profile ProfileFacts.
Local Open Scope Q_scope.

(** A filter that is closed towards the front of a sorted list keeps an
    initial segment of it. *)
Lemma filter_sorted_prefix (R : Test -> Test -> Prop) (p : Test -> bool) (l : list Test) :
  (forall a b, R a b -> p b = true -> p a = true) ->
  StronglySorted R l ->
  List.filter p l = take (length (List.filter p l)) l.
Proof.
  intros Hclosed. induction 1 as [| x l Hsorted IH Hall]; [reflexivity |].
  cbn [List.filter]. destruct (p x) eqn:Hx.
  - cbn [length take]. f_equal. exact IH.
  - assert (Hnone : List.filter p l = []).
    { clear IH Hsorted. induction l as [| y l IHl]; [reflexivity |].
      apply Forall_cons in Hall. destruct Hall as [Hxy Hall].
      cbn [List.filter]. destruct (p y) eqn:Hy.
      - rewrite (Hclosed x y Hxy Hy) in Hx. discriminate.
      - apply IHl, Hall. }
    rewrite Hnone. reflexivity.
Qed.

Lemma slow_filter_eq c l :
  Forall (fun t => Double.ltb (Double.Fin 0) (duration t) = true) l ->
  List.filter (fun t => Double.ltb c (Double.orZero (duration t))) l =
  List.filter (fun t => Double.ltb c (duration t)) l.
Proof.
  induction 1 as [| t l Ht _ IH]; simpl; [reflexivity |].
  rewrite (DoubleFacts.orZero_pos _ Ht), IH. reflexivity.
Qed.

(** *** The share of slow tests *)

(** An infinite sum stays so. *)
Lemma fold_PInf l :
  Forall (fun t => ltb (Fin 0) (duration t) = true) l ->
  fold_left (fun sum t => add sum (Double.orZero (duration t))) l PInf = PInf.
Proof.
  induction 1 as [| t l Ht _ IH]; simpl; [reflexivity |].
  rewrite (orZero_pos _ Ht).
  destruct (duration t); simpl in *; try discriminate; exact IH.
Qed.

(** A sum of [i] durations that has lost the share [i * eps] of their exact
    sum [E] at most has lost the share [(i + 1) * eps] at most after one
    more addition. *)
Lemma step_lower a d E i a' :
  1000 <= E -> 0 < d -> 0 <= i -> E * (1 - i * eps) <= a -> (i + 1) * eps <= 1 # 2 ->
  rnd (a + d) = Fin a' -> (E + d) * (1 - (i + 1) * eps) <= a'.
Proof.
  intros HE Hd Hi Ha Hie Hr. pose proof eps_pos as He.
  assert (Hx : 0 <= i * eps) by (apply Qmult_le_0_compat; lra).
  assert (Ha500 : 500 <= a).
  { assert (E * (1 # 2) <= E * (1 - i * eps)); [| lra].
    apply Qmult_le_l; lra. }
  apply rnd_rel in Hr; [| apply normal_range; lra].
  eapply Qle_trans; [| exact Hr].
  assert (H1 : (E + d) * (1 - i * eps) <= a + d).
  { assert (0 <= d * (i * eps)) by (apply Qmult_le_0_compat; lra). lra. }
  assert (H2 : (E + d) * (1 - i * eps) * (1 - eps) <= (a + d) * (1 - eps)).
  { apply Qmult_le_compat_r; [exact H1 | lra]. }
  eapply Qle_trans; [| exact H2].
  assert (H3 : 0 <= (E + d) * ((i * eps) * eps)).
  { apply Qmult_le_0_compat; [lra |]. apply Qmult_le_0_compat; lra. }
  lra.
Qed.

(** So a finite sum of durations has only finite terms, and has lost the
    share [n * eps] of their exact sum at most, [n] being their number. *)
Lemma sum_lower (l : list Test) : forall (a E : Q) (i : nat) (s : Q),
  Forall (fun t => ltb (Fin 0) (duration t) = true) l ->
  1000 <= E ->
  E * (1 - inject_Z (Z.of_nat i) * eps) <= a ->
  inject_Z (Z.of_nat (i + length l)) * eps <= 1 # 2 ->
  fold_left (fun sum t => add sum (Double.orZero (duration t))) l (Fin a) = Fin s ->
  Forall (fun t => duration t = Fin (value (duration t))) l /\
  (E + exactTotal l) * (1 - inject_Z (Z.of_nat (i + length l)) * eps) <= s.
Proof.
  induction l as [| t l IH]; intros a E i s Hpos HE Ha Hn Hs.
  - simpl in *. injection Hs as <-. rewrite Nat.add_0_r, Qplus_0_r. split; [constructor | exact Ha].
  - apply Forall_cons in Hpos. destruct Hpos as [Ht Hpos].
    cbn [fold_left] in Hs. rewrite (orZero_pos _ Ht) in Hs.
    pose proof eps_pos as He.
    assert (Hi : 0 <= inject_Z (Z.of_nat i)).
    { change 0 with (inject_Z 0). rewrite <- Zle_Qle. lia. }
    assert (Hle : inject_Z (Z.of_nat (S i + length l)) = inject_Z (Z.of_nat (i + length (t :: l)))).
    { f_equal. f_equal. simpl. lia. }
    assert (Hi1 : (inject_Z (Z.of_nat i) + 1) * eps <= 1 # 2).
    { eapply Qle_trans; [| exact Hn]. apply Qmult_le_compat_r; [| lra].
      change 1 with (inject_Z 1). rewrite <- inject_Z_plus, <- Zle_Qle. simpl. lia. }
    destruct (duration t) as [d | | |] eqn:Hd; simpl in Ht; try discriminate.
    + apply Qltb_lt in Ht. cbn [add] in Hs.
      destruct (rnd (a + d)) as [a' | | |] eqn:Hr.
      * pose proof (step_lower _ _ _ _ _ HE Ht Hi Ha Hi1 Hr) as Ha'.
        destruct (IH a' (E + d) (S i) s Hpos) as [Hfin Hsum]; try assumption.
        -- lra.
        -- rewrite Nat2Z.inj_succ, <- Z.add_1_r, inject_Z_plus. exact Ha'.
        -- rewrite Hle. exact Hn.
        -- split; [constructor; [rewrite Hd; reflexivity | exact Hfin] |].
           rewrite Hle in Hsum. cbn [exactTotal fold_right]. rewrite Hd. cbn [value].
           fold (exactTotal l). rewrite Qplus_assoc. exact Hsum.
      * rewrite (fold_PInf _ Hpos) in Hs. discriminate.
      * assert (Hnn : nonneg (rnd (a + d))).
        { apply rnd_nonneg.
          assert (0 <= a); [| lra].
          eapply Qle_trans; [| exact Ha]. apply Qmult_le_0_compat; [lra |].
          assert (inject_Z (Z.of_nat i) * eps <= (inject_Z (Z.of_nat i) + 1) * eps); [| lra].
          apply Qmult_le_compat_r; lra. }
        rewrite Hr in Hnn. contradiction.
      * assert (Hnn : nonneg (rnd (a + d))).
        { apply rnd_nonneg.
          assert (0 <= a); [| lra].
          eapply Qle_trans; [| exact Ha]. apply Qmult_le_0_compat; [lra |].
          assert (inject_Z (Z.of_nat i) * eps <= (inject_Z (Z.of_nat i) + 1) * eps); [| lra].
          apply Qmult_le_compat_r; lra. }
        rewrite Hr in Hnn. contradiction.
    + cbn [add] in Hs. rewrite (fold_PInf _ Hpos) in Hs. discriminate.
Qed.


(** The exact sum is at least the bound times the number of tests above
    it. *)
Lemma exactTotal_above (T : Q) (l : list Test) :
  0 <= T ->
  Forall (fun t => ltb (Fin 0) (duration t) = true) l ->
  Forall (fun t => duration t = Fin (value (duration t))) l ->
  inject_Z (Z.of_nat (length (List.filter (fun t => ltb (Fin T) (duration t)) l))) * T
    <= exactTotal l.
Proof.
  intros HT Hpos Hfin. induction Hpos as [| t l Ht _ IH].
  - simpl. rewrite Qmult_0_l. apply Qle_refl.
  - apply Forall_cons in Hfin. destruct Hfin as [Hd Hfin]. specialize (IH Hfin).
    cbn [List.filter exactTotal fold_right]. fold (exactTotal l).
    rewrite Hd in Ht |- *. cbn [value]. set (d := value (duration t)) in *.
    simpl in Ht. apply Qltb_lt in Ht.
    change (ltb (Fin T) (Fin d)) with (Qltb T d). destruct (Qltb T d) eqn:E.
    + apply Qltb_lt in E. cbn [length].
      rewrite Nat2Z.inj_succ, <- Z.add_1_r, inject_Z_plus.
      change (inject_Z 1) with 1. lra.
    + lra.
Qed.

(** A filter that is closed towards the front of a sorted list and
    rejects its first element rejects all. *)
Lemma filter_sorted_head (R : Test -> Test -> Prop) (p : Test -> bool) x (l : list Test) :
  (forall a b, R a b -> p b = true -> p a = true) ->
  StronglySorted R (x :: l) -> p x = false -> List.filter p (x :: l) = [].
Proof.
  intros Hclosed Hsorted Hx. apply StronglySorted_inv in Hsorted.
  destruct Hsorted as [_ Hall]. cbn [List.filter]. rewrite Hx.
  induction l as [| y l IH]; [reflexivity |].
  apply Forall_cons in Hall. destruct Hall as [Hxy Hall].
  cbn [List.filter]. destruct (p y) eqn:Hy.
  - rewrite (Hclosed x y Hxy Hy) in Hx. discriminate.
  - apply IH, Hall.
Qed.

(** The arithmetic of the bound: [N] tests with exact sum [X], of which [K]
    are above the threshold [T]; [s], [v] and [w] are the sum, the average
    and twice the average as rounded. *)
Lemma half_bound (N K T X s v w : Q) :
  1 <= N -> N <= inject_Z (2 ^ 26 - 1) -> 0 <= K ->
  1000 <= T -> K * T <= X ->
  X * (1 - N * eps) <= s ->
  s / N * (1 - eps) <= v ->
  v * 2 * (1 - eps) <= w ->
  w <= T ->
  N + 1 <= 2 * K -> False.
Proof.
  intros HN1 HN2 HK HT HX Hs Hv Hw HwT H2K.
  pose proof eps_pos as He.
  assert (HNe : (N + 1) * ((N + 2) * eps) < 1).
  { assert (Hb : (N + 1) * ((N + 2) * eps)
                 <= inject_Z (2 ^ 26) * ((inject_Z (2 ^ 26) + 1) * eps)).
    { assert (N + 1 <= inject_Z (2 ^ 26)).
      { replace (2 ^ 26)%Z with (2 ^ 26 - 1 + 1)%Z by lia.
        rewrite inject_Z_plus. change (inject_Z 1) with 1. lra. }
      apply Qmult_le_compat_nonneg; split; try lra.
      - apply Qmult_le_0_compat; lra.
      - apply Qmult_le_compat_r; lra. }
    eapply Qle_lt_trans; [exact Hb |]. vm_compute. reflexivity. }
  set (e := eps) in *. clearbody e.
  assert (HNN : 0 <= N * N) by (apply Qmult_le_0_compat; lra).
  assert (Hne : N * e < 1).
  { assert (Hid : (N + 1) * ((N + 2) * e) == N * e + e * (N * N + 2 * N + 2)) by ring.
    assert (0 <= e * (N * N + 2 * N + 2)) by (apply Qmult_le_0_compat; lra).
    lra. }
  assert (He1 : e < 1).
  { assert (1 * e <= N * e) by (apply Qmult_le_compat_r; lra). lra. }
  set (c1 := 1 - N * e). set (c2 := 1 - e).
  assert (Hc1 : 0 < c1) by (unfold c1; lra).
  assert (Hc2 : 0 < c2) by (unfold c2; lra).
  assert (Hc : 0 <= c1 * (c2 * c2)).
  { apply Qmult_le_0_compat; [lra |]. apply Qmult_le_0_compat; lra. }
  (* the sum, the average, the threshold *)
  assert (A1 : K * T * c1 <= s).
  { eapply Qle_trans; [| exact Hs]. apply Qmult_le_compat_r; [exact HX | lra]. }
  assert (A2 : s * c2 <= v * N).
  { assert (Heq : s * c2 == s / N * (1 - e) * N) by (unfold c2; field; lra).
    rewrite Heq. apply Qmult_le_compat_r; [exact Hv | lra]. }
  assert (A3 : K * T * c1 * c2 <= v * N).
  { eapply Qle_trans; [| exact A2]. apply Qmult_le_compat_r; [exact A1 | lra]. }
  assert (A4 : K * T * c1 * c2 * (2 * c2) <= v * N * (2 * c2)).
  { apply Qmult_le_compat_r; [exact A3 | lra]. }
  assert (A5 : v * N * (2 * c2) <= T * N).
  { assert (Heq : v * N * (2 * c2) == v * 2 * (1 - e) * N) by (unfold c2; ring).
    rewrite Heq. apply Qmult_le_compat_r; [lra | lra]. }
  assert (A6 : T * (2 * K * (c1 * (c2 * c2))) <= T * N).
  { assert (Heq : T * (2 * K * (c1 * (c2 * c2))) == K * T * c1 * c2 * (2 * c2)) by ring.
    rewrite Heq. lra. }
  apply Qmult_le_l in A6; [| lra].
  assert (A7 : (N + 1) * (c1 * (c2 * c2)) <= 2 * K * (c1 * (c2 * c2))).
  { apply Qmult_le_compat_r; [exact H2K | exact Hc]. }
  assert (A8 : 1 - (N + 2) * e <= c1 * (c2 * c2)).
  { assert (Heq : c1 * (c2 * c2) == 1 - (N + 2) * e + e * e * (1 + 2 * N - N * e))
      by (unfold c1, c2; ring).
    assert (0 <= e * e * (1 + 2 * N - N * e)).
    { apply Qmult_le_0_compat; [apply Qmult_le_0_compat; lra | lra]. }
    lra. }
  assert (A9 : (N + 1) * (1 - (N + 2) * e) <= (N + 1) * (c1 * (c2 * c2))).
  { apply Qmult_le_l; [lra | exact A8]. }
  assert (Heq : (N + 1) * (1 - (N + 2) * e) == N + 1 - (N + 1) * ((N + 2) * e)) by ring.
  lra.
Qed.


Lemma count_bounds (n : nat) :
  (0 < Z.of_nat n < 2 ^ 26)%Z ->
  1 <= inject_Z (Z.of_nat n) <= inject_Z (2 ^ 26 - 1) /\
  inject_Z (Z.of_nat n) * eps <= 1 # 2.
Proof.
  intros Hn.
  assert (H1 : 1 <= inject_Z (Z.of_nat n)).
  { change 1 with (inject_Z 1). rewrite <- Zle_Qle. lia. }
  assert (H2 : inject_Z (Z.of_nat n) <= inject_Z (2 ^ 26 - 1)).
  { rewrite <- Zle_Qle. lia. }
  split; [split; assumption |].
  apply (Qle_trans _ (inject_Z (2 ^ 26 - 1) * eps)).
  - apply Qmult_le_compat_r; [exact H2 | apply Qlt_le_weak, eps_pos].
  - vm_compute. discriminate.
Qed.

(** Of fewer than 2^26 timed tests at most half are slow. *)
Lemma slow_at_most_half data :
  (Z.of_nat (length (sortedTests data)) < 2 ^ 26)%Z ->
  (2 * length (slowTests (profileOf data)) <= length (sortedTests data))%nat.
Proof.
  intros Hn. cbn [profileOf slowTests].
  pose proof (sortedTests_positive data) as Hpos.
  pose proof (sortedTests_sorted data) as Hsorted.
  destruct (slowThreshold_bounds data) as [Hnn Hthr].
  pose proof (sumDurations_nonneg _ Hpos) as Hsnn.
  revert Hn Hpos Hsorted Hnn Hthr Hsnn.
  generalize (sortedTests data). intros sorted Hn Hpos Hsorted Hnn Hthr Hsnn.
  rewrite (slow_filter_eq _ sorted Hpos).
  remember (slowThreshold sorted) as thr eqn:HT.
  assert (Hclosed : forall a b, slowerEq a b ->
            ltb thr (duration b) = true -> ltb thr (duration a) = true).
  { intros a b Hab Hb. eapply ltb_leb_trans; eauto. }
  destruct sorted as [| t1 rest]; [simpl; lia |].
  destruct (ltb thr (duration t1)) eqn:E1.
  2: { rewrite (filter_sorted_head slowerEq _ t1 rest Hclosed Hsorted E1). simpl. lia. }
  destruct thr as [T | | |]; try discriminate;
    try (destruct (duration t1); discriminate).
  apply Qle_bool_iff in Hthr.
  set (n := length (t1 :: rest)) in *.
  assert (Hn0 : (0 < Z.of_nat n < 2 ^ 26)%Z) by (split; [unfold n; simpl length; lia | exact Hn]).
  destruct (count_bounds n Hn0) as [[HN1 HN2] HNe].
  (* the sum, the average and their double are finite *)
  unfold slowThreshold, avgDuration in HT. fold n in HT.
  replace (0 <? n)%nat with true in HT by (symmetry; apply Nat.ltb_lt; lia).
  destruct (sumDurations (t1 :: rest)) as [s | | |] eqn:Hsum;
    try contradiction; [| vm_compute in HT; discriminate HT].
  cbn [divBy] in HT.
  assert (HNpos : inject_Z (Z.pos (Pos.of_nat n)) = inject_Z (Z.of_nat n)).
  { f_equal. unfold n. simpl length. lia. }
  rewrite HNpos in HT.
  simpl in Hsnn.
  destruct (rnd (s / inject_Z (Z.of_nat n))) as [v | | |] eqn:Hv.
  2: { vm_compute in HT. discriminate HT. }
  2, 3: assert (Hx : nonneg (rnd (s / inject_Z (Z.of_nat n))))
          by (apply rnd_nonneg, Qle_shift_div_l; lra);
        rewrite Hv in Hx; contradiction.
  cbn [mul] in HT.
  assert (Hvnn : 0 <= v).
  { assert (Hx : nonneg (rnd (s / inject_Z (Z.of_nat n))))
      by (apply rnd_nonneg, Qle_shift_div_l; lra).
    rewrite Hv in Hx. exact Hx. }
  destruct (rnd (v * 2)) as [w | | |] eqn:Hw.
  2: { vm_compute in HT. discriminate HT. }
  2, 3: assert (Hx : nonneg (rnd (v * 2))) by (apply rnd_nonneg; lra);
        rewrite Hw in Hx; contradiction.
  assert (HwT : w <= T).
  { cbn [max ltb] in HT. destruct (Qltb 1000 w) eqn:E.
    - injection HT as ->. apply Qle_refl.
    - injection HT as ->. apply Qltb_ge. exact E. }
  (* the first test *)
  pose proof Hpos as Hpos'. apply Forall_cons in Hpos'. destruct Hpos' as [Ht1 Hrest].
  unfold sumDurations in Hsum. cbn [fold_left] in Hsum.
  rewrite (orZero_pos _ Ht1) in Hsum.
  destruct (duration t1) as [q1 | | |] eqn:Hd1; try discriminate.
  2: { cbn [add] in Hsum. rewrite (fold_PInf _ Hrest) in Hsum. discriminate. }
  simpl in E1. apply Qltb_lt in E1.
  cbn [add] in Hsum.
  destruct (rnd (0 + q1)) as [a1 | | |] eqn:Ha1.
  2: { rewrite (fold_PInf _ Hrest) in Hsum. discriminate. }
  2, 3: assert (Hx : nonneg (rnd (0 + q1))) by (apply rnd_nonneg; lra);
        rewrite Ha1 in Hx; contradiction.
  apply rnd_rel in Ha1; [| apply normal_range; lra].
  destruct (sum_lower rest a1 q1 1 s Hrest) as [Hfin Hlow]; try assumption.
  { lra. }
  { change (inject_Z (Z.of_nat 1)) with 1. lra. }
  change (1 + length rest)%nat with n in Hlow |- *.
  set (N := inject_Z (Z.of_nat n)) in *.
  set (k := length (List.filter (fun t => ltb (Fin T) (duration t)) (t1 :: rest))).
  set (K := inject_Z (Z.of_nat k)).
  assert (HX : K * T <= q1 + exactTotal rest).
  { pose proof (exactTotal_above T (t1 :: rest)) as Habove.
    cbn [exactTotal fold_right] in Habove. rewrite Hd1 in Habove. cbn [value] in Habove.
    apply Habove; [lra | exact Hpos |].
    constructor; [rewrite Hd1; reflexivity | exact Hfin]. }
  assert (Hk1 : (1 <= k)%nat).
  { unfold k. cbn [List.filter]. rewrite Hd1. cbn [ltb].
    replace (Qltb T q1) with true by (symmetry; apply Qltb_lt; exact E1).
    simpl. lia. }
  assert (HK1 : 1 <= K).
  { unfold K. change 1 with (inject_Z 1). rewrite <- Zle_Qle. lia. }
  pose proof eps_pos as He.
  assert (HX1000 : 1000 <= q1 + exactTotal rest).
  { assert (1 * T <= K * T) by (apply Qmult_le_compat_r; lra). lra. }
  assert (Hs500 : 500 <= s).
  { eapply Qle_trans; [| exact Hlow].
    assert ((q1 + exactTotal rest) * (1 # 2) <= (q1 + exactTotal rest) * (1 - N * eps)).
    { apply Qmult_le_l; lra. }
    lra. }
  assert (HsN : 1 # 1000000 <= s / N).
  { apply Qle_shift_div_l; [lra |].
    assert ((1 # 1000000) * N <= (1 # 1000000) * inject_Z (2 ^ 26 - 1)).
    { apply Qmult_le_l; [reflexivity | exact HN2]. }
    assert ((1 # 1000000) * inject_Z (2 ^ 26 - 1) <= 500)
      by (apply Qle_bool_iff; vm_compute; reflexivity).
    lra. }
  assert (He4 : eps <= 1 # 2) by (apply Qle_bool_iff; vm_compute; reflexivity).
  apply rnd_rel in Hv; [| apply normal_range; lra].
  assert (Hv1 : 1 # 10000000 <= v).
  { eapply Qle_trans; [| exact Hv].
    assert ((1 # 1000000) * (1 # 2) <= s / N * (1 - eps)).
    { apply Qmult_le_compat_nonneg; split; try lra; discriminate. }
    assert ((1 # 10000000) <= (1 # 1000000) * (1 # 2))
      by (apply Qle_bool_iff; vm_compute; reflexivity).
    lra. }
  apply rnd_rel in Hw; [| apply normal_range; lra].
  destruct (Nat.le_gt_cases (2 * k) n) as [Hle | Hgt]; [exact Hle | exfalso].
  apply (half_bound N K T (q1 + exactTotal rest) s v w); try assumption; try lra.
  unfold N, K. change 1 with (inject_Z 1). change 2 with (inject_Z 2).
  rewrite <- inject_Z_plus, <- inject_Z_mult, <- Zle_Qle. lia.
Qed.

(** X8: the slow tests are the first slowTestCount tests of the timed tests
    sorted slowest first; the threshold is a number, 1000 at least, so
    that every slow test took more than 1000 ms; and of fewer than 2^26
    timed tests at most half are slow.  (Exactly half can be, see
    ProfileFacts.profileTests_rounding.) *)
Theorem profileOf_slow_tests data :
  let p := profileOf data in
  slowTests p = take (slowTestCount (summary p)) (sortedTests data) /\
  Double.leb (Double.Fin 1000) (summaryThreshold (summary p)) = true /\
  (forall t, t ∈ slowTests p -> Double.ltb (Double.Fin 1000) (duration t) = true) /\
  ((Z.of_nat (totalTests (summary p)) < 2 ^ 26)%Z ->
   (2 * slowTestCount (summary p) <= totalTests (summary p))%nat).
Proof.
  cbn zeta. split; [| split; [| split]].
  - cbn [profileOf slowTests summary slowTestCount].
    pose proof (sortedTests_positive data) as Hpos.
    rewrite (slow_filter_eq _ _ Hpos).
    apply (filter_sorted_prefix slowerEq); [| apply sortedTests_sorted].
    intros a b Hab Hb. unfold slowerEq in Hab.
    eapply DoubleFacts.ltb_leb_trans; eauto.
  - apply slowThreshold_bounds.
  - cbn [profileOf slowTests summary].
    intros t Ht. apply list_elem_of_In, filter_In in Ht. destruct Ht as [Hin Ht].
    pose proof (sortedTests_positive data) as Hpos. rewrite Forall_forall in Hpos.
    rewrite (DoubleFacts.orZero_pos _ (Hpos t (proj2 (list_elem_of_In _ _) Hin))) in Ht.
    eapply DoubleFacts.leb_ltb_trans; [apply slowThreshold_bounds | exact Ht].
  - apply slow_at_most_half.
Qed.
End ProfileLaws.

Module LlmLaws.
Import Llm LlmFacts AiWriter.

Section WithPlatform.
Context `{PathModule} `{Subprocess} `{Backend}.

Lemma addedBy_nil w w' : aiWrites w' = aiWrites w -> addedBy [] w w'.
Proof.
  intros Hlog. split; [rewrite app_nil_r; exact Hlog |]. split; [constructor |].
  intros p Hp. inversion Hp.
Qed.

Lemma addedBy_app a1 a2 w w1 w2 :
  Fs.preserves (files w) (files w1) -> Fs.preserves (files w1) (files w2) ->
  addedBy a1 w w1 -> addedBy a2 w1 w2 -> addedBy (a1 ++ a2) w w2.
Proof.
  intros H01 H12 (L1 & N1 & F1) (L2 & N2 & F2). split; [| split].
  - rewrite L2, L1, app_assoc. reflexivity.
  - apply NoDup_app. split; [exact N1 |]. split; [| exact N2].
    intros p Hp1 Hp2.
    destruct (F1 p Hp1) as (_ & c & _ & Hc). destruct (F2 p Hp2) as (Hnone & _).
    congruence.
  - intros p Hp. apply elem_of_app in Hp. destruct Hp as [Hp | Hp].
    + destruct (F1 p Hp) as (Hnone & c & Hne & Hc).
      split; [exact Hnone |]. exists c. split; [exact Hne |]. apply H12. exact Hc.
    + destruct (F2 p Hp) as (Hnone & c & Hne & Hc).
      split; [| eauto].
      destruct (files w !! p) as [n |] eqn:E; [| reflexivity].
      apply H01 in E. congruence.
Qed.

Section Writer.
Variable ask : string -> World -> Outcome string * FS.
Hypothesis ask_preserves : forall prompt w, Fs.preserves (files w) (ask prompt w).2.

Lemma writeAITest_adds projectRoot file generatedFiles w :
  Fs.preserves (files w) (files (writeAITest ask projectRoot file generatedFiles w).2) /\
  forall l, (writeAITest ask projectRoot file generatedFiles w).1 = Ok l ->
    exists added, l = (generatedFiles ++ added)%list /\
                  addedBy added w (writeAITest ask projectRoot file generatedFiles w).2.
Proof.
  unfold writeAITest.
  set (filePath := if isAbsolute file then file else join [projectRoot; file]).
  assert (Hnothing : forall (w' : World), aiWrites w' = aiWrites w ->
            forall l, Ok generatedFiles = Ok l ->
            exists added, l = (generatedFiles ++ added)%list /\ addedBy added w w').
  { intros w' Hlog l Hl. inversion Hl; subst. exists [].
    rewrite app_nil_r. split; [reflexivity | apply addedBy_nil; exact Hlog]. }
  destruct (Fs.pathExists filePath (files w)); cbn [negb].
  2: { split; [apply FsFacts.preserves_refl | apply Hnothing; reflexivity]. }
  destruct (Fs.readFile filePath (files w)) as [fileContent | e].
  2: { split; [apply FsFacts.preserves_refl | intros l Hl; discriminate]. }
  pose proof (ask_preserves (promptFor filePath fileContent) w) as Hask.
  destruct (ask (promptFor filePath fileContent) w) as [[generatedTest | e] fs1];
    cbn [fst snd] in *.
  2: { split; [exact Hask | apply Hnothing; reflexivity]. }
  destruct (String.eqb generatedTest "") eqn:Hempty.
  { split; [exact Hask | apply Hnothing; reflexivity]. }
  cbn [files withFiles].
  destruct (Fs.ensureDir (join [projectRoot; "__tests__"; "ai-generated"]) fs1)
    as [fs2 | e] eqn:Hdir.
  2: { split; [exact Hask | apply Hnothing; reflexivity]. }
  pose proof (FsFacts.ensureDir_preserves _ _ _ Hdir) as Hp2.
  assert (H02 : Fs.preserves (files w) fs2) by (eapply FsFacts.preserves_trans; eauto).
  destruct (Fs.pathExists _ fs2) eqn:Hex; cbn [negb].
  { split; [exact H02 | apply Hnothing; reflexivity]. }
  apply FsFacts.pathExists_false in Hex.
  destruct (Fs.writeFile _ generatedTest fs2) as [fs3 | e] eqn:Hw.
  2: { split; [exact H02 | apply Hnothing; reflexivity]. }
  pose proof (FsFacts.writeFile_fresh_preserves _ _ _ _ Hex Hw) as Hp3.
  cbn [fst snd files aiWrites logWrite withFiles].
  split; [eapply FsFacts.preserves_trans; eauto |].
  intros l Hl. inversion Hl; subst l; clear Hl.
  eexists. split; [reflexivity |].
  split; [reflexivity |]. split; [repeat constructor; intros Hin; inversion Hin |].
  intros p Hp. apply list_elem_of_singleton in Hp. subst p.
  split.
  - destruct (files w !! _) as [n |] eqn:E; [| reflexivity].
    apply H02 in E. congruence.
  - exists generatedTest. split.
    + intros ->. discriminate.
    + cbn [files]. exact (FsFacts.writeFile_written _ _ _ _ Hw).
Qed.

Lemma writeAITests_adds projectRoot entries : forall generatedFiles w,
  Fs.preserves (files w) (files (writeAITests ask projectRoot entries generatedFiles w).2) /\
  forall l, (writeAITests ask projectRoot entries generatedFiles w).1 = Ok l ->
    exists added, l = (generatedFiles ++ added)%list /\
                  addedBy added w (writeAITests ask projectRoot entries generatedFiles w).2.
Proof.
  induction entries as [| file rest IH]; intros generatedFiles w; cbn [writeAITests].
  - split; [apply FsFacts.preserves_refl |].
    intros l Hl. inversion Hl; subst. exists []. rewrite app_nil_r.
    split; [reflexivity | apply addedBy_nil; reflexivity].
  - destruct (writeAITest_adds projectRoot file generatedFiles w) as [Hp1 Ha1].
    destruct (writeAITest ask projectRoot file generatedFiles w) as [[g1 | e] w1];
      cbn [fst snd] in *.
    + destruct (IH g1 w1) as [Hp2 Ha2].
      split; [eapply FsFacts.preserves_trans; eauto |].
      intros l Hl. destruct (Ha1 g1 eq_refl) as (a1 & -> & Hadd1).
      destruct (Ha2 l Hl) as (a2 & -> & Hadd2).
      exists (a1 ++ a2)%list. split; [rewrite app_assoc; reflexivity |].
      eapply addedBy_app; eauto.
    + split; [exact Hp1 | intros l Hl; discriminate].
Qed.
End Writer.

Lemma generateCompletion_preserves :
  (forall p prompt fs, Fs.preserves fs (complete p prompt fs).2) ->
  forall prompt w, Fs.preserves (files w) (generateCompletion prompt w).2.
Proof.
  intros Hquiet prompt w. unfold generateCompletion.
  destruct (provider (proc w)); [apply Hquiet | apply FsFacts.preserves_refl].
Qed.

(** X9: with providers whose completion request leaves the existing files
    as they are, generateAITests changes no file that exists at the call;
    when it returns, the returned paths are exactly the test files it has
    written, in order and without repetition: each was free at the call
    and holds a generated test, which is not empty. *)
Theorem generateAITests_never_overwrites projectRoot entries w :
  (forall p prompt fs, Fs.preserves fs (complete p prompt fs).2) ->
  Fs.preserves (files w) (files (generateAITests projectRoot entries w).2) /\
  forall l, (generateAITests projectRoot entries w).1 = Ok l ->
    addedBy l w (generateAITests projectRoot entries w).2.
Proof.
  intros Hquiet. unfold generateAITests.
  destruct (initialize_keeps_log w) as [Hlog Hfiles].
  destruct (initialize w) as [[|] w1]; cbn [fst snd] in *.
  - destruct (writeAITests_adds generateCompletion
                (generateCompletion_preserves Hquiet) projectRoot (take 5 entries) [] w1)
      as [Hp Ha].
    rewrite <- Hfiles. split; [exact Hp |].
    intros l Hl. destruct (Ha l Hl) as (added & -> & (L & N & F)).
    cbn [app]. split; [rewrite L, Hlog; reflexivity |]. split; [exact N |].
    intros p Hp'. rewrite <- Hfiles. apply F, Hp'.
  - rewrite Hfiles. split; [apply FsFacts.preserves_refl | intros l Hl; discriminate].
Qed.

(** X10: when initialize succeeds, the configuration could be loaded and its
    provider answered the health check; from then on the service forwards
    every completion request to this provider, and reports its name. *)
Theorem initialize_then_complete w w' :
  initialize w = (true, w') ->
  exists c, loadConfig (files w) = Some c /\
            isHealthy (createProvider c) (files w) = true /\
            files w' = files w /\
            getProviderName w' = providerName (createProvider c) /\
            getProviderName w' <> "Unknown" /\
            forall prompt,
              generateCompletion prompt w' = complete (createProvider c) prompt (files w).
Proof.
  unfold initialize. destruct (loadConfig (files w)) as [c |]; [| discriminate].
  intros Hinit. injection Hinit as Hhealthy Hw. subst w'.
  cbn [files withProvider] in Hhealthy.
  exists c. split; [reflexivity |]. split; [exact Hhealthy |].
  split; [reflexivity |].
  unfold getProviderName, generateCompletion. cbn [provider proc files withProvider].
  split; [reflexivity |]. split; [| reflexivity].
  unfold providerName. destruct (class (createProvider c)); discriminate.
Qed.
(** X21: without a file mcp.config.json in the working directory, loadConfig
    always yields a configuration, taken from the environment: its type is
    one of the five provider types, it is another type than openai only if
    LLM_PROVIDER names exactly that type (any other value selects openai
    silently), only an openai configuration carries an API key, and
    createProvider makes the provider of the class of that type. *)
Theorem loadConfig_from_environment fs :
  fs !! resolve "mcp.config.json" = None ->
  exists c,
    loadConfig fs = Some c /\
    (type c, class (createProvider c)) ∈
      [("lmstudio", LMStudio); ("ollama", Ollama); ("llamacpp", LlamaCpp);
       ("mlx", MLX); ("openai", OpenAI)] /\
    (type c <> "openai" -> env "LLM_PROVIDER" = Some (type c)) /\
    (type c = "openai" <->
     envOr "LLM_PROVIDER" "openai" ∉ ["lmstudio"; "ollama"; "llamacpp"; "mlx"]) /\
    (apiKey c <> None -> type c = "openai").
Proof.
  intros Hnone. unfold loadConfig.
  apply FsFacts.pathExists_false in Hnone. rewrite Hnone.
  assert (Henv : forall v, envOr "LLM_PROVIDER" "openai" = v -> v <> "openai" ->
                           env "LLM_PROVIDER" = Some v).
  { unfold envOr. intros v Hv Hne. destruct (env "LLM_PROVIDER") as [x |]; [| congruence].
    destruct (String.eqb x ""); congruence. }
  destruct (String.eqb (envOr "LLM_PROVIDER" "openai") "lmstudio") eqn:E1;
    [| destruct (String.eqb (envOr "LLM_PROVIDER" "openai") "ollama") eqn:E2;
       [| destruct (String.eqb (envOr "LLM_PROVIDER" "openai") "llamacpp") eqn:E3;
          [| destruct (String.eqb (envOr "LLM_PROVIDER" "openai") "mlx") eqn:E4]]];
    rewrite ?String.eqb_eq, ?String.eqb_neq in *;
    eexists; (split; [reflexivity |]); cbn [type apiKey createProvider class];
    cbn [String.eqb Ascii.eqb Bool.eqb andb].
  - split; [set_solver |]. split; [intros _; apply Henv; [exact E1 | discriminate] |].
    split; [| intros Hk; contradiction].
    split; [discriminate |]. intros Hnot. exfalso. apply Hnot. rewrite E1. set_solver.
  - split; [set_solver |]. split; [intros _; apply Henv; [exact E2 | discriminate] |].
    split; [| intros Hk; contradiction].
    split; [discriminate |]. intros Hnot. exfalso. apply Hnot. rewrite E2. set_solver.
  - split; [set_solver |]. split; [intros _; apply Henv; [exact E3 | discriminate] |].
    split; [| intros Hk; contradiction].
    split; [discriminate |]. intros Hnot. exfalso. apply Hnot. rewrite E3. set_solver.
  - split; [set_solver |]. split; [intros _; apply Henv; [exact E4 | discriminate] |].
    split; [| intros Hk; contradiction].
    split; [discriminate |]. intros Hnot. exfalso. apply Hnot. rewrite E4. set_solver.
  - split; [set_solver |]. split; [intros Hne; contradiction |].
    split; [| reflexivity].
    split; [| reflexivity]. intros _ Hin.
    repeat (apply elem_of_cons in Hin; destruct Hin as [Hin | Hin]; [contradiction |]).
    inversion Hin.
Qed.
End WithPlatform.

Lemma loadConfig_from_environment_witness :
  exists c,
    @loadConfig Sample.path Sample.quietRunner Sample.backend Sample.served = Some c /\
    (type c, class (createProvider c)) ∈
      [("lmstudio", LMStudio); ("ollama", Ollama); ("llamacpp", LlamaCpp);
       ("mlx", MLX); ("openai", OpenAI)] /\
    (type c <> "openai" -> @env Sample.backend "LLM_PROVIDER" = Some (type c)) /\
    (type c = "openai" <->
     @envOr Sample.backend "LLM_PROVIDER" "openai" ∉ ["lmstudio"; "ollama"; "llamacpp"; "mlx"]) /\
    (apiKey c <> None -> type c = "openai").
Proof.
  apply (@loadConfig_from_environment Sample.path Sample.quietRunner Sample.backend
           Sample.served).
  vm_compute. reflexivity.
Defined.

Lemma generateAITests_never_overwrites_witness :
  let r := @generateAITests Sample.path Sample.quietRunner Sample.backend "/proj"
             ["src/A.tsx"; "src/B.tsx"] (Sample.started Sample.sixComponents) in
  Fs.preserves Sample.sixComponents (files r.2) /\
  forall l, r.1 = Ok l -> addedBy l (Sample.started Sample.sixComponents) r.2.
Proof.
  apply (@generateAITests_never_overwrites Sample.path Sample.quietRunner Sample.backend
           "/proj" ["src/A.tsx"; "src/B.tsx"] (Sample.started Sample.sixComponents)).
  intros p prompt fs. apply FsFacts.preserves_refl.
Defined.

Lemma initialize_then_complete_witness :
  exists c,
    @loadConfig Sample.path Sample.quietRunner Sample.backend Sample.served = Some c /\
    @isHealthy Sample.backend (createProvider c) Sample.served = true /\
    files (@initialize Sample.path Sample.quietRunner Sample.backend
             (Sample.started Sample.served)).2 = Sample.served /\
    getProviderName (@initialize Sample.path Sample.quietRunner Sample.backend
                       (Sample.started Sample.served)).2
      = providerName (createProvider c) /\
    getProviderName (@initialize Sample.path Sample.quietRunner Sample.backend
                       (Sample.started Sample.served)).2 <> "Unknown" /\
    forall prompt,
      @generateCompletion Sample.backend prompt
        (@initialize Sample.path Sample.quietRunner Sample.backend
           (Sample.started Sample.served)).2
      = @complete Sample.backend (createProvider c) prompt Sample.served.
Proof.
  apply (@initialize_then_complete Sample.path Sample.quietRunner Sample.backend
           (Sample.started Sample.served)).
  vm_compute. reflexivity.
Defined.
End LlmLaws.

Module SetupLaws.
Import Setup SetupFacts.

Section WithPlatform.
Context `{PathModule} `{Subprocess}.

(** When the phase completes, both files are there. *)
Lemma writeDefaults_both projectRoot fs fs' :
  writeDefaults projectRoot fs = (Ok tt, fs') ->
  is_Some (fs' !! vitestConfigPath projectRoot) /\
  is_Some (fs' !! setupPath projectRoot).
Proof.
  intros Hphase.
  assert (Hcfg : exists fs1,
    (if negb (Fs.pathExists (vitestConfigPath projectRoot) fs)
     then Fs.writeFile (vitestConfigPath projectRoot) defaultConfig fs else Ok fs) = Ok fs1 /\
    is_Some (fs1 !! vitestConfigPath projectRoot)).
  { unfold writeDefaults in Hphase.
    destruct (Fs.pathExists (vitestConfigPath projectRoot) fs) eqn:Ecfg; cbn [negb] in *.
    - exists fs. split; [reflexivity |]. apply FsFacts.pathExists_true. exact Ecfg.
    - destruct (Fs.writeFile _ defaultConfig fs) as [fs1 | e] eqn:Ew; [| discriminate].
      exists fs1. split; [reflexivity |].
      rewrite (FsFacts.writeFile_written _ _ _ _ Ew). eauto. }
  destruct Hcfg as (fs1 & Heq & Hcfg).
  unfold writeDefaults in Hphase. rewrite Heq in Hphase.
  destruct (Fs.pathExists (setupPath projectRoot) fs1) eqn:Eset; cbn [negb] in Hphase.
  - inversion Hphase; subst. split; [exact Hcfg |].
    apply FsFacts.pathExists_true. exact Eset.
  - destruct (Fs.ensureDir _ fs1) as [fs2 | e] eqn:Edir; [| discriminate].
    destruct (Fs.writeFile (setupPath projectRoot) defaultSetup fs2)
      as [fs3 | e] eqn:Ew; inversion Hphase; subst.
    pose proof (FsFacts.writeFile_written _ _ _ _ Ew) as Hset.
    split; [| rewrite Hset; eauto].
    destruct (decide (vitestConfigPath projectRoot = setupPath projectRoot)) as [Heq' | Hne].
    + rewrite Heq', Hset. eauto.
    + rewrite (FsFacts.writeFile_other _ _ _ _ _ Ew Hne).
      destruct Hcfg as [n Hn]. rewrite (FsFacts.ensureDir_preserves _ _ _ Edir _ _ Hn). eauto.
Qed.

Lemma writeDefaults_nothing_to_do projectRoot fs :
  is_Some (fs !! vitestConfigPath projectRoot) ->
  is_Some (fs !! setupPath projectRoot) ->
  writeDefaults projectRoot fs = (Ok tt, fs).
Proof.
  intros Hcfg Hset. unfold writeDefaults.
  apply FsFacts.pathExists_true in Hcfg. apply FsFacts.pathExists_true in Hset.
  rewrite Hcfg. cbn [negb]. rewrite Hset. reflexivity.
Qed.

(** X11: once the two files have been written, setupVitest writes nothing
    more: when its file-writing phase has completed, the phase of a second
    call leaves the files as they are, and the second call is the
    installation alone. *)
Theorem setupVitest_second_call projectRoot fs fs1 :
  writeDefaults projectRoot fs = (Ok tt, fs1) ->
  writeDefaults projectRoot fs1 = (Ok tt, fs1) /\
  (setupVitest projectRoot fs1).2 = (run (installCmd projectRoot fs1) projectRoot fs1).2.
Proof.
  intros Hphase. destruct (writeDefaults_both projectRoot fs fs1 Hphase) as [Hcfg Hset].
  pose proof (writeDefaults_nothing_to_do projectRoot fs1 Hcfg Hset) as Hagain.
  split; [exact Hagain |]. apply setupVitest_after_phase. exact Hagain.
Qed.

(** X12: in a project directory whose [src] is a directory, or is missing
    and can be made, setupVitest gets as far as the installation: both
    files are in place when the install command runs, the promise is
    fulfilled with the output of the command when it exits normally and
    rejected with its error message and error output otherwise. *)
Theorem setupVitest_installs projectRoot fs :
  fs !! dirname (vitestConfigPath projectRoot) = Some Dir ->
  fs !! dirname (setupPath projectRoot) = Some Dir \/
  (fs !! dirname (setupPath projectRoot) = None /\
   fs !! dirname (dirname (setupPath projectRoot)) = Some Dir /\
   dirname (setupPath projectRoot) <> vitestConfigPath projectRoot /\
   dirname (setupPath projectRoot) <> setupPath projectRoot) ->
  let fs1 := (writeDefaults projectRoot fs).2 in
  let r := run (installCmd projectRoot fs1) projectRoot fs1 in
  is_Some (fs1 !! vitestConfigPath projectRoot) /\
  is_Some (fs1 !! setupPath projectRoot) /\
  setupVitest projectRoot fs =
    (match exitError r.1 with
     | Some message =>
         Throw (ThrownObj [("error", JStr message); ("stderr", JStr (stderr r.1))])
     | None =>
         Ok (JObj [("message", JStr "Vitest setup complete"); ("stdout", JStr (stdout r.1))])
     end, r.2).
Proof.
  intros Hroot Hsrc fs1 r.
  pose proof (writeDefaults_completes projectRoot fs Hroot Hsrc) as Hok.
  assert (Hphase : writeDefaults projectRoot fs = (Ok tt, fs1)).
  { subst fs1. destruct (writeDefaults projectRoot fs) as [o fs']. simpl in *.
    rewrite Hok. reflexivity. }
  destruct (writeDefaults_both projectRoot fs fs1 Hphase) as [Hcfg Hset].
  split; [exact Hcfg |]. split; [exact Hset |].
  unfold setupVitest. rewrite Hphase. subst r.
  destruct (run (installCmd projectRoot fs1) projectRoot fs1) as [res fs2]. simpl.
  destruct (exitError res); reflexivity.
Qed.
End WithPlatform.

Lemma setupVitest_second_call_witness :
  let fs1 := (@writeDefaults Sample.path "/proj" Sample.sources).2 in
  @writeDefaults Sample.path "/proj" fs1 = (Ok tt, fs1) /\
  (@setupVitest Sample.path Sample.quietRunner "/proj" fs1).2
    = (@run Sample.quietRunner (@installCmd Sample.path "/proj" fs1) "/proj" fs1).2.
Proof.
  intros fs1.
  apply (@setupVitest_second_call Sample.path Sample.quietRunner "/proj" Sample.sources fs1).
  vm_compute. reflexivity.
Defined.

Lemma setupVitest_installs_witness :
  let fs1 := (@writeDefaults Sample.path "/proj" Sample.sources).2 in
  let r := @run Sample.failingRunner (@installCmd Sample.path "/proj" fs1) "/proj" fs1 in
  is_Some (fs1 !! @vitestConfigPath Sample.path "/proj") /\
  is_Some (fs1 !! @setupPath Sample.path "/proj") /\
  @setupVitest Sample.path Sample.failingRunner "/proj" Sample.sources =
    (match exitError r.1 with
     | Some message =>
         Throw (ThrownObj [("error", JStr message); ("stderr", JStr (stderr r.1))])
     | None =>
         Ok (JObj [("message", JStr "Vitest setup complete"); ("stdout", JStr (stdout r.1))])
     end, r.2).
Proof.
  apply (@setupVitest_installs Sample.path Sample.failingRunner "/proj" Sample.sources).
  - vm_compute. reflexivity.
  - left. vm_compute. reflexivity.
Defined.
End SetupLaws.

Module ServerLaws.
Import Llm Server.

Section WithPlatform.
Context `{PathModule} `{Subprocess} `{Coverage.CoverageJson} `{Profile.ReportJson} `{Backend}.

(** X13: the status of a response and its body go together, for every
    endpoint: a body that reports missing input or a failed comparison
    comes with 400, a body that reports a failure with 500, every other
    body with 200.  Only /coverage-diff answers 400 to a request that has a
    projectPath; /ai-health and /llm-config answer 200 also when no
    provider could be initialized; and a request that lacks the projectPath
    that its endpoint needs has no effect at all. *)
Theorem handle_status_and_body ep req w :
  match payload (handle ep req w).1 with
  | BError _ | BDiffFailed _ _ => status (handle ep req w).1 = 400
  | BFailure _ => status (handle ep req w).1 = 500
  | _ => status (handle ep req w).1 = 200
  end /\
  (status (handle ep req w).1 = 400 ->
   ep = CoverageDiff \/ missing (projectPath req) = true) /\
  (ep = AiHealth \/ ep = LlmConfig -> status (handle ep req w).1 = 200) /\
  (missing (projectPath req) = true ->
   ep = SetupVitest \/ ep = AnalyzeCoverage \/ ep = GenerateTests \/ ep = AiGenerateTests ->
   handle ep req w = (statusJson 400 (BError "Missing projectPath"), w)).
Proof.
  destruct ep; cbn [handle];
    unfold setupVitestHandler, analyzeCoverageHandler, generateTestsHandler,
      coverageDiffHandler, profileTestsHandler, aiGenerateTestsHandler,
      aiHealthHandler, llmConfigHandler.
  - destruct (missing (projectPath req)); [| destruct (Setup.setupVitest _ _) as [[r | e] fs']];
      cbn; intuition (discriminate || auto).
  - destruct (missing (projectPath req));
      [| destruct (Coverage.analyzeCoverage _ _) as [[r | e] fs']];
      cbn; intuition (discriminate || auto).
  - destruct (missing (projectPath req));
      [| destruct (callGenerateTests _ _ _) as [[r | e] fs']];
      cbn; intuition (discriminate || auto).
  - destruct (generateCoverageDiff _ _) as [[[diff | error cov] | e] fs'];
      cbn; intuition (discriminate || auto).
  - destruct (Profile.profileTests _) as [[p | e] fs'];
      [destruct (Profile.success p) |]; cbn; intuition (discriminate || auto).
  - destruct (missing (projectPath req));
      [| destruct (generateAITests _ _ _) as [[r | e] w1]];
      cbn; intuition (discriminate || auto).
  - destruct (initialize w) as [[|] w1]; cbn; intuition (discriminate || auto).
  - destruct (initialize w) as [[|] w1]; cbn; intuition (discriminate || auto).
Qed.

Lemma generateTests_run root given fs0 l fs1 :
  GenerateTests.generateTests root given fs0 = (Ok l, fs1) ->
  exists s, GenerateTests.reachable (GenerateTests.initial root given fs0) s /\
            GenerateTests.settled s = Some (Ok l) /\ GenerateTests.fs s = fs1.
Proof.
  intros Hrun. exists (GenerateTests.finalState root given fs0).
  split; [apply GenerateTestsFacts.finalState_reachable |].
  rewrite GenerateTestsFacts.generateTests_settles, Hrun.
  split; [reflexivity |].
  unfold GenerateTests.generateTests in Hrun. inversion Hrun. reflexivity.
Qed.

(** X14: a request to /generate-tests that names its files and is answered
    with a list of generated test files: the answer is a 200; the list has
    at most one entry for each distinct path of the request; each entry was
    free before the request and holds the render test of one of the
    requested files afterwards; and every file that was there before is
    unchanged, as is the process. *)
Theorem generateTestsHandler_generates req w root given l :
  projectPath req = Some root ->
  uncoveredFiles req = Some given ->
  payload (handle GenerateTests req w).1 = BGenerated l ->
  status (handle GenerateTests req w).1 = 200 /\
  (length l <= length (Diff.setOf given))%nat /\
  (forall p, p ∈ l ->
     files w !! p = None /\
     exists f pl, f ∈ given /\ GenerateTests.plan root f = Some pl /\
                  GenerateTests.testFile pl = p /\
                  files (handle GenerateTests req w).2 !! p
                    = Some (File (GenerateTests.template pl))) /\
  Fs.preserves (files w) (files (handle GenerateTests req w).2) /\
  proc (handle GenerateTests req w).2 = proc w.
Proof.
  intros Hroot Hgiven. cbn [handle]. unfold generateTestsHandler.
  rewrite Hroot, Hgiven. cbn [default from_option id missing callGenerateTests].
  destruct (String.eqb root ""); [intros Hl; discriminate Hl |].
  destruct (GenerateTests.generateTests root (Diff.setOf given) (files w))
    as [[l' | e] fs'] eqn:Hrun; intros Hl; cbn in Hl; [| discriminate Hl].
  inversion Hl; subst l'; clear Hl. cbn [fst snd status json files withFiles proc].
  destruct (generateTests_run _ _ _ _ _ Hrun) as (s & Hreach & Hsettled & <-).
  destruct (GenerateTestsLaws.settled_postcondition root (Diff.setOf given)
              (files w) s l Hreach Hsettled) as (_ & Hnew & Hlen).
  pose proof (GenerateTestsFacts.reachable_inv _ _ _ _ Hreach) as (Hpres & _ & _).
  split; [reflexivity |]. split; [exact Hlen |]. split; [| split; [exact Hpres | reflexivity]].
  intros p Hp. destruct (Hnew p Hp) as (Hfree & f & pl & Hf & Hpl & Htf & Hfile).
  split; [exact Hfree |]. exists f, pl.
  apply (proj1 (DiffFacts.elem_of_setOf _ _)) in Hf. auto.
Qed.
Lemma analyzeCoverage_ok root fs analysis fs1 :
  Coverage.analyzeCoverage root fs = (Ok analysis, fs1) ->
  exitError (run Coverage.vitestCmd root fs).1 = None /\
  fs1 = (run Coverage.vitestCmd root fs).2 /\
  exists coverage, Coverage.artifact root fs1 = Some coverage /\
                   Coverage.uncovered analysis = Coverage.collectUncovered coverage.
Proof.
  unfold Coverage.analyzeCoverage, Coverage.artifact.
  destruct (run Coverage.vitestCmd root fs) as [res fs']. cbn [fst snd].
  destruct (exitError res); [discriminate |].
  destruct (Fs.readFile _ fs') as [raw | e] eqn:Hread; [| discriminate].
  destruct (Coverage.parseCoverage raw) as [cov |] eqn:Hparse; [| discriminate].
  intros Heq. inversion Heq; subst. rewrite Hread.
  split; [reflexivity |]. split; [reflexivity |]. exists cov. auto.
Qed.

(** X20: a request to /generate-tests that names no files and is answered
    with a list of generated test files: the coverage run exited normally
    and left a coverage report, and every test file of the list belongs to
    a file that has an uncovered statement, branch or function in that
    report; it was free after the coverage run and holds the render test
    of that file.  A file that is covered entirely gets no test. *)
Theorem generateTestsHandler_from_coverage req w root l :
  projectPath req = Some root ->
  uncoveredFiles req = None ->
  payload (handle GenerateTests req w).1 = BGenerated l ->
  exitError (run Coverage.vitestCmd root (files w)).1 = None /\
  exists coverage,
    Coverage.artifact root (run Coverage.vitestCmd root (files w)).2 = Some coverage /\
    forall p, p ∈ l ->
      (run Coverage.vitestCmd root (files w)).2 !! p = None /\
      exists u pl,
        Coverage.isUncovered coverage u /\
        GenerateTests.plan root (Coverage.file u) = Some pl /\
        GenerateTests.testFile pl = p /\
        files (handle GenerateTests req w).2 !! p = Some (File (GenerateTests.template pl)).
Proof.
  intros Hroot Hgiven. cbn [handle]. unfold generateTestsHandler.
  rewrite Hroot, Hgiven. cbn [default from_option id missing callGenerateTests].
  destruct (String.eqb root ""); [intros Hl; discriminate Hl |].
  destruct (Coverage.analyzeCoverage root (files w)) as [[analysis | e] fs1] eqn:Hcov;
    [| intros Hl; discriminate Hl].
  destruct (analyzeCoverage_ok _ _ _ _ Hcov) as (Hexit & Hfs1 & coverage & Hart & Hunc).
  destruct (GenerateTests.generateTests root _ fs1) as [[l' | e] fs'] eqn:Hrun;
    intros Hl; cbn in Hl; [| discriminate Hl].
  inversion Hl; subst l'; clear Hl. cbn [fst snd files withFiles].
  destruct (generateTests_run _ _ _ _ _ Hrun) as (s & Hreach & Hsettled & <-).
  destruct (GenerateTestsLaws.settled_postcondition root _ fs1 s l Hreach Hsettled)
    as (_ & Hnew & _).
  split; [exact Hexit |]. exists coverage. rewrite <- Hfs1. split; [exact Hart |].
  intros p Hp. destruct (Hnew p Hp) as (Hfree & f & pl & Hf & Hpl & Htf & Hfile).
  split; [exact Hfree |].
  apply (proj1 (DiffFacts.elem_of_setOf _ _)) in Hf.
  apply list_elem_of_fmap in Hf. destruct Hf as (u & -> & Hu).
  rewrite Hunc in Hu. apply CoverageFacts.elem_of_collectUncovered in Hu.
  exists u, pl. auto.
Qed.
End WithPlatform.

Lemma generateTestsHandler_generates_witness :
  let req := {| projectPath := Some "/proj";
                uncoveredFiles := Some ["src/Card.tsx"; "src/Card.tsx"; "src/App.tsx"];
                baseBranch := None |} in
  let r := @handle Sample.path Sample.quietRunner Sample.coverageJson Sample.reportJson
             Sample.backend GenerateTests req (Sample.started Sample.sources) in
  status r.1 = 200 /\
  (length ["/proj/__tests__/src/Card.test.tsx"]
     <= length (Diff.setOf ["src/Card.tsx"; "src/Card.tsx"; "src/App.tsx"]))%nat /\
  (forall p, p ∈ ["/proj/__tests__/src/Card.test.tsx"] ->
     files (Sample.started Sample.sources) !! p = None /\
     exists f pl, f ∈ ["src/Card.tsx"; "src/Card.tsx"; "src/App.tsx"] /\
                  @GenerateTests.plan Sample.path "/proj" f = Some pl /\
                  GenerateTests.testFile pl = p /\
                  files r.2 !! p = Some (File (GenerateTests.template pl))) /\
  Fs.preserves (files (Sample.started Sample.sources)) (files r.2) /\
  proc r.2 = proc (Sample.started Sample.sources).
Proof.
  intros req r.
  apply (@generateTestsHandler_generates Sample.path Sample.quietRunner Sample.coverageJson
           Sample.reportJson Sample.backend req (Sample.started Sample.sources) "/proj"
           ["src/Card.tsx"; "src/Card.tsx"; "src/App.tsx"]
           ["/proj/__tests__/src/Card.test.tsx"]).
  - reflexivity.
  - reflexivity.
  - vm_compute. reflexivity.
Defined.
Lemma generateTestsHandler_from_coverage_witness :
  let req := {| projectPath := Some "/proj"; uncoveredFiles := None; baseBranch := None |} in
  let w := Sample.started Sample.project in
  let r := @handle Sample.path Sample.quietRunner Sample.coverageJson Sample.reportJson
             Sample.backend GenerateTests req w in
  let fs1 := (@run Sample.quietRunner Coverage.vitestCmd "/proj" (files w)).2 in
  exitError (@run Sample.quietRunner Coverage.vitestCmd "/proj" (files w)).1 = None /\
  exists coverage,
    @Coverage.artifact Sample.path Sample.coverageJson "/proj" fs1 = Some coverage /\
    forall p, p ∈ ["/proj/__tests__/src/App.test.tsx"] ->
      fs1 !! p = None /\
      exists u pl,
        Coverage.isUncovered coverage u /\
        @GenerateTests.plan Sample.path "/proj" (Coverage.file u) = Some pl /\
        GenerateTests.testFile pl = p /\
        files r.2 !! p = Some (File (GenerateTests.template pl)).
Proof.
  intros req w r fs1.
  apply (@generateTestsHandler_from_coverage Sample.path Sample.quietRunner
           Sample.coverageJson Sample.reportJson Sample.backend req w "/proj"
           ["/proj/__tests__/src/App.test.tsx"]).
  - reflexivity.
  - reflexivity.
  - vm_compute. reflexivity.
Defined.
End ServerLaws.

Module RecommendLaws.
Import Profile ProfileFacts Recommend.

Lemma filtered_names (p : Test -> bool) (l : list Test) (n : string) :
  n ∈ map fullName (List.filter p l) ->
  exists t, t ∈ l /\ p t = true /\ fullName t = n.
Proof.
  intros Hin. apply list_elem_of_fmap in Hin. destruct Hin as (t & -> & Hin).
  apply list_elem_of_In, filter_In in Hin. destruct Hin as [Hin Hp].
  exists t. split; [apply list_elem_of_In; exact Hin | auto].
Qed.

Lemma nonempty_names (l : list Test) : (0 <? length l)%nat = true -> map fullName l <> [].
Proof. destruct l; [discriminate | discriminate]. Qed.

(** X15: the recommendations of a profile come in the order performance,
    parallelization, completeness, each at most once, and none without an
    affected test; the affected tests are timed tests of the report.  A
    performance recommendation has severity high and names slow tests
    only, each of more than 2000 ms; a parallelization recommendation names
    at least six tests. *)
Theorem recommendations_sound data :
  sublist (map type (recommendationsOf data))
          ["performance"; "parallelization"; "completeness"] /\
  forall r, r ∈ recommendationsOf data ->
    affectedTests r <> [] /\
    (forall n, n ∈ affectedTests r -> exists t, t ∈ sortedTests data /\ fullName t = n) /\
    (type r = "performance" ->
     severity r = "high" /\
     forall n, n ∈ affectedTests r ->
       exists t, t ∈ slowTests (profileOf data) /\ fullName t = n /\
                 Double.ltb (Double.Fin 2000) (duration t) = true) /\
    (type r = "parallelization" -> (6 <= length (affectedTests r))%nat).
Proof.
  unfold recommendationsOf, generateRecommendations.
  set (sorted := sortedTests data). set (thr := slowThreshold sorted).
  set (verySlow := List.filter _ sorted).
  set (longRunning := List.filter (fun test => Double.ltb (Double.Fin 500) _) sorted).
  set (incomplete := List.filter (fun test => includes _ _ && _) sorted).
  destruct (slowThreshold_bounds data) as [Hnn Hthr]. fold sorted thr in Hnn, Hthr.
  pose proof (sortedTests_positive data) as Hpos. fold sorted in Hpos.
  rewrite Forall_forall in Hpos.
  split.
  - rewrite !map_app.
    change ["performance"; "parallelization"; "completeness"]
      with (["performance"] ++ ["parallelization"] ++ ["completeness"])%list.
    repeat apply sublist_app;
      match goal with |- context [if ?b then _ else _] => destruct b end;
      simpl; first [reflexivity | apply sublist_nil_l].
  - intros r Hr. rewrite !elem_of_app in Hr.
    destruct Hr as [Hr | [Hr | Hr]].
    + destruct (0 <? length verySlow)%nat eqn:Hn; [| inversion Hr].
      apply list_elem_of_singleton in Hr. subst r. cbn [affectedTests type severity].
      split; [apply nonempty_names; exact Hn |]. split; [| split; [| discriminate]].
      * intros n Hin. destruct (filtered_names _ _ _ Hin) as (t & Ht & _ & Hname). eauto.
      * intros _. split; [reflexivity |].
        intros n Hin. destruct (filtered_names _ _ _ Hin) as (t & Ht & Hp & Hname).
        rewrite (DoubleFacts.orZero_pos _ (Hpos t Ht)) in Hp.
        destruct (DoubleFacts.twice_threshold_above _ _ Hthr Hp) as [Hslow H2000].
        exists t. split; [| split; [exact Hname | exact H2000]].
        cbn [profileOf slowTests]. fold sorted. fold thr.
        apply list_elem_of_In, filter_In. split; [apply list_elem_of_In; exact Ht |].
        rewrite (DoubleFacts.orZero_pos _ (Hpos t Ht)). exact Hslow.
    + destruct (5 <? length longRunning)%nat eqn:Hn; [| inversion Hr].
      apply list_elem_of_singleton in Hr. subst r. cbn [affectedTests type severity].
      apply Nat.ltb_lt in Hn.
      split; [destruct longRunning; [simpl in Hn; lia | discriminate] |].
      split; [| split; [discriminate |]].
      * intros n Hin. destruct (filtered_names _ _ _ Hin) as (t & Ht & _ & Hname). eauto.
      * intros _. rewrite length_map. lia.
    + destruct (0 <? length incomplete)%nat eqn:Hn; [| inversion Hr].
      apply list_elem_of_singleton in Hr. subst r. cbn [affectedTests type severity].
      split; [apply nonempty_names; exact Hn |]. split; [| split; discriminate].
      intros n Hin. destruct (filtered_names _ _ _ Hin) as (t & Ht & _ & Hname). eauto.
Qed.
Example recommendations_sample :
  map message (recommendationsOf Sample.report) =
    ["1 tests are taking longer than 2s. Consider splitting them or adding timeouts.";
     "Consider running 6 long-running tests in parallel to improve overall test suite speed."].
Proof. vm_compute. reflexivity. Qed.
End RecommendLaws.

Module OpenAIPluginLaws.
Import Llm Server OpenAIPlugin AiWriter.

Section WithPlatform.
Context `{PathModule} `{Backend}.

End WithPlatform.

End OpenAIPluginLaws.

Module CiLaws.
Import Ci.

Section WithPlatform.
Context `{PathModule} `{Subprocess}.

Lemma writeFile_replaces p c fs fs' :
  Fs.writeFile p c fs = Ok fs' ->
  fs' !! p = Some (File c) /\ forall q, q <> p -> fs' !! q = fs !! q.
Proof.
  intros Hw. split; [exact (FsFacts.writeFile_written _ _ _ _ Hw) |].
  intros q Hq. exact (FsFacts.writeFile_other _ _ _ _ q Hw Hq).
Qed.

Lemma generateGitHubWorkflow_writes fs p fs' :
  generateGitHubWorkflow fs = (Ok p, fs') ->
  p = workflowPath /\ fs' !! workflowDir = Some Dir /\
  fs' !! workflowPath = Some (File (trim githubWorkflow)) /\
  forall q n, q <> workflowPath -> fs !! q = Some n -> fs' !! q = Some n.
Proof.
  unfold generateGitHubWorkflow.
  destruct (Fs.ensureDir workflowDir fs) as [fs1 | e] eqn:Hdir; [| discriminate].
  destruct (Fs.writeFile workflowPath (trim githubWorkflow) fs1) as [fs2 | e] eqn:Hw;
    [| discriminate].
  intros Heq. inversion Heq; subst. clear Heq.
  destruct (writeFile_replaces _ _ _ _ Hw) as [Hnew Hother].
  pose proof (FsFacts.mkdirs_is_dir _ _ _ _ Hdir) as Hd.
  split; [reflexivity |]. split; [| split; [exact Hnew |]].
  - rewrite Hother; [exact Hd |].
    intros Heq. rewrite Heq in Hd. unfold Fs.writeFile in Hw. rewrite Hd in Hw. discriminate.
  - intros q n Hq Hn. rewrite (Hother q Hq).
    exact (FsFacts.ensureDir_preserves _ _ _ Hdir _ _ Hn).
Qed.

Lemma generateGitLabWorkflow_writes fs p fs' :
  generateGitLabWorkflow fs = (Ok p, fs') ->
  p = gitlabPath /\ fs' !! gitlabPath = Some (File (trim gitlabConfig)) /\
  forall q, q <> gitlabPath -> fs' !! q = fs !! q.
Proof.
  unfold generateGitLabWorkflow.
  destruct (Fs.writeFile gitlabPath (trim gitlabConfig) fs) as [fs1 | e] eqn:Hw;
    [| discriminate].
  intros Heq. inversion Heq; subst. clear Heq.
  destruct (writeFile_replaces _ _ _ _ Hw) as [Hnew Hother]. auto.
Qed.

(** X17: when generateCIConfig succeeds, the platform is github or gitlab,
    the returned path is the workflow file of that platform, and the file
    holds the generated configuration whatever was at its path before: an
    existing workflow is replaced.  Every other node that was there is
    unchanged. *)
Theorem generateCIConfig_replaces platform projectName fs p readme msg fs' :
  generateCIConfig platform projectName fs = (CISuccess p readme msg, fs') ->
  (platform = "github" /\ p = workflowPath /\
   fs' !! p = Some (File (trim githubWorkflow)) \/
   platform = "gitlab" /\ p = gitlabPath /\
   fs' !! p = Some (File (trim gitlabConfig))) /\
  readme = generateCIReadme platform projectName /\
  forall q n, q <> p -> fs !! q = Some n -> fs' !! q = Some n.
Proof.
  unfold generateCIConfig.
  destruct (String.eqb platform "github") eqn:Egh.
  - apply String.eqb_eq in Egh.
    destruct (generateGitHubWorkflow fs) as [[p' | e] fs1] eqn:Hrun; [| discriminate].
    intros Heq. inversion Heq; subst p' readme msg fs1. clear Heq.
    destruct (generateGitHubWorkflow_writes _ _ _ Hrun) as (-> & _ & Hnew & Hother).
    split; [left; auto |]. split; [reflexivity | exact Hother].
  - destruct (String.eqb platform "gitlab") eqn:Egl; [| discriminate].
    apply String.eqb_eq in Egl.
    destruct (generateGitLabWorkflow fs) as [[p' | e] fs1] eqn:Hrun; [| discriminate].
    intros Heq. inversion Heq; subst p' readme msg fs1. clear Heq.
    destruct (generateGitLabWorkflow_writes _ _ _ Hrun) as (-> & Hnew & Hother).
    split; [right; auto |]. split; [reflexivity |].
    intros q n Hq Hn. rewrite (Hother q Hq). exact Hn.
Qed.

(** X18: when generateCIConfig fails, every node that was there is left as
    it was (directories may have been made), so that an existing workflow
    survives a failed generation; for a platform other than github nothing
    at all has changed, and for one that is neither github nor gitlab the
    error is the message about the unsupported platform.
    /generate-workflow answers such a request with 400 and this error. *)
Theorem generateCIConfig_failure req fs e fs' :
  generateCIConfig (default "github" (platform req)) (projectName req) fs
    = (CIFailure e, fs') ->
  Fs.preserves fs fs' /\
  (default "github" (platform req) <> "github" -> fs' = fs) /\
  (default "github" (platform req) <> "github" ->
   default "github" (platform req) <> "gitlab" -> e = JStr unsupported) /\
  generateWorkflowHandler req fs
    = ({| status := 400; payload := BWorkflowFailed e |}, fs').
Proof.
  intros Hrun. unfold generateWorkflowHandler. rewrite Hrun.
  enough (Hgoal : Fs.preserves fs fs' /\
            (default "github" (platform req) <> "github" -> fs' = fs) /\
            (default "github" (platform req) <> "github" ->
             default "github" (platform req) <> "gitlab" -> e = JStr unsupported))
    by (destruct Hgoal as (A & B & C); auto).
  revert Hrun. unfold generateCIConfig.
  destruct (String.eqb (default "github" (platform req)) "github") eqn:Egh.
  - apply String.eqb_eq in Egh. unfold generateGitHubWorkflow.
    destruct (Fs.ensureDir workflowDir fs) as [fs1 | e1] eqn:Hdir.
    + destruct (Fs.writeFile workflowPath (trim githubWorkflow) fs1) as [fs2 | e2];
        [discriminate |].
      intros Heq. inversion Heq; subst.
      split; [exact (FsFacts.ensureDir_preserves _ _ _ Hdir) |].
      split; intros Hne; contradiction.
    + intros Heq. inversion Heq; subst.
      split; [apply FsFacts.preserves_refl |]. split; intros Hne; contradiction.
  - destruct (String.eqb (default "github" (platform req)) "gitlab") eqn:Egl.
    + apply String.eqb_eq in Egl. unfold generateGitLabWorkflow.
      destruct (Fs.writeFile gitlabPath (trim gitlabConfig) fs) as [fs1 | e1];
        [discriminate |].
      intros Heq. inversion Heq; subst.
      split; [apply FsFacts.preserves_refl |]. split; [reflexivity |].
      intros _ Hne. contradiction.
    + intros Heq. inversion Heq; subst.
      split; [apply FsFacts.preserves_refl |]. split; reflexivity.
Qed.

(** X19: /ci-health changes nothing, and it sees what was generated: after
    a request to /generate-workflow that was answered with 200, the check
    of the platform of the request reports its configuration as
    available. *)
Theorem ciHealth_after_generation req fs :
  status (generateWorkflowHandler req fs).1 = 200 ->
  let fs' := (generateWorkflowHandler req fs).2 in
  (ciHealthHandler fs').2 = fs' /\
  exists github gitlab,
    payload (ciHealthHandler fs').1 = BHealth github gitlab /\
    (default "github" (platform req) = "github" -> available github = true) /\
    (default "github" (platform req) = "gitlab" -> available gitlab = true) /\
    (default "github" (platform req) = "github" \/
     default "github" (platform req) = "gitlab").
Proof.
  unfold generateWorkflowHandler.
  destruct (generateCIConfig (default "github" (platform req)) (projectName req) fs)
    as [[p readme msg | e] fs1] eqn:Hrun; [| discriminate].
  intros _. cbn [fst snd]. split; [reflexivity |].
  unfold ciHealthHandler. cbn [fst payload]. do 2 eexists. split; [reflexivity |].
  cbn [available].
  unfold generateCIConfig in Hrun.
  destruct (String.eqb (default "github" (platform req)) "github") eqn:Egh.
  - apply String.eqb_eq in Egh.
    destruct (generateGitHubWorkflow fs) as [[p' | e] fs2] eqn:Hgen; [| discriminate].
    inversion Hrun; subst. clear Hrun.
    destruct (generateGitHubWorkflow_writes _ _ _ Hgen) as (_ & Hdir & _).
    split; [| split; [| left; exact Egh]].
    + intros _. apply FsFacts.pathExists_true. rewrite Hdir. eauto.
    + intros Hgl. rewrite Egh in Hgl. discriminate.
  - destruct (String.eqb (default "github" (platform req)) "gitlab") eqn:Egl;
      [| discriminate].
    apply String.eqb_eq in Egl.
    destruct (generateGitLabWorkflow fs) as [[p' | e] fs2] eqn:Hgen; [| discriminate].
    inversion Hrun; subst. clear Hrun.
    destruct (generateGitLabWorkflow_writes _ _ _ Hgen) as (_ & Hnew & _).
    split; [| split; [| right; exact Egl]].
    + intros Hgh. rewrite Hgh in Egh. discriminate.
    + intros _. apply FsFacts.pathExists_true. rewrite Hnew. eauto.
Qed.
End WithPlatform.

Lemma generateCIConfig_replaces_witness :
  let r := @generateCIConfig Sample.path Sample.quietRunner "gitlab" None Sample.handEdited in
  Sample.handEdited !! "/srv/.gitlab-ci.yml" = Some (File "stages: [test]") /\
  (("gitlab" = "github" /\ "/srv/.gitlab-ci.yml" = @workflowPath Sample.path Sample.quietRunner /\
    r.2 !! "/srv/.gitlab-ci.yml" = Some (File (trim githubWorkflow)) \/
    "gitlab" = "gitlab" /\ "/srv/.gitlab-ci.yml" = @gitlabPath Sample.path Sample.quietRunner /\
    r.2 !! "/srv/.gitlab-ci.yml" = Some (File (trim gitlabConfig))) /\
   gitlabReadme "your-project" = generateCIReadme "gitlab" None /\
   forall q n, q <> "/srv/.gitlab-ci.yml" ->
               Sample.handEdited !! q = Some n -> r.2 !! q = Some n).
Proof.
  intros r. split; [vm_compute; reflexivity |].
  apply (@generateCIConfig_replaces Sample.path Sample.quietRunner "gitlab" None
           Sample.handEdited "/srv/.gitlab-ci.yml" (gitlabReadme "your-project")
           "Generated gitlab CI configuration" r.2).
  vm_compute. reflexivity.
Defined.

Lemma generateCIConfig_failure_witness :
  let req := {| platform := Some "jenkins"; projectName := None |} in
  Fs.preserves Sample.handEdited Sample.handEdited /\
  (default "github" (platform req) <> "github" -> Sample.handEdited = Sample.handEdited) /\
  (default "github" (platform req) <> "github" ->
   default "github" (platform req) <> "gitlab" -> JStr unsupported = JStr unsupported) /\
  @generateWorkflowHandler Sample.path Sample.quietRunner req Sample.handEdited
    = ({| status := 400; payload := BWorkflowFailed (JStr unsupported) |}, Sample.handEdited).
Proof.
  intros req.
  apply (@generateCIConfig_failure Sample.path Sample.quietRunner req Sample.handEdited
           (JStr unsupported) Sample.handEdited).
  vm_compute. reflexivity.
Defined.

Lemma ciHealth_after_generation_witness :
  let req := {| platform := None; projectName := Some "shop" |} in
  let fs' := (@generateWorkflowHandler Sample.path Sample.quietRunner req Sample.handEdited).2 in
  (@ciHealthHandler Sample.path Sample.quietRunner fs').2 = fs' /\
  exists github gitlab,
    payload (@ciHealthHandler Sample.path Sample.quietRunner fs').1 = BHealth github gitlab /\
    (default "github" (platform req) = "github" -> available github = true) /\
    (default "github" (platform req) = "gitlab" -> available gitlab = true) /\
    (default "github" (platform req) = "github" \/
     default "github" (platform req) = "gitlab").
Proof.
  intros req fs'.
  apply (@ciHealth_after_generation Sample.path Sample.quietRunner req Sample.handEdited).
  vm_compute. reflexivity.
Defined.
End CiLaws.
